(** * tensorflow_datasets.core: dataset builders and TensorFlow utilities

    A shallow embedding of
      - [tensorflow_datasets/core/dataset_builder.py]
        ([Split], [SplitFiles], [DatasetBuilder], [SplitGenerator],
        [GeneratorBasedDatasetBuilder]) and
      - [tensorflow_datasets/core/utils/tf_utils.py]
        ([TFGraphRunner], [assert_shape_match]),
    followed by the properties of the builder life cycle, of the
    version resolution and of the graph runner's cache.

    Python values are modelled as follows: [str] is [string] (a sequence of
    bytes compared byte by byte), a nullable argument is an [option],
    tuples and lists are [list]s, the dictionary of the graph runner is a
    [gmap].  Code that can raise returns a [Result]; code that reads or
    changes the world outside the builder threads a [World].  A method
    under [@api_utils.disallow_positional_args] takes the arguments passed
    by position as a list, before its keywords: [[]] is a call by
    keyword. *)

From Stdlib Require Import ZArith Lia Ascii.
From stdpp Require Import base option list strings sorting gmap pretty.

(** ** Python prelude *)

Module Py.

(** [s.startswith(p)] *)
Definition startswith (s p : string) : bool := String.prefix p s.

(** [s.endswith("/")], the only suffix test the code (through
    [os.path.join]) performs. *)
Fixpoint endswith_sep (s : string) : bool :=
  match s with
  | EmptyString => false
  | String c EmptyString => Ascii.eqb c "/"%char
  | String _ s' => endswith_sep s'
  end.

(** [pat in s] on strings: [pat] occurs at some offset of [s]. *)
Fixpoint contains (pat s : string) : bool :=
  String.prefix pat s ||
  match s with
  | EmptyString => false
  | String _ s' => contains pat s'
  end.

(** Truth value of a string, and of a string-or-None. *)
Definition truthy_str (s : string) : bool := negb (String.eqb s "").

Definition truthy (o : option string) : bool :=
  match o with
  | Some s => truthy_str s
  | None => false
  end.

(** [a or b] on a string-or-None and a string. *)
Definition or_else (a : option string) (b : string) : string :=
  match a with
  | Some s => if truthy_str s then s else b
  | None => b
  end.

(** [x is not None] *)
Definition is_not_None {A} (o : option A) : bool :=
  match o with
  | Some _ => true
  | None => false
  end.

(** [os.path.join(a, b)] of [posixpath]: an absolute [b] discards [a]; a
    separator is inserted unless [a] is empty or already ends with one. *)
Definition os_path_join (a b : string) : string :=
  if startswith b "/" then b
  else if negb (truthy_str a) || endswith_sep a then a +:+ b
  else a +:+ "/" +:+ b.

(** [sorted] on a list of strings, in the order of [str] comparison
    ([String.le]: byte by byte, a proper prefix first).  The order is total
    and antisymmetric, so the sorted rearrangement is unique and any
    sorting algorithm computes it. *)
Definition sorted (l : list string) : list string := merge_sort String.le l.

(** [repr] of an integer, of [None]-or-integer, and of a tuple of them:
    [(64, 64, 3)], [(None,)], [()]. *)
Definition repr_int (z : Z) : string := pretty z.

Definition repr_dim (d : option Z) : string :=
  match d with
  | Some z => repr_int z
  | None => "None"
  end.

Definition repr_tuple (items : list string) : string :=
  match items with
  | [] => "()"
  | [x] => "(" +:+ x +:+ ",)"
  | _ => "(" +:+ String.concat ", " items +:+ ")"
  end.

End Py.

(** ** Exceptions and results *)

(** The exceptions the two modules raise themselves, and [Foreign] for
    whatever a collaborator outside them (TensorFlow, the download manager,
    the file-format adapter, a hook of a concrete dataset) raises. *)
Inductive exn (E : Type) : Type :=
  | ValueError (msg : string)
  | AttributeError (msg : string)
  | Foreign (e : E).
Arguments ValueError {E} msg.
Arguments AttributeError {E} msg.
Arguments Foreign {E} e.

Inductive Result (X A : Type) : Type :=
  | Ok (a : A)
  | Raise (x : X).
Arguments Ok {X A} a.
Arguments Raise {X A} x.

(** ** tf_utils.py *)

Module tf_utils.

(** A static shape is a tuple of integers, a dynamic shape may hold
    [None]. *)
Definition static_shape := list Z.
Definition dynamic_shape := list (option Z).

Definition repr_static (s : static_shape) : string :=
  Py.repr_tuple (map Py.repr_int s).
Definition repr_dynamic (s : dynamic_shape) : string :=
  Py.repr_tuple (map Py.repr_dim s).

(** [s1 == s2] between an integer and an integer-or-None: [None] equals
    no integer. *)
Definition dim_eq (s1 : Z) (s2 : option Z) : bool :=
  match s2 with
  | Some d => Z.eqb s1 d
  | None => false
  end.

(** What the docstring asks of the two shapes: wherever the pattern
    [shape2] holds a dimension, [shape1] holds the same one. *)
Definition positions_agree (shape1 : static_shape) (shape2 : dynamic_shape) : Prop :=
  forall (i : nat) (d : Z), shape2 !! i = Some (Some d) -> shape1 !! i = Some d.

Definition length_message (shape1 : static_shape) (shape2 : dynamic_shape) : string :=
  "Shapes should have same length: " +:+ pretty (length shape1) +:+ " - "
    +:+ pretty (length shape2).

Definition mismatch_message (shape1 : static_shape) (shape2 : dynamic_shape) : string :=
  "Shape " +:+ repr_static shape1 +:+ " do not match " +:+ repr_dynamic shape2.

Definition assert_shape_match {E} (shape1 : static_shape) (shape2 : dynamic_shape)
  : Result (exn E) unit :=
  if negb (Nat.eqb (length shape1) (length shape2)) then
    Raise (ValueError (length_message shape1 shape2))
  else if negb (forallb (fun p => dim_eq p.1 p.2)
                  (filter (fun p : Z * option Z => Py.is_not_None p.2 = true)
                     (zip shape1 shape2))) then
    Raise (ValueError (mismatch_message shape1 shape2))
  else Ok tt.

End tf_utils.

(** ** State, exceptions and a log of calls

    A computation reads and changes a state [S], returns or raises, and
    emits the calls it makes to its collaborators, in order.  The state
    survives an exception, as the mutations of a Python object do. *)

Definition ST (Ev S X A : Type) : Type := S -> Result X A * S * list Ev.

Definition ret {Ev S X A} (a : A) : ST Ev S X A := fun s => (Ok a, s, []).

Definition raise {Ev S X A} (x : X) : ST Ev S X A := fun s => (Raise x, s, []).

Definition bind {Ev S X A B} (m : ST Ev S X A) (k : A -> ST Ev S X B) : ST Ev S X B :=
  fun s =>
    match m s with
    | (Ok a, s1, t1) => let '(r, s2, t2) := k a s1 in (r, s2, t1 ++ t2)
    | (Raise x, s1, t1) => (Raise x, s1, t1)
    end.

Definition emit {Ev S X} (e : Ev) : ST Ev S X unit := fun s => (Ok tt, s, [e]).

(** The three parts of what a computation leaves behind. *)
Definition outcome {Ev S X A} (x : Result X A * S * list Ev) : Result X A := x.1.1.
Definition state_after {Ev S X A} (x : Result X A * S * list Ev) : S := x.1.2.
Definition calls {Ev S X A} (x : Result X A * S * list Ev) : list Ev := x.2.

Declare Scope st_scope.
Delimit Scope st_scope with st.
Notation "x <- m ;; k" := (bind m (fun x => k))
  (at level 100, m at next level, right associativity) : st_scope.
Notation "m ;;; k" := (bind m (fun _ => k))
  (at level 100, right associativity) : st_scope.

(** [for x in l: body x] *)
Fixpoint for_each {Ev S X A} (l : list A) (body : A -> ST Ev S X unit) : ST Ev S X unit :=
  match l with
  | [] => ret tt
  | x :: l' => bind (body x) (fun _ => for_each l' body)
  end.

(** [[f x for x in l]] where [f] may raise. *)
Fixpoint map_result {X A B} (f : A -> Result X B) (l : list A) : Result X (list B) :=
  match l with
  | [] => Ok []
  | x :: l' =>
      match f x with
      | Ok y =>
          match map_result f l' with
          | Ok ys => Ok (y :: ys)
          | Raise e => Raise e
          end
      | Raise e => Raise e
      end
  end.

(** ** dataset_builder.py: data *)

Inductive Split : Type := TRAIN | VALIDATION | TEST.

#[global] Instance Split_eq_dec : EqDecision Split.
Proof. solve_decision. Defined.

Definition Split_value (s : Split) : string :=
  match s with
  | TRAIN => "train"
  | VALIDATION => "validation"
  | TEST => "test"
  end.

(** Modelled from the spec: [download.GenerateMode], which the [download]
    package defines outside the two modules; the download service has "a
    mode flag including at least REUSE_DATASET_IF_EXISTS". *)
Inductive GenerateMode : Type :=
  | REUSE_DATASET_IF_EXISTS
  | OTHER_MODE (tag : nat).

#[global] Instance GenerateMode_eq_dec : EqDecision GenerateMode.
Proof. solve_decision. Defined.

(** [datetime.datetime.now()] down to the minute, and
    [strftime("v_%Y%m%d_%H%M")]. *)
Record datetime : Type := {
  year : nat; month : nat; day : nat; hour : nat; minute : nat
}.

Fixpoint zeros (n : nat) : string :=
  match n with
  | O => ""
  | S n' => "0" +:+ zeros n'
  end.

Definition zfill (width : nat) (n : nat) : string :=
  let s := pretty n in zeros (width - String.length s) +:+ s.

Definition strftime_version (d : datetime) : string :=
  "v_" +:+ zfill 4 (year d) +:+ zfill 2 (month d) +:+ zfill 2 (day d)
       +:+ "_" +:+ zfill 2 (hour d) +:+ zfill 2 (minute d).

Definition DEFAULT_DATA_DIR : string := Py.os_path_join "~" "tensorflow_datasets".

Definition INCOMPLETE_MARKER : string := ".incomplete".

(** ** The collaborators

    Everything the two modules call but do not define: [tf.gfile],
    [os.path.expanduser], the clock, [download.DownloadManager], [naming],
    [file_format_adapter], [dataset_utils] and [api_utils].  [Env] is the
    state of the world they act on (file system, clock), [Err] what they
    raise, [PyObject] what a caller may pass by position. *)
Class Platform : Type := {
  Env : Type;
  Err : Type;
  PyObject : Type;
  DownloadManager : Type;
  Generator : Type;
  Dataset : Type;
  FileFn : Type;
  FeatureDict : Type;
  (* tf.gfile *)
  gfile_Exists : option string -> Env -> Result Err bool;
  gfile_ListDirectory : string -> Env -> Result Err (list string);
  gfile_MakeDirs : option string -> Env -> Result Err unit * Env;
  (* os.path, datetime *)
  expanduser : string -> string;
  datetime_now : Env -> datetime;
  (* download *)
  DownloadManager_init : string -> Env -> Result Err DownloadManager * Env;
  mode : DownloadManager -> GenerateMode;
  (* naming *)
  filepaths_for_dataset_split :
    string -> Split -> option Z -> option string -> option string -> Result Err (list string);
  filepattern_for_dataset_split :
    string -> Split -> option string -> option string -> Result Err string;
  (* file_format_adapter *)
  do_files_exist : list string -> Env -> Result Err bool;
  incomplete_dir_enter : option string -> Env -> Result Err string * Env;
  incomplete_dir_exit :
    option string -> string -> option (exn Err) -> Env -> Result Err bool * Env;
  (* dataset_utils *)
  build_dataset :
    string -> FileFn -> (FeatureDict -> FeatureDict) -> bool -> Env -> Result Err Dataset * Env;
  (* api_utils: the text of the error for a call by position *)
  positional_args_message : string -> list PyObject -> string
}.

(** The arguments of [tf.logging.info] after the format string. *)
Inductive LogArg : Type :=
  | ArgStr (s : option string)
  | ArgSplits (l : list Split).

(** The calls that leave the two modules, as they are recorded. *)
Inductive Event `{Platform} : Type :=
  | LogInfo (fmt : string) (args : list LogArg)
  | MakeDirs (path : option string)
  | NewDownloadManager (cache_dir : string)
  | EnterIncompleteDir (final : option string)
  | ExitIncompleteDir (final : option string) (tmp : string) (failed : bool)
  | CallDownloadAndPrepare (dl_manager : DownloadManager)
  | WriteFromGenerator (generator_fn : Generator) (output_files : list string)
  | BuildDataset (filepattern : string) (shuffle_files : bool).

(** Computations of the collaborators' world, and of a builder in it. *)
Definition W `{Platform} (A : Type) : Type := ST Event Env Err A.

(** A call that only reads the world, and one that may change it and is
    recorded. *)
Definition query `{Platform} {A} (f : Env -> Result Err A) : W A :=
  fun env => (f env, env, []).

Definition call `{Platform} {A} (e : Event) (f : Env -> Result Err A * Env) : W A :=
  fun env => let '(r, env') := f env in (r, env', [e]).

Definition log_info `{Platform} (fmt : string) (args : list LogArg) : W unit :=
  emit (LogInfo fmt args).

Definition of_result `{Platform} {A} (r : Result Err A) : W A :=
  fun env => (r, env, []).

(** A computation of the world inside a method that can also raise an
    exception of its own: what a collaborator raises is passed on as it
    is, whatever its class. *)
Definition foreign `{Platform} {A} (m : W A) : ST Event Env (exn Err) A :=
  fun env =>
    match m env with
    | (Ok a, env', tr) => (Ok a, env', tr)
    | (Raise e, env', tr) => (Raise (Foreign e), env', tr)
    end.

(** Modelled from the spec: the decorator
    [api_utils.disallow_positional_args], whose module [api_utils] is not
    among the sources and which the specification does not describe.  It is
    taken from its name and from the docstrings of the methods it decorates
    ("Callers must pass arguments as keyword arguments."): a call that
    passes an argument by position, after [self], raises [ValueError]
    before the body of the method runs; a call by keyword runs the body.
    [args] are the arguments passed by position; the text of the error is
    [positional_args_message]. *)
Definition disallow_positional_args `{Platform} {S A} (fn_name : string)
    (args : list PyObject) (fn : ST Event S (exn Err) A) : ST Event S (exn Err) A :=
  match args with
  | [] => fn
  | _ :: _ => raise (ValueError (positional_args_message fn_name args))
  end.

Local Open Scope st_scope.

(** *** class SplitFiles *)

Module SplitFiles.

Record t : Type := {
  dataset_name : string;
  split : Split;
  num_shards : option Z;
  data_dir : option string;
  filetype_suffix : option string
}.

Section methods.
Context `{Platform}.

Definition filepaths (self : t) : Result Err (list string) :=
  filepaths_for_dataset_split
    (dataset_name self) (split self) (num_shards self) (data_dir self)
    (filetype_suffix self).

Definition filepattern (self : t) : Result Err string :=
  filepattern_for_dataset_split
    (dataset_name self) (split self) (data_dir self) (filetype_suffix self).

Definition exists_ (self : t) : W bool :=
  paths <- of_result (filepaths self);;
  query (do_files_exist paths).

End methods.
End SplitFiles.

(** *** class SplitGenerator *)

Module SplitGenerator.

Record t `{Platform} : Type := {
  generator_fn : Generator;
  split_files : list SplitFiles.t
}.

Section methods.
Context `{Platform}.

(** [[split.exists() for split in self.split_files]]: every descriptor
    is asked, also after one has answered no. *)
Fixpoint exists_all (l : list SplitFiles.t) : W (list bool) :=
  match l with
  | [] => ret []
  | sf :: l' =>
      b <- SplitFiles.exists_ sf;;
      bs <- exists_all l';;
      ret (b :: bs)
  end.

Definition output_files_exist (self : t) : W bool :=
  bs <- exists_all (split_files self);;
  ret (forallb id bs).

(** The loop of [output_files]: [acc.extend(split.filepaths)] for each
    descriptor in turn. *)
Fixpoint extend_all (acc : list string) (l : list SplitFiles.t) : Result Err (list string) :=
  match l with
  | [] => Ok acc
  | sf :: l' =>
      match SplitFiles.filepaths sf with
      | Ok paths => extend_all (acc ++ paths) l'
      | Raise e => Raise e
      end
  end.

Definition output_files (self : t) : Result Err (list string) :=
  extend_all [] (split_files self).

Definition splits (self : t) : list Split :=
  map SplitFiles.split (split_files self).

End methods.
End SplitGenerator.

(** *** class DatasetBuilder *)

Module DatasetBuilder.

(** The state of a builder object. [name] is supplied by the registering
    metaclass and never assigned afterwards. *)
Record t : Type := {
  name : string;
  _data_dir_root : string;
  _data_dir : option string
}.

Definition set_data_dir (d : option string) (self : t) : t :=
  {| name := name self; _data_dir_root := _data_dir_root self; _data_dir := d |}.

Section methods.
Context `{Platform}.

(** Computations that may also assign fields of [self]. *)
Definition M (A : Type) : Type := ST Event (t * Env) (exn Err) A.

Definition liftW {A} (m : W A) : M A :=
  fun s =>
    match m s.2 with
    | (Ok a, env, tr) => (Ok a, (s.1, env), tr)
    | (Raise e, env, tr) => (Raise (Foreign e), (s.1, env), tr)
    end.

Definition get_self : M t := fun s => (Ok s.1, s, []).

Definition assign_data_dir (d : option string) : M unit :=
  fun s => (Ok tt, (set_data_dir d s.1, s.2), []).

(** [_get_data_dir(self, version=None)]. [if version_dirnames:] and
    [version_dirnames[-1]] are one [match]: a list has a last item
    exactly when it is not empty. *)
Definition _get_data_dir (self : t) (version : option string) : W (option string) :=
  let data_root_dir := Py.os_path_join (_data_dir_root self) (name self) in
  match version with
  | Some v => ret (Some (Py.os_path_join data_root_dir v))
  | None =>
      present <- query (gfile_Exists (Some data_root_dir));;
      if present : bool then
        entries <- query (gfile_ListDirectory data_root_dir);;
        let version_dirnames :=
          List.filter (fun f => negb (Py.contains INCOMPLETE_MARKER f)) (Py.sorted entries) in
        match last version_dirnames with
        | Some latest => ret (Some (Py.os_path_join data_root_dir latest))
        | None => ret None
        end
      else ret None
  end.

(** [__init__(self, data_dir=None)] under its decorator; the class
    (through its metaclass) fixes [name].  [args] are the arguments passed
    by position, [data_dir] the keyword. *)
Definition __init__ (cls_name : string) (args : list PyObject) (data_dir : option string)
  : ST Event Env (exn Err) t :=
  disallow_positional_args "__init__" args
    (foreign
       (let root := expanduser (Py.or_else data_dir DEFAULT_DATA_DIR) in
        let self := {| name := cls_name; _data_dir_root := root; _data_dir := None |} in
        d <- _get_data_dir self None;;
        ret (set_data_dir d self))).

Definition ONLY_ONE_MESSAGE : string :=
  "Only one of dl_manager and cache_dir can be defined.".

(** [with file_format_adapter.incomplete_dir(final) as tmp: body tmp].
    The exit of the context manager is told whether the body raised and
    decides whether that exception goes on. *)
Definition with_incomplete_dir (final : option string) (body : string -> M unit) : M unit :=
  tmp <- liftW (call (EnterIncompleteDir final) (incomplete_dir_enter final));;
  fun s =>
    match body tmp s with
    | (Ok _, s1, t1) =>
        let '(r, s2, t2) :=
          liftW (call (ExitIncompleteDir final tmp false)
                   (incomplete_dir_exit final tmp None)) s1 in
        (match r with Ok _ => Ok tt | Raise x => Raise x end, s2, t1 ++ t2)
    | (Raise x, s1, t1) =>
        let '(r, s2, t2) :=
          liftW (call (ExitIncompleteDir final tmp true)
                   (incomplete_dir_exit final tmp (Some x))) s1 in
        (match r with
         | Ok true => Ok tt
         | Ok false => Raise x
         | Raise y => Raise y
         end, s2, t1 ++ t2)
    end.

Section hooks.
(** The abstract methods, supplied by a concrete dataset. They read
    [self]; none of the hooks in the sources assigns one of its fields. *)
Variable _download_and_prepare : t -> DownloadManager -> W unit.
Variable _as_dataset : t -> Split -> option bool -> W Dataset.

(** [download_and_prepare], from the comment "If the dataset already
    exists" to its end: what the method does once [dl_manager] has its
    final value.  That value is never [None] (see
    [download_and_prepare_supplied] and [download_and_prepare_builds]
    below); the branch for [None] stands for the failure of
    [dl_manager.mode]. *)
Definition prepare_with_manager (dl_manager : option DownloadManager) : M unit :=
  self <- get_self;;
  match dl_manager with
  | None => raise (AttributeError "'NoneType' object has no attribute 'mode'")
  | Some dl =>
      if Py.truthy (_data_dir self)
         && bool_decide (mode dl = REUSE_DATASET_IF_EXISTS) then
        liftW (log_info "Reusing dataset %s (%s)"
                 [ArgStr (Some (name self)); ArgStr (_data_dir self)])
      else
        curr_date <- liftW (query (fun env => Ok (datetime_now env)));;
        let version_str := strftime_version curr_date in
        data_dir <- liftW (_get_data_dir self (Some version_str));;
        liftW (log_info "Generating dataset %s (%s)"
                 [ArgStr (Some (name self)); ArgStr data_dir]);;;
        with_incomplete_dir data_dir (fun data_dir_tmp =>
          assign_data_dir (Some data_dir_tmp);;;
          self' <- get_self;;
          liftW (emit (CallDownloadAndPrepare dl));;;
          liftW (_download_and_prepare self' dl);;;
          assign_data_dir data_dir)
  end.

(** [download_and_prepare(self, cache_dir=None, dl_manager=None)] under
    its decorator: the check of the arguments and the choice of the
    download manager, then [prepare_with_manager].  [args] are the
    arguments passed by position, [cache_dir] and [dl_manager] the
    keywords. *)
Definition download_and_prepare (args : list PyObject)
    (cache_dir : option string) (dl_manager : option DownloadManager) : M unit :=
  disallow_positional_args "download_and_prepare" args
    (if Py.truthy cache_dir && Py.is_not_None dl_manager then
       raise (ValueError ONLY_ONE_MESSAGE)
     else
       self <- get_self;;
       let cache_dir :=
         if negb (Py.truthy cache_dir) && negb (Py.is_not_None dl_manager)
         then Some (Py.os_path_join (_data_dir_root self) "tmp")
         else cache_dir in
       dl_manager <-
         match cache_dir with
         | Some dir =>
             if Py.truthy_str dir then
               dm <- liftW (call (NewDownloadManager dir) (DownloadManager_init dir));;
               ret (Some dm)
             else ret dl_manager
         | None => ret dl_manager
         end;;
       prepare_with_manager dl_manager).

(** [as_dataset(self, split, shuffle_files=None)] under its decorator;
    [args] are the arguments passed by position, [split] and
    [shuffle_files] the keywords. *)
Definition as_dataset (self : t) (args : list PyObject)
    (split : Split) (shuffle_files : option bool) : ST Event Env (exn Err) Dataset :=
  disallow_positional_args "as_dataset" args (foreign (_as_dataset self split shuffle_files)).

End hooks.

(** The download manager a call of [download_and_prepare] by keyword
    works with, the world in which it then starts, and the call recorded on
    the way:
    the manager that was passed in, or one built from the cache directory
    that was passed in, or one built from the [tmp] directory of the
    root. *)
Inductive selects (self : t) (env : Env)
  : option string -> option DownloadManager -> DownloadManager -> Env -> list Event -> Prop :=
  | selects_given cache_dir dl :
      Py.truthy cache_dir = false ->
      selects self env cache_dir (Some dl) dl env []
  | selects_cache dir dm env0 :
      Py.truthy_str dir = true ->
      DownloadManager_init dir env = (Ok dm, env0) ->
      selects self env (Some dir) None dm env0 [NewDownloadManager dir]
  | selects_default cache_dir dm env0 :
      Py.truthy cache_dir = false ->
      DownloadManager_init (Py.os_path_join (_data_dir_root self) "tmp") env = (Ok dm, env0) ->
      selects self env cache_dir None dm env0
        [NewDownloadManager (Py.os_path_join (_data_dir_root self) "tmp")].

(** [e] is what a collaborator raised in the generation of a new version
    with the manager [dm], started in the world [env0]: the entry of the
    staging directory, or the hook on the staged builder, or the exit of the
    staging directory. *)
Definition generation_raised (hook : t -> DownloadManager -> W unit)
    (self : t) (dm : DownloadManager) (env0 : Env) (e : Err) : Prop :=
  let final :=
    Some (Py.os_path_join (Py.os_path_join (_data_dir_root self) (name self))
            (strftime_version (datetime_now env0))) in
  (exists env1, incomplete_dir_enter final env0 = (Raise e, env1))
  \/ exists tmp env1,
       incomplete_dir_enter final env0 = (Ok tmp, env1)
       /\ ((exists env2 th,
              hook (set_data_dir (Some tmp) self) dm env1 = (Raise e, env2, th))
           \/ exists exc env2 env3,
                incomplete_dir_exit final tmp exc env2 = (Raise e, env3)).

(** What a call supplies, by position or by keyword: Python binds the
    first argument passed by position to [cache_dir] and the second to
    [dl_manager]. *)
Definition supplies_cache_dir (args : list PyObject) (cache_dir : option string) : Prop :=
  args <> [] \/ cache_dir <> None.

Definition supplies_dl_manager (args : list PyObject)
    (dl_manager : option DownloadManager) : Prop :=
  2 <= length args \/ dl_manager <> None.

End methods.
End DatasetBuilder.

(** *** class GeneratorBasedDatasetBuilder *)

Module GeneratorBasedDatasetBuilder.

(** What [_file_format_adapter] returns, as far as the builder uses it. *)
Record FileFormatAdapter `{Platform} : Type := {
  write_from_generator : Generator -> list string -> Env -> Result Err unit * Env;
  dataset_from_filename : FileFn;
  filetype_suffix : option string
}.

Section methods.
Context `{Platform}.

(** The abstract methods of the class. *)
Variable _dataset_split_generators :
  DatasetBuilder.t -> DownloadManager -> W (list SplitGenerator.t).
Variable _file_format_adapter : FileFormatAdapter.

Definition _preprocess (feature_dict : FeatureDict) : FeatureDict := feature_dict.

(** [_split_files(self, **kwargs)] with the two keywords its callers
    pass. *)
Definition _split_files (self : DatasetBuilder.t) (split : Split) (num_shards : option Z)
  : SplitFiles.t :=
  {| SplitFiles.dataset_name := DatasetBuilder.name self;
     SplitFiles.split := split;
     SplitFiles.num_shards := num_shards;
     SplitFiles.data_dir := DatasetBuilder._data_dir self;
     SplitFiles.filetype_suffix := filetype_suffix _file_format_adapter |}.

(** The body of the loop of [_download_and_prepare]. *)
Definition prepare_split_generator (split_generator : SplitGenerator.t) : W unit :=
  done <- SplitGenerator.output_files_exist split_generator;;
  if done : bool then
    log_info "Skipping download_and_prepare for splits %s as all files exist."
      [ArgSplits (SplitGenerator.splits split_generator)]
  else
    files <- of_result (SplitGenerator.output_files split_generator);;
    call (WriteFromGenerator (SplitGenerator.generator_fn split_generator) files)
      (write_from_generator _file_format_adapter
         (SplitGenerator.generator_fn split_generator) files).

Definition _download_and_prepare (self : DatasetBuilder.t) (dl_manager : DownloadManager)
  : W unit :=
  present <- query (gfile_Exists (DatasetBuilder._data_dir self));;
  (if negb present then
     call (MakeDirs (DatasetBuilder._data_dir self))
       (gfile_MakeDirs (DatasetBuilder._data_dir self))
   else ret tt);;;
  generators <- _dataset_split_generators self dl_manager;;
  for_each generators prepare_split_generator.

(** [shuffle_files] as it reaches [build_dataset]. *)
Definition shuffle_files_arg (split : Split) (shuffle_files : option bool) : bool :=
  match shuffle_files with
  | None => bool_decide (split = TRAIN)
  | Some b => b
  end.

Definition _as_dataset (self : DatasetBuilder.t) (split : Split) (shuffle_files : option bool)
  : W Dataset :=
  filepattern <- of_result (SplitFiles.filepattern (_split_files self split None));;
  let shuffle := shuffle_files_arg split shuffle_files in
  call (BuildDataset filepattern shuffle)
    (build_dataset filepattern (dataset_from_filename _file_format_adapter)
       _preprocess shuffle).

(** [as_dataset] of a generator-based builder: the inherited method with
    the class's own [_as_dataset]. *)
Definition as_dataset (self : DatasetBuilder.t) (args : list PyObject)
    (split : Split) (shuffle_files : option bool) : ST Event Env (exn Err) Dataset :=
  DatasetBuilder.as_dataset _as_dataset self args split shuffle_files.

(** [download_and_prepare] of a generator-based builder. *)
Definition download_and_prepare (args : list PyObject)
    (cache_dir : option string) (dl_manager : option DownloadManager)
  : DatasetBuilder.M unit :=
  DatasetBuilder.download_and_prepare _download_and_prepare args cache_dir dl_manager.

End methods.

(** What the loop of [_download_and_prepare] is meant to do, generator
    by generator and in their order, from a world [env] to a world [env']:
    a generator whose output files all exist is passed over with a log
    line; for any other, [write_from_generator] is called once, with its
    generator function and the file paths of its descriptors, one
    descriptor after the other. *)
Inductive prepares `{Platform} (adapter : FileFormatAdapter)
  : list SplitGenerator.t -> Env -> Env -> list Event -> Prop :=
  | prepares_nil env : prepares adapter [] env env []
  | prepares_skip g gs env env' tr :
      outcome (SplitGenerator.output_files_exist g env) = Ok true ->
      prepares adapter gs env env' tr ->
      prepares adapter (g :: gs) env env'
        (LogInfo "Skipping download_and_prepare for splits %s as all files exist."
           [ArgSplits (SplitGenerator.splits g)] :: tr)
  | prepares_write g gs env paths env1 env' tr :
      outcome (SplitGenerator.output_files_exist g env) = Ok false ->
      map_result SplitFiles.filepaths (SplitGenerator.split_files g) = Ok paths ->
      write_from_generator adapter (SplitGenerator.generator_fn g) (concat paths) env
        = (Ok tt, env1) ->
      prepares adapter gs env1 env' tr ->
      prepares adapter (g :: gs) env env'
        (WriteFromGenerator (SplitGenerator.generator_fn g) (concat paths) :: tr).

(** The call, if any, that one generator accounts for. *)
Definition accounts_for `{Platform} (g : SplitGenerator.t) (e : Event) : Prop :=
  e = LogInfo "Skipping download_and_prepare for splits %s as all files exist."
        [ArgSplits (SplitGenerator.splits g)]
  \/ exists paths,
       map_result SplitFiles.filepaths (SplitGenerator.split_files g) = Ok paths
       /\ e = WriteFromGenerator (SplitGenerator.generator_fn g) (concat paths).

End GeneratorBasedDatasetBuilder.

(** ** tf_utils.py: class TFGraphRunner *)

(** The TensorFlow and NumPy runtime the runner drives. [TF] is the state
    of the runtime (default graph, open sessions), [id] is Python's
    [id] on callables, [dtype] names the element type of an array. *)
Class TensorFlow : Type := {
  TF : Type;
  TFErr : Type;
  Fct : Type;
  PyValue : Type;
  ndarray : Type;
  Graph : Type;
  Session : Type;
  Placeholder : Type;
  Tensor : Type;
  EagerTensor : Type;
  id : Fct -> positive;
  dtype : ndarray -> string;
  shape : ndarray -> list Z;
  np_array : PyValue -> Result TFErr ndarray;
  executing_eagerly : TF -> bool;
  eager_call : Fct -> ndarray + PyValue -> TF -> Result TFErr EagerTensor * TF;
  numpy : EagerTensor -> Result TFErr ndarray;
  graph_enter : TF -> Graph * TF;
  graph_exit : Graph -> TF -> TF;
  tf_placeholder : string -> list Z -> TF -> Result TFErr Placeholder * TF;
  fct_call : Fct -> Placeholder -> TF -> Result TFErr Tensor * TF;
  tf_Session : TF -> Result TFErr Session * TF;
  session_run : Session -> Tensor -> Placeholder -> ndarray -> TF -> Result TFErr ndarray * TF
}.

Module TFGraphRunner.

Record GraphRun `{TensorFlow} : Type := {
  graph : Graph;
  session : Session;
  placeholder : Placeholder;
  output : Tensor
}.

Record RunArgs `{TensorFlow} : Type := {
  fct : Fct;
  input : ndarray
}.

(** The key of the cache: [(id(fct), input.dtype, input.shape)]. *)
Abbreviation Signature := (positive * string * list Z)%type.

(** The calls into the runtime, as they are recorded. *)
Inductive TFEvent `{TensorFlow} : Type :=
  | EagerCall (f : Fct) (input_ : ndarray + PyValue)
  | NewGraph (g : Graph)
  | NewPlaceholder (dt : string) (sh : list Z)
  | TraceFct (f : Fct) (p : Placeholder)
  | NewSession
  | SessionRun (gr : GraphRun) (input_ : ndarray).

(** The state of a runner object. *)
Record t `{TensorFlow} : Type := {
  _graph_run_cache : gmap Signature GraphRun
}.

Section methods.
Context `{TensorFlow}.

Definition R (A : Type) : Type := ST TFEvent (t * TF) TFErr A.

Definition tf_call {A} (e : TFEvent) (f : TF -> Result TFErr A * TF) : R A :=
  fun s => let '(r, tf') := f s.2 in (r, (s.1, tf'), [e]).

Definition get_cache : R (gmap Signature GraphRun) :=
  fun s => (Ok (_graph_run_cache s.1), s, []).

Definition set_cache (c : gmap Signature GraphRun) : R unit :=
  fun s => (Ok tt, ({| _graph_run_cache := c |}, s.2), []).

(** [__init__] *)
Definition __init__ : t := {| _graph_run_cache := ∅ |}.

Definition _build_signature (run_args : RunArgs) : Signature :=
  (id (fct run_args), dtype (input run_args), shape (input run_args)).

(** [with tf.Graph().as_default() as g: body g]; leaving the block
    restores the default graph whether or not the body raised. *)
Definition with_new_graph {A} (body : Graph -> R A) : R A :=
  fun s =>
    let '(g, tf1) := graph_enter s.2 in
    let '(r, s2, tr) := body g (s.1, tf1) in
    (r, (s2.1, graph_exit g s2.2), NewGraph g :: tr).

Definition _build_graph_run (run_args : RunArgs) : R GraphRun :=
  with_new_graph (fun g =>
    let input_ := input run_args in
    placeholder <- tf_call (NewPlaceholder (dtype input_) (shape input_))
                     (tf_placeholder (dtype input_) (shape input_));;
    output <- tf_call (TraceFct (fct run_args) placeholder)
                (fct_call (fct run_args) placeholder);;
    session <- tf_call NewSession tf_Session;;
    ret {| graph := g; session := session; placeholder := placeholder;
           output := output |}).

(** [input_] once [np.array] has been applied to what is not an array
    yet. *)
Definition as_ndarray (input_ : ndarray + PyValue) : Result TFErr ndarray :=
  match input_ with
  | inl a => Ok a
  | inr v => np_array v
  end.

Definition run (fct_ : Fct) (input_ : ndarray + PyValue) : R ndarray :=
  fun s =>
    if executing_eagerly s.2 then
      (value <- tf_call (EagerCall fct_ input_) (eager_call fct_ input_);;
       fun s => (numpy value, s, [])) s
    else
      (input_ <- (fun s => (as_ndarray input_, s, []));;
       let run_args := {| fct := fct_; input := input_ |} in
       let signature := _build_signature run_args in
       cache <- get_cache;;
       graph_run <-
         match cache !! signature with
         | None =>
             graph_run <- _build_graph_run run_args;;
             cache <- get_cache;;
             set_cache (<[signature := graph_run]> cache);;;
             ret graph_run
         | Some graph_run => ret graph_run
         end;;
       tf_call (SessionRun graph_run input_)
         (session_run (session graph_run) (output graph_run)
            (placeholder graph_run) input_)) s.

End methods.
End TFGraphRunner.

(** ** Shard naming, from the specification *)

Module naming.

(** The two conditions the specification names for this component. *)
Inductive NamingError : Type := InvalidState | InvalidArgument.

(** Modelled from the spec: the file name prefix of the [naming] module,
    which is outside the two modules.  The persisted layout is
    [<dataset_name>-<split>.<suffix>-<shard_index:05d>-of-<num_shards:05d>]. *)
Definition filename_prefix (dataset_name : string) (split : Split)
    (filetype_suffix : option string) : string :=
  dataset_name +:+ "-" +:+ Split_value split +:+
  match filetype_suffix with
  | Some suffix => if Py.truthy_str suffix then "." +:+ suffix else ""
  | None => ""
  end.

(** Modelled from the spec: [naming.filepaths_for_dataset_split], which
    is outside the two modules.  It "produces exactly num_shards
    deterministic paths".  [SplitFiles.filepaths] only delegates to it, so
    the failure that the specification gives to a descriptor without a
    shard count ("requires num_shards to be set (non-null), else fails with
    an InvalidState condition") is the failure of this function; a
    "negative/zero shard count fails with an InvalidArgument condition".
    The specification does not say what a null directory yields; it is
    taken as a malformed input. *)
Definition filepaths_for_dataset_split (dataset_name : string) (split : Split)
    (num_shards : option Z) (data_dir : option string) (filetype_suffix : option string)
  : Result NamingError (list string) :=
  match num_shards with
  | None => Raise InvalidState
  | Some n =>
      if (n <=? 0)%Z then Raise InvalidArgument
      else
        match data_dir with
        | None => Raise InvalidArgument
        | Some dir =>
            Ok (map (fun i : nat =>
                       Py.os_path_join dir
                         (filename_prefix dataset_name split filetype_suffix
                            +:+ "-" +:+ zfill 5 i +:+ "-of-" +:+ zfill 5 (Z.to_nat n)))
                  (seq 0 (Z.to_nat n)))
        end
  end.

(** Modelled from the spec: [naming.filepattern_for_dataset_split], "the
    same naming scheme with shard index/count replaced by a wildcard". *)
Definition filepattern_for_dataset_split (dataset_name : string) (split : Split)
    (data_dir : option string) (filetype_suffix : option string)
  : Result NamingError string :=
  match data_dir with
  | None => Raise InvalidArgument
  | Some dir =>
      Ok (Py.os_path_join dir (filename_prefix dataset_name split filetype_suffix +:+ "*"))
  end.

End naming.

Definition map_error {X Y A} (f : X -> Y) (r : Result X A) : Result Y A :=
  match r with
  | Ok a => Ok a
  | Raise x => Raise (f x)
  end.

(** A platform whose [naming] module is the one of the specification,
    its conditions embedded in the platform's errors by [inj]. *)
Definition naming_as_specified `{Platform} (inj : naming.NamingError -> Err) : Prop :=
  (forall n s k d x,
     filepaths_for_dataset_split n s k d x =
       map_error inj (naming.filepaths_for_dataset_split n s k d x)) /\
  (forall n s d x,
     filepattern_for_dataset_split n s d x =
       map_error inj (naming.filepattern_for_dataset_split n s d x)).

(** ** A small world to run the builders in

    Directories with their entries, the files written so far and a clock;
    a download manager is its mode and cache directory; a generator is a
    number, and generator [0] fails when it is drained. *)

Module Sample.

Inductive error : Type :=
  | NotFound (path : string)
  | NoneGiven
  | Naming (e : naming.NamingError)
  | GeneratorFailed.

Record env : Type := {
  dirs : list (string * list string);
  files : list string;
  clock : datetime
}.

(** What a caller passes by position: a string or a download manager. *)
Inductive object : Type :=
  | a_string (s : string)
  | a_manager (dm : GenerateMode * string).

Definition positional_message (fn_name : string) (args : list object) : string :=
  "Positional arguments passed to " +:+ fn_name +:+ ": " +:+ pretty (length args).

Fixpoint assoc {A} (k : string) (l : list (string * A)) : option A :=
  match l with
  | [] => None
  | (k', v) :: l' => if String.eqb k k' then Some v else assoc k l'
  end.

Definition mkdir (path : string) (e : env) : env :=
  {| dirs := (path, []) :: dirs e; files := files e; clock := clock e |}.

Definition add_files (paths : list string) (e : env) : env :=
  {| dirs := dirs e; files := files e ++ paths; clock := clock e |}.

Definition promote (tmp final : string) (e : env) : env :=
  {| dirs := (final, default [] (assoc tmp (dirs e)))
               :: List.filter (fun d => negb (String.eqb d.1 tmp)) (dirs e);
     files := files e; clock := clock e |}.

Definition expand_home (path : string) : string :=
  match path with
  | String "~" rest => "/home/user" +:+ rest
  | _ => path
  end.

#[local] Instance platform : Platform := {|
  Env := env;
  Err := error;
  PyObject := object;
  DownloadManager := GenerateMode * string;
  Generator := nat;
  Dataset := string * bool;
  FileFn := unit;
  FeatureDict := unit;
  gfile_Exists := fun path e =>
    match path with
    | Some p => Ok (bool_decide (is_Some (assoc p (dirs e))))
    | None => Raise NoneGiven
    end;
  gfile_ListDirectory := fun path e =>
    match assoc path (dirs e) with
    | Some entries => Ok entries
    | None => Raise (NotFound path)
    end;
  gfile_MakeDirs := fun path e =>
    match path with
    | Some p => (Ok tt, mkdir p e)
    | None => (Raise NoneGiven, e)
    end;
  expanduser := expand_home;
  datetime_now := clock;
  DownloadManager_init := fun dir e => (Ok (REUSE_DATASET_IF_EXISTS, dir), e);
  mode := fst;
  filepaths_for_dataset_split := fun n s k d x =>
    map_error Naming (naming.filepaths_for_dataset_split n s k d x);
  filepattern_for_dataset_split := fun n s d x =>
    map_error Naming (naming.filepattern_for_dataset_split n s d x);
  do_files_exist := fun paths e =>
    Ok (forallb (fun p => bool_decide (p ∈ files e)) paths);
  incomplete_dir_enter := fun final e =>
    match final with
    | Some f => (Ok (f +:+ INCOMPLETE_MARKER), mkdir (f +:+ INCOMPLETE_MARKER) e)
    | None => (Raise NoneGiven, e)
    end;
  incomplete_dir_exit := fun final tmp exc e =>
    match final, exc with
    | Some f, None => (Ok false, promote tmp f e)
    | _, _ => (Ok false, e)
    end;
  build_dataset := fun pattern _ _ shuffle e => (Ok (pattern, shuffle), e);
  positional_args_message := positional_message
|}.

Definition adapter : GeneratorBasedDatasetBuilder.FileFormatAdapter := {|
  GeneratorBasedDatasetBuilder.write_from_generator := fun g paths e =>
    match g with
    | O => (Raise GeneratorFailed, e)
    | S _ => (Ok tt, add_files paths e)
    end;
  GeneratorBasedDatasetBuilder.dataset_from_filename := tt;
  GeneratorBasedDatasetBuilder.filetype_suffix := Some "tfrecord"
|}.

(** A dataset with a train and a test generator. *)
Definition split_generators (first second : nat)
    (self : DatasetBuilder.t) (dl : GenerateMode * string) : W (list SplitGenerator.t) :=
  ret [ {| SplitGenerator.generator_fn := first;
           SplitGenerator.split_files :=
             [GeneratorBasedDatasetBuilder._split_files adapter self TRAIN (Some 2%Z)] |};
        {| SplitGenerator.generator_fn := second;
           SplitGenerator.split_files :=
             [GeneratorBasedDatasetBuilder._split_files adapter self TEST (Some 1%Z)] |} ].

(** The directory of the specification's example of version resolution. *)
Definition world : env := {|
  dirs := [("/data/mnist",
            ["v_20180601_1200.incomplete"; "v_20180101_0000"; "v_20180601_1200"]);
           ("/data/broken", ["v_1.incomplete"; "v_2.incomplete.old"])];
  files := [];
  clock := {| year := 2018; month := 7; day := 4; hour := 9; minute := 30 |}
|}.

Definition mnist : DatasetBuilder.t := {|
  DatasetBuilder.name := "mnist";
  DatasetBuilder._data_dir_root := "/data";
  DatasetBuilder._data_dir := Some "/data/mnist/v_20180601_1200"
|}.

Definition broken : DatasetBuilder.t := {|
  DatasetBuilder.name := "broken";
  DatasetBuilder._data_dir_root := "/data";
  DatasetBuilder._data_dir := None
|}.

(** The same world once the two train shards of [mnist] are written. *)
Definition half_done : env :=
  add_files
    ["/data/mnist/v_20180601_1200/mnist-train.tfrecord-00000-of-00002";
     "/data/mnist/v_20180601_1200/mnist-train.tfrecord-00001-of-00002"]
    world.

(** A runtime in which a function is its own identity, an array is its
    element type and its elements, a session is a number and running a
    traced function adds the function's number to every element. *)
#[local] Instance tensorflow : TensorFlow := {|
  TF := bool * nat;
  TFErr := unit;
  Fct := positive;
  PyValue := list Z;
  ndarray := string * list Z;
  Graph := nat;
  Session := nat;
  Placeholder := string * list Z;
  Tensor := positive;
  EagerTensor := string * list Z;
  id := fun f => f;
  dtype := fst;
  shape := fun a => [Z.of_nat (length a.2)];
  np_array := fun v => Ok ("int64", v);
  executing_eagerly := fst;
  eager_call := fun f x tf =>
    match x with
    | inl a => (Ok (a.1, map (Z.add (Zpos f)) a.2), tf)
    | inr v => (Ok ("int64", map (Z.add (Zpos f)) v), tf)
    end;
  numpy := fun v => Ok v;
  graph_enter := fun tf => (tf.2, tf);
  graph_exit := fun _ tf => tf;
  tf_placeholder := fun dt sh tf => (Ok (dt, sh), tf);
  fct_call := fun f _ tf => (Ok f, tf);
  tf_Session := fun tf => (Ok tf.2, (tf.1, S tf.2));
  session_run := fun _ out _ a tf => (Ok (a.1, map (Z.add (Zpos out)) a.2), tf)
|}.

(** The builder that a successful [__init__] has returned. *)
Definition constructed (r : Result (exn error) DatasetBuilder.t) : DatasetBuilder.t :=
  match r with
  | Ok self => self
  | Raise _ => broken
  end.

(** The hook of that dataset, and a download manager that reuses. *)
Definition prepare_hook (first second : nat)
  : DatasetBuilder.t -> GenerateMode * string -> W unit :=
  GeneratorBasedDatasetBuilder._download_and_prepare (split_generators first second) adapter.

Definition manager : GenerateMode * string := (REUSE_DATASET_IF_EXISTS, "/cache").

End Sample.

(** ** Further definitions

    What the properties beyond the claims need: the order of time on
    [datetime], two more functions of [tf_utils.py] and of the builder, and
    a world in which collaborators can fail. *)

(** The dates [datetime.datetime] can hold (month 1 to 12, day 1 to 31,
    hour below 24, minute below 60) whose year has four digits, as every
    date of the clock has. *)
Definition datetime_valid (d : datetime) : Prop :=
  1000 <= year d < 10 * 1000 /\ 1 <= month d <= 12 /\ 1 <= day d <= 31
  /\ hour d <= 23 /\ minute d <= 59.

(** The order of time down to the minute: year, then month, day, hour
    and minute. *)
Definition then_compare (c : comparison) (next : comparison) : comparison :=
  match c with
  | Eq => next
  | _ => c
  end.

Definition datetime_compare (d1 d2 : datetime) : comparison :=
  then_compare (Nat.compare (year d1) (year d2))
    (then_compare (Nat.compare (month d1) (month d2))
       (then_compare (Nat.compare (day d1) (day d2))
          (then_compare (Nat.compare (hour d1) (hour d2))
             (Nat.compare (minute d1) (minute d2))))).

(** Whether a string holds a dot. *)
Fixpoint has_dot (s : string) : bool :=
  match s with
  | EmptyString => false
  | String c s' => Ascii.eqb c "."%char || has_dot s'
  end.

(** A second world, in which paths under [/readonly] cannot be made or
    entered, download managers never reuse, and the hook of a dataset can
    fail before it yields a generator. *)
Module Faulty.

Definition denied (path : string) : bool := Py.startswith path "/readonly".

#[local] Instance platform : Platform := {|
  Env := Sample.env;
  Err := Sample.error;
  PyObject := Sample.object;
  DownloadManager := GenerateMode * string;
  Generator := nat;
  Dataset := string * bool;
  FileFn := unit;
  FeatureDict := unit;
  gfile_Exists := gfile_Exists (Platform := Sample.platform);
  gfile_ListDirectory := gfile_ListDirectory (Platform := Sample.platform);
  gfile_MakeDirs := fun path e =>
    match path with
    | Some p => if denied p then (Raise (Sample.NotFound p), e) else (Ok tt, Sample.mkdir p e)
    | None => (Raise Sample.NoneGiven, e)
    end;
  expanduser := Sample.expand_home;
  datetime_now := Sample.clock;
  DownloadManager_init := fun dir e =>
    if denied dir then (Raise (Sample.NotFound dir), e) else (Ok (OTHER_MODE 0, dir), e);
  mode := fst;
  filepaths_for_dataset_split := filepaths_for_dataset_split (Platform := Sample.platform);
  filepattern_for_dataset_split :=
    filepattern_for_dataset_split (Platform := Sample.platform);
  do_files_exist := do_files_exist (Platform := Sample.platform);
  incomplete_dir_enter := fun final e =>
    match final with
    | Some f =>
        if denied f then (Raise (Sample.NotFound f), e)
        else (Ok (f +:+ INCOMPLETE_MARKER), Sample.mkdir (f +:+ INCOMPLETE_MARKER) e)
    | None => (Raise Sample.NoneGiven, e)
    end;
  incomplete_dir_exit := incomplete_dir_exit (Platform := Sample.platform);
  build_dataset := build_dataset (Platform := Sample.platform);
  positional_args_message := Sample.positional_message
|}.

Definition adapter : GeneratorBasedDatasetBuilder.FileFormatAdapter := {|
  GeneratorBasedDatasetBuilder.write_from_generator := fun g paths e =>
    match g with
    | O => (Raise Sample.GeneratorFailed, e)
    | S _ => (Ok tt, Sample.add_files paths e)
    end;
  GeneratorBasedDatasetBuilder.dataset_from_filename := tt;
  GeneratorBasedDatasetBuilder.filetype_suffix := Some "tfrecord"
|}.

(** A dataset whose split generators cannot be had. *)
Definition no_generators (self : DatasetBuilder.t) (dl : GenerateMode * string)
  : W (list SplitGenerator.t) :=
  fun e => (Raise Sample.GeneratorFailed, e, []).

(** A hook that does nothing, and the dataset of [Sample] in this
    world. *)
Definition idle_hook (self : DatasetBuilder.t) (dl : GenerateMode * string) : W unit :=
  ret tt.

Definition split_generators (first second : nat)
    (self : DatasetBuilder.t) (dl : GenerateMode * string) : W (list SplitGenerator.t) :=
  ret [ {| SplitGenerator.generator_fn := first;
           SplitGenerator.split_files :=
             [GeneratorBasedDatasetBuilder._split_files adapter self TRAIN (Some 2%Z)] |};
        {| SplitGenerator.generator_fn := second;
           SplitGenerator.split_files :=
             [GeneratorBasedDatasetBuilder._split_files adapter self TEST (Some 1%Z)] |} ].

(** A builder whose root is read-only. *)
Definition locked : DatasetBuilder.t := {|
  DatasetBuilder.name := "mnist";
  DatasetBuilder._data_dir_root := "/readonly";
  DatasetBuilder._data_dir := None
|}.

(** The listing of [Sample.world] in another order, the staging
    directory gone and another one left behind. *)
Definition relisted : Sample.env := {|
  Sample.dirs := [("/data/mnist",
                   ["v_20180601_1200"; "v_20190101_0000.incomplete"; "v_20180101_0000"])];
  Sample.files := [];
  Sample.clock := {| year := 2019; month := 1; day := 1; hour := 0; minute := 5 |}
|}.

(** A runtime in which the function [1] cannot be traced and an empty
    list is no array. *)
#[local] Instance tensorflow : TensorFlow := {|
  TF := bool * nat;
  TFErr := unit;
  Fct := positive;
  PyValue := list Z;
  ndarray := string * list Z;
  Graph := nat;
  Session := nat;
  Placeholder := string * list Z;
  Tensor := positive;
  EagerTensor := string * list Z;
  id := fun f => f;
  dtype := fst;
  shape := fun a => [Z.of_nat (length a.2)];
  np_array := fun v => match v with [] => Raise tt | _ => Ok ("int64", v) end;
  executing_eagerly := fst;
  eager_call := eager_call (TensorFlow := Sample.tensorflow);
  numpy := fun v => Ok v;
  graph_enter := fun tf => (tf.2, tf);
  graph_exit := fun _ tf => tf;
  tf_placeholder := fun dt sh tf => (Ok (dt, sh), tf);
  fct_call := fun f _ tf => match f with xH => (Raise tt, tf) | _ => (Ok f, tf) end;
  tf_Session := fun tf => (Ok tf.2, (tf.1, S tf.2));
  session_run := fun _ out _ a tf => (Ok (a.1, map (Z.add (Zpos out)) a.2), tf)
|}.

End Faulty.

(** * Properties *)

(** ** Strings, paths and sorting *)

Section py_facts.

Lemma append_cons (c : ascii) (a b : string) :
  String c a +:+ b = String c (a +:+ b).
Proof. reflexivity. Qed.

Lemma append_nil_l (b : string) : "" +:+ b = b.
Proof. reflexivity. Qed.

Lemma append_assoc (a b c : string) : (a +:+ b) +:+ c = a +:+ b +:+ c.
Proof.
  induction a as [|x a IH]; [done|]. rewrite !append_cons. by rewrite IH.
Qed.

Lemma append_nil_r (a : string) : a +:+ "" = a.
Proof.
  induction a as [|x a IH]; [done|]. rewrite append_cons. by rewrite IH.
Qed.

Lemma prefix_app (p s : string) :
  String.prefix p s = true <-> exists rest, s = p +:+ rest.
Proof.
  revert s. induction p as [|c p IH]; intros s.
  - destruct s; simpl; split; eauto.
  - destruct s as [|d s]; simpl.
    + split; [discriminate | intros [rest Hr]; discriminate].
    + destruct (ascii_dec c d) as [->|Hne].
      * rewrite IH. split; intros [rest Hr]; exists rest;
          rewrite append_cons in *; congruence.
      * split; [discriminate | intros [rest Hr]; rewrite append_cons in Hr; congruence].
Qed.

(** [pat in s] holds exactly when [s] is [before + pat + after]. *)
Lemma contains_spec (pat s : string) :
  Py.contains pat s = true <-> exists before after, s = before +:+ pat +:+ after.
Proof.
  induction s as [|c s IH].
  - change (Py.contains pat "") with (String.prefix pat "" || false).
    rewrite orb_false_r, prefix_app. split.
    + intros [rest Hr]. exists "", rest. exact Hr.
    + intros (b & a & Hs). destruct b; [eauto | discriminate].
  - change (Py.contains pat (String c s))
      with (String.prefix pat (String c s) || Py.contains pat s).
    rewrite orb_true_iff, prefix_app, IH. split.
    + intros [[rest Hr] | (b & a & Hs)].
      * exists "", rest. exact Hr.
      * exists (String c b), a. rewrite append_cons. congruence.
    + intros (b & a & Hs). destruct b as [|d b].
      * left. eauto.
      * right. exists b, a. rewrite append_cons in Hs. congruence.
Qed.

(** [sorted] returns the sorted rearrangement of its argument. *)
Lemma sorted_spec (l : list string) :
  StronglySorted String.le (Py.sorted l) /\ Py.sorted l ≡ₚ l.
Proof.
  split; [apply StronglySorted_merge_sort; apply _ | apply merge_sort_Permutation].
Qed.

Lemma StronglySorted_filter {A} (R : relation A) (f : A -> bool) (l : list A) :
  StronglySorted R l -> StronglySorted R (List.filter f l).
Proof.
  induction 1 as [|x l Hs IH Hx]; simpl; [constructor|].
  destruct (f x); [|done]. constructor; [done|].
  apply Forall_forall. intros y Hy. apply list_elem_of_In, filter_In in Hy as [Hy _].
  rewrite Forall_forall in Hx. apply Hx. by apply list_elem_of_In.
Qed.

(** The last item of a sorted list is above all its items. *)
Lemma StronglySorted_last_max {A} (R : relation A) `{!Reflexive R} (l : list A) (x : A) :
  StronglySorted R l -> last l = Some x -> forall y, y ∈ l -> R y x.
Proof.
  intros Hs Hlast y Hy. apply last_Some in Hlast as [l' ->].
  apply elem_of_app in Hy as [Hy | Hy].
  - eapply StronglySorted_app_1_elem_of; [done.. | set_solver].
  - apply list_elem_of_singleton in Hy as ->. done.
Qed.

(** [os.path.join] never loses its second argument, and in the usual
    case puts exactly one separator in between. *)
Lemma os_path_join_relative (a b : string) :
  Py.startswith b "/" = false -> Py.truthy_str a = true -> Py.endswith_sep a = false ->
  Py.os_path_join a b = a +:+ "/" +:+ b.
Proof. intros Hb Ha He. unfold Py.os_path_join. by rewrite Hb, Ha, He. Qed.

Lemma os_path_join_truthy (a b : string) :
  Py.truthy_str b = true -> Py.truthy_str (Py.os_path_join a b) = true.
Proof.
  unfold Py.os_path_join. intros Hb.
  destruct (Py.startswith b "/"); [done|].
  destruct (negb (Py.truthy_str a) || Py.endswith_sep a).
  - destruct a; [done|]. done.
  - destruct a; done.
Qed.

Lemma startswith_sep_truthy (b : string) :
  Py.startswith b "/" = true -> Py.truthy_str b = true.
Proof. by destruct b. Qed.

Lemma os_path_join_truthy_l (a b : string) :
  Py.truthy_str a = true -> Py.truthy_str (Py.os_path_join a b) = true.
Proof.
  unfold Py.os_path_join. intros Ha.
  destruct (Py.startswith b "/") eqn:Hb; [by apply startswith_sep_truthy|].
  destruct (negb (Py.truthy_str a) || Py.endswith_sep a); by destruct a.
Qed.

End py_facts.

(** ** assert_shape_match *)

Section assert_shape_match_facts.
Import tf_utils.

Lemma positions_agree_cons (a : Z) (b : option Z) (shape1 : static_shape)
    (shape2 : dynamic_shape) :
  positions_agree (a :: shape1) (b :: shape2) <->
  (forall d, b = Some d -> a = d) /\ positions_agree shape1 shape2.
Proof.
  unfold positions_agree. split.
  - intros Hall. split.
    + intros d ->. specialize (Hall 0%nat d eq_refl). by simplify_eq/=.
    + intros i d Hi. exact (Hall (S i) d Hi).
  - intros [Hhd Htl] [|i] d Hi; simplify_eq/=.
    + by rewrite (Hhd d eq_refl).
    + by apply Htl.
Qed.

(** The test of the second [if] decides [positions_agree]. *)
Lemma dims_check_spec (shape1 : static_shape) (shape2 : dynamic_shape) :
  length shape1 = length shape2 ->
  forallb (fun p => dim_eq p.1 p.2)
    (filter (fun p : Z * option Z => Py.is_not_None p.2 = true) (zip shape1 shape2)) = true
  <-> positions_agree shape1 shape2.
Proof.
  revert shape2. induction shape1 as [|a shape1 IH]; intros [|b shape2] Hlen;
    simplify_eq/=.
  - split; [|done]. intros _ i d Hi. by destruct i.
  - rewrite positions_agree_cons, filter_cons. destruct b as [d|]; simpl.
    + rewrite andb_true_iff, IH by done.
      rewrite Z.eqb_eq. split; intros [Hd Hrest]; (split; [|done]).
      * intros d' [= <-]. done.
      * by apply Hd.
    + rewrite IH by done. split.
      * intros Hrest. split; [done|done].
      * by intros [_ Hrest].
Qed.

Lemma mismatch_message_names_both (shape1 : static_shape) (shape2 : dynamic_shape) :
  Py.contains (repr_static shape1) (mismatch_message shape1 shape2) = true /\
  Py.contains (repr_dynamic shape2) (mismatch_message shape1 shape2) = true.
Proof.
  unfold mismatch_message. split; apply contains_spec.
  - exists "Shape ", (" do not match " +:+ repr_dynamic shape2). done.
  - exists ("Shape " +:+ repr_static shape1 +:+ " do not match "), "".
    by rewrite append_nil_r, !append_assoc.
Qed.

End assert_shape_match_facts.

(** ** Version resolution *)

Section version_resolution.
Context `{Platform}.
Import DatasetBuilder.

(** The entry that [_get_data_dir] picks from a listing. *)
Lemma latest_entry_spec (entries : list string) :
  match last (List.filter (fun f => negb (Py.contains INCOMPLETE_MARKER f))
                (Py.sorted entries)) with
  | Some latest =>
      latest ∈ entries /\ Py.contains INCOMPLETE_MARKER latest = false /\
      forall f, f ∈ entries -> Py.contains INCOMPLETE_MARKER f = false ->
                String.le f latest
  | None => forall f, f ∈ entries -> Py.contains INCOMPLETE_MARKER f = true
  end.
Proof.
  destruct (sorted_spec entries) as [Hsorted Hperm].
  set (keep := fun f => negb (Py.contains INCOMPLETE_MARKER f)).
  assert (Hin : forall f, f ∈ List.filter keep (Py.sorted entries) <->
                          f ∈ entries /\ Py.contains INCOMPLETE_MARKER f = false).
  { intros f. rewrite list_elem_of_In, filter_In, <- list_elem_of_In, Hperm.
    unfold keep. by rewrite negb_true_iff. }
  destruct (last (List.filter keep (Py.sorted entries))) as [latest|] eqn:Hlast.
  - pose proof (last_Some_elem_of _ _ Hlast) as Hl. apply Hin in Hl as [Hl1 Hl2].
    repeat split; [done..|]. intros f Hf Hk.
    eapply (StronglySorted_last_max String.le); [|exact Hlast|by apply Hin].
    by apply StronglySorted_filter.
  - apply last_None in Hlast. intros f Hf.
    destruct (Py.contains INCOMPLETE_MARKER f) eqn:Hc; [done|].
    assert (f ∈ List.filter keep (Py.sorted entries)) as Hf' by by apply Hin.
    rewrite Hlast in Hf'. by apply elem_of_nil in Hf'.
Qed.

Lemma _get_data_dir_version (self : t) (v : string) (env : Env) :
  _get_data_dir self (Some v) env =
    (Ok (Some (Py.os_path_join (Py.os_path_join (_data_dir_root self) (name self)) v)),
     env, []).
Proof. reflexivity. Qed.

Lemma _get_data_dir_absent (self : t) (env : Env) :
  gfile_Exists (Some (Py.os_path_join (_data_dir_root self) (name self))) env = Ok false ->
  _get_data_dir self None env = (Ok None, env, []).
Proof. intros Hex. unfold _get_data_dir, bind, query. by rewrite Hex. Qed.

Lemma _get_data_dir_listing (self : t) (env : Env) (entries : list string) :
  let root := Py.os_path_join (_data_dir_root self) (name self) in
  gfile_Exists (Some root) env = Ok true ->
  gfile_ListDirectory root env = Ok entries ->
  _get_data_dir self None env =
    (Ok (Py.os_path_join root <$>
           last (List.filter (fun f => negb (Py.contains INCOMPLETE_MARKER f))
                   (Py.sorted entries))), env, []).
Proof.
  intros root Hex Hls. unfold _get_data_dir, bind, query. fold root.
  rewrite Hex, Hls. by destruct (last _).
Qed.

(** Neither branch of [_get_data_dir] changes the world or records a
    call. *)
Lemma _get_data_dir_pure (self : t) (version : option string) (env : Env) :
  exists r, _get_data_dir self version env = (r, env, []).
Proof.
  destruct version as [v|]; [by eexists|].
  unfold _get_data_dir, bind, query.
  destruct (gfile_Exists _ env) as [[]|]; [|by eexists..].
  destruct (gfile_ListDirectory _ env); [|by eexists].
  destruct (last _); by eexists.
Qed.

(** A directory that [_get_data_dir] resolves for a named dataset is
    not the empty string, so the builder that [__init__] returns has a
    data directory that is null or true. *)
Lemma _get_data_dir_truthy (self : t) (version : option string) (env : Env) (d : string) :
  Py.truthy_str (name self) = true ->
  outcome (_get_data_dir self version env) = Ok (Some d) ->
  Py.truthy_str d = true.
Proof.
  intros Hname. unfold outcome.
  assert (Py.truthy_str (Py.os_path_join (_data_dir_root self) (name self)) = true)
    as Hroot by by apply os_path_join_truthy.
  destruct version as [v|]; simpl.
  - intros [= <-]. by apply os_path_join_truthy_l.
  - unfold _get_data_dir, bind, query.
    destruct (gfile_Exists _ env) as [[]|]; simpl; [|done..].
    destruct (gfile_ListDirectory _ env); simpl; [|done].
    destruct (last _); simpl; [|done].
    intros [= <-]. by apply os_path_join_truthy_l.
Qed.

Lemma __init___data_dir (cls_name : string) (args : list PyObject)
    (data_dir : option string) (env : Env) (self : t) :
  Py.truthy_str cls_name = true ->
  outcome (__init__ cls_name args data_dir env) = Ok self ->
  name self = cls_name
  /\ (_data_dir self = None \/ Py.truthy (_data_dir self) = true).
Proof.
  intros Hname. destruct args as [|o args]; [|done].
  unfold __init__, disallow_positional_args, foreign, bind, ret.
  set (fresh := {| name := cls_name; _data_dir_root := _; _data_dir := None |}).
  pose proof (_get_data_dir_truthy fresh None env) as Htruthy.
  destruct (_get_data_dir_pure fresh None env) as [[[d|]|e] Hpure];
    rewrite Hpure in *; unfold outcome in *; simpl in *; try done.
  - intros [= <-]. split; [done|]. right. simpl. by apply Htruthy.
  - intros [= <-]. split; [done|]. by left.
Qed.

End version_resolution.

(** ** The life cycle of a builder *)

Section life_cycle.
Context `{Platform}.
Import DatasetBuilder.
Variable hook : t -> DownloadManager -> W unit.

Lemma bind_ret {Ev S X A B} (a : A) (k : A -> ST Ev S X B) (s : S) :
  bind (ret a) k s = k a s.
Proof. unfold bind, ret. by destruct (k a s) as [[r s'] tr]. Qed.

Lemma bind_get_self {A} (k : t -> M A) (s : t * Env) :
  bind get_self k s = k s.1 s.
Proof. unfold bind, get_self. by destruct (k s.1 s) as [[r s'] tr]. Qed.

(** The check of the arguments. *)
Lemma download_and_prepare_both (cache_dir : option string) (dl : DownloadManager)
    (s : t * Env) :
  Py.truthy cache_dir = true ->
  download_and_prepare hook [] cache_dir (Some dl) s
    = (Raise (ValueError ONLY_ONE_MESSAGE), s, []).
Proof. intros Hc. unfold download_and_prepare. by rewrite Hc. Qed.

(** A manager that is passed in is the one that is used. *)
Lemma download_and_prepare_supplied (cache_dir : option string) (dl : DownloadManager)
    (s : t * Env) :
  Py.truthy cache_dir = false ->
  download_and_prepare hook [] cache_dir (Some dl) s
    = prepare_with_manager hook (Some dl) s.
Proof.
  intros Hc. unfold download_and_prepare, disallow_positional_args. rewrite Hc. simpl.
  rewrite bind_get_self.
  destruct cache_dir as [dir|]; simpl in *; [rewrite Hc|]; by rewrite bind_ret.
Qed.

(** A manager is built from a cache directory, given or derived. *)
Lemma download_and_prepare_builds (cache_dir : option string) (dir : string)
    (self : t) (env : Env) :
  (cache_dir = Some dir /\ Py.truthy_str dir = true) \/
  (Py.truthy cache_dir = false /\ dir = Py.os_path_join (_data_dir_root self) "tmp") ->
  download_and_prepare hook [] cache_dir None (self, env)
    = match DownloadManager_init dir env with
      | (Ok dm, env1) =>
          let '(r, s', tr) := prepare_with_manager hook (Some dm) (self, env1) in
          (r, s', NewDownloadManager dir :: tr)
      | (Raise e, env1) => (Raise (Foreign e), (self, env1), [NewDownloadManager dir])
      end.
Proof.
  intros Hdir. unfold download_and_prepare, disallow_positional_args.
  rewrite andb_false_r.
  rewrite bind_get_self. simpl.
  assert (Py.truthy_str dir = true) as Hdt.
  { destruct Hdir as [[_ Hd] | [_ ->]]; [done|]. by apply os_path_join_truthy. }
  assert ((if negb (Py.truthy cache_dir) && true
           then Some (Py.os_path_join (_data_dir_root self) "tmp") else cache_dir)
          = Some dir) as ->.
  { destruct Hdir as [[-> Hd] | [Hc ->]]; simpl; [by rewrite Hd | by rewrite Hc]. }
  rewrite Hdt. unfold bind at 1. unfold bind at 1. unfold liftW, call. simpl.
  by destruct (DownloadManager_init dir env) as [[dm|e] env1].
Qed.

(** The short cut. *)
Lemma prepare_with_manager_reuse (dl : DownloadManager) (self : t) (env : Env) :
  Py.truthy (_data_dir self) = true ->
  mode dl = REUSE_DATASET_IF_EXISTS ->
  prepare_with_manager hook (Some dl) (self, env)
    = (Ok tt, (self, env),
       [LogInfo "Reusing dataset %s (%s)"
          [ArgStr (Some (name self)); ArgStr (_data_dir self)]]).
Proof.
  intros Hd Hm. unfold prepare_with_manager. rewrite bind_get_self. simpl.
  rewrite Hd, bool_decide_eq_true_2 by done. reflexivity.
Qed.

(** The generation of a new version, step by step: the log line, the
    staging directory, the hook on the builder that points to it, and the
    exit of the staging directory. *)
Lemma prepare_with_manager_generate (dl : DownloadManager) (self : t) (env : Env) :
  Py.truthy (_data_dir self) && bool_decide (mode dl = REUSE_DATASET_IF_EXISTS) = false ->
  let final :=
    Some (Py.os_path_join (Py.os_path_join (_data_dir_root self) (name self))
            (strftime_version (datetime_now env))) in
  let started :=
    [LogInfo "Generating dataset %s (%s)" [ArgStr (Some (name self)); ArgStr final];
     EnterIncompleteDir final] in
  prepare_with_manager hook (Some dl) (self, env)
    = match incomplete_dir_enter final env with
      | (Raise e, env1) => (Raise (Foreign e), (self, env1), started)
      | (Ok tmp, env1) =>
          let staged := set_data_dir (Some tmp) self in
          match hook staged dl env1 with
          | (Ok _, env2, th) =>
              let '(r, env3) := incomplete_dir_exit final tmp None env2 in
              (match r with Ok _ => Ok tt | Raise e => Raise (Foreign e) end,
               (set_data_dir final self, env3),
               started ++ CallDownloadAndPrepare dl :: th
                 ++ [ExitIncompleteDir final tmp false])
          | (Raise e, env2, th) =>
              let '(r, env3) := incomplete_dir_exit final tmp (Some (Foreign e)) env2 in
              (match r with
               | Ok true => Ok tt
               | Ok false => Raise (Foreign e)
               | Raise e' => Raise (Foreign e')
               end,
               (staged, env3),
               started ++ CallDownloadAndPrepare dl :: th
                 ++ [ExitIncompleteDir final tmp true])
          end
      end.
Proof.
  intros Hnot final started. unfold prepare_with_manager. rewrite bind_get_self.
  cbn [fst]. rewrite Hnot.
  unfold with_incomplete_dir, bind, liftW, call, query, log_info, emit, get_self,
    assign_data_dir, _get_data_dir, ret. cbn [fst snd]. fold final.
  destruct (incomplete_dir_enter final env) as [[tmp|e] env1]; [|done].
  cbn [fst snd].
  destruct (hook (set_data_dir (Some tmp) self) dl env1) as [[[[]|e] env2] th];
    cbn [fst snd].
  - destruct (incomplete_dir_exit final tmp None env2) as [[b|e] env3];
      cbn; by rewrite ?app_nil_r.
  - destruct (incomplete_dir_exit final tmp (Some (Foreign e)) env2) as [[[]|e'] env3];
      cbn; by rewrite ?app_nil_r.
Qed.

(** Whatever way the manager is chosen, the call goes on with it. *)
Lemma download_and_prepare_selects (cache_dir : option string)
    (dl_manager : option DownloadManager) (self : t) (env : Env)
    (dm : DownloadManager) (env0 : Env) (built : list Event) :
  selects self env cache_dir dl_manager dm env0 built ->
  download_and_prepare hook [] cache_dir dl_manager (self, env)
    = let '(r, s', tr) := prepare_with_manager hook (Some dm) (self, env0) in
      (r, s', built ++ tr).
Proof.
  intros [c dl Hc | dir dm' env0' Hdir Hinit | c dm' env0' Hc Hinit].
  - rewrite download_and_prepare_supplied by done.
    by destruct (prepare_with_manager _ _ _) as [[r s'] tr].
  - rewrite (download_and_prepare_builds (Some dir) dir) by (left; done).
    by rewrite Hinit.
  - rewrite (download_and_prepare_builds c (Py.os_path_join (_data_dir_root self) "tmp"))
      by (right; done).
    by rewrite Hinit.
Qed.

Lemma strftime_version_truthy (d : datetime) :
  Py.truthy_str (strftime_version d) = true.
Proof. reflexivity. Qed.

(** A call with an argument by position stops at the decorator. *)
Lemma download_and_prepare_positional (o : PyObject) (args : list PyObject)
    (cache_dir : option string) (dl_manager : option DownloadManager) (s : t * Env) :
  download_and_prepare hook (o :: args) cache_dir dl_manager s
    = (Raise (ValueError (positional_args_message "download_and_prepare" (o :: args))),
       s, []).
Proof. reflexivity. Qed.

(** What [prepare_with_manager] raises is what a collaborator raised in
    the generation. *)
Lemma prepare_with_manager_raises (dl : DownloadManager) (self : t) (env : Env)
    (x : exn Err) :
  outcome (prepare_with_manager hook (Some dl) (self, env)) = Raise x ->
  exists e, x = Foreign e /\ generation_raised hook self dl env e.
Proof.
  destruct (Py.truthy (_data_dir self) && bool_decide (mode dl = REUSE_DATASET_IF_EXISTS))
    eqn:Hreuse.
  - apply andb_true_iff in Hreuse as [Hd Hm]. apply bool_decide_eq_true in Hm.
    by rewrite prepare_with_manager_reuse.
  - rewrite prepare_with_manager_generate by done. cbv zeta. unfold generation_raised.
    destruct (incomplete_dir_enter _ env) as [[tmp|e] env1] eqn:Henter.
    + destruct (hook (set_data_dir (Some tmp) self) dl env1) as [[[[]|e] env2] th]
        eqn:Hhook.
      * destruct (incomplete_dir_exit _ tmp None env2) as [[b|e] env3] eqn:Hexit;
          [done|].
        intros [= <-]. exists e. split; [done|]. right. exists tmp, env1.
        split; [done|]. right. by exists None, env2, env3.
      * destruct (incomplete_dir_exit _ tmp (Some (Foreign e)) env2)
          as [[[]|e'] env3] eqn:Hexit; [done| |].
        -- intros [= <-]. exists e. split; [done|]. right. exists tmp, env1.
           split; [done|]. left. by exists env2, th.
        -- intros [= <-]. exists e'. split; [done|]. right. exists tmp, env1.
           split; [done|]. right. by exists (Some (Foreign e)), env2, env3.
    + intros [= <-]. exists e. split; [done|]. left. by exists env1.
Qed.

End life_cycle.

(** ** Split generators *)

Section split_generators.
Context `{Platform}.
Import GeneratorBasedDatasetBuilder.
Variable adapter : FileFormatAdapter.

(** [output_files] is the concatenation of the descriptors' paths. *)
Lemma extend_all_concat (acc : list string) (l : list SplitFiles.t) :
  SplitGenerator.extend_all acc l
    = match map_result SplitFiles.filepaths l with
      | Ok paths => Ok (acc ++ concat paths)
      | Raise e => Raise e
      end.
Proof.
  revert acc. induction l as [|sf l IH]; intros acc; simpl.
  - by rewrite app_nil_r.
  - destruct (SplitFiles.filepaths sf) as [ps|e]; [|done].
    rewrite IH. destruct (map_result SplitFiles.filepaths l); [|done].
    simpl. by rewrite app_assoc.
Qed.

Lemma output_files_concat (g : SplitGenerator.t) :
  SplitGenerator.output_files g
    = match map_result SplitFiles.filepaths (SplitGenerator.split_files g) with
      | Ok paths => Ok (concat paths)
      | Raise e => Raise e
      end.
Proof. apply extend_all_concat. Qed.

(** Asking whether files exist changes nothing and records nothing. *)
Lemma exists_pure (sf : SplitFiles.t) (env : Env) :
  exists r, SplitFiles.exists_ sf env = (r, env, []).
Proof.
  unfold SplitFiles.exists_, bind, of_result, query.
  destruct (SplitFiles.filepaths sf); by eexists.
Qed.

Lemma exists_all_pure (l : list SplitFiles.t) (env : Env) :
  exists r, SplitGenerator.exists_all l env = (r, env, []).
Proof.
  induction l as [|sf l [r IH]]; simpl; [by eexists|].
  unfold bind. destruct (exists_pure sf env) as [[b|e] ->]; [|by eexists].
  rewrite IH. destruct r; by eexists.
Qed.

Lemma output_files_exist_pure (g : SplitGenerator.t) (env : Env) :
  SplitGenerator.output_files_exist g env
    = (outcome (SplitGenerator.output_files_exist g env), env, []).
Proof.
  unfold SplitGenerator.output_files_exist, bind, outcome.
  destruct (exists_all_pure (SplitGenerator.split_files g) env) as [[bs|e] ->]; done.
Qed.

(** One turn of the loop. *)
Lemma prepare_split_generator_spec (g : SplitGenerator.t) (env : Env) :
  prepare_split_generator adapter g env
    = match outcome (SplitGenerator.output_files_exist g env) with
      | Raise e => (Raise e, env, [])
      | Ok true =>
          (Ok tt, env,
           [LogInfo "Skipping download_and_prepare for splits %s as all files exist."
              [ArgSplits (SplitGenerator.splits g)]])
      | Ok false =>
          match map_result SplitFiles.filepaths (SplitGenerator.split_files g) with
          | Raise e => (Raise e, env, [])
          | Ok paths =>
              let '(r, env1) :=
                write_from_generator adapter (SplitGenerator.generator_fn g)
                  (concat paths) env in
              (r, env1, [WriteFromGenerator (SplitGenerator.generator_fn g) (concat paths)])
          end
      end.
Proof.
  unfold prepare_split_generator. unfold bind at 1.
  rewrite output_files_exist_pure.
  destruct (outcome (SplitGenerator.output_files_exist g env)) as [[]|e]; [done | | done].
  rewrite output_files_concat. unfold bind, of_result, call.
  destruct (map_result SplitFiles.filepaths (SplitGenerator.split_files g)); [|done].
  by destruct (write_from_generator adapter _ _ env).
Qed.

(** The loop does what [prepares] says, and returns whenever that can
    be done. *)
Lemma for_each_prepares (gens : list SplitGenerator.t) (env env' : Env) (tr : list Event) :
  for_each gens (prepare_split_generator adapter) env = (Ok tt, env', tr)
  <-> prepares adapter gens env env' tr.
Proof.
  split.
  - revert env tr. induction gens as [|g gens IH]; intros env tr; simpl.
    + intros [= <- <-]. constructor.
    + unfold bind. rewrite prepare_split_generator_spec.
      destruct (outcome (SplitGenerator.output_files_exist g env)) as [[]|e] eqn:Hex;
        [| |done].
      * destruct (for_each gens _ env) as [[r e2] t2] eqn:Hrest.
        intros [= -> <- <-]. apply prepares_skip; [done|]. by apply IH.
      * destruct (map_result SplitFiles.filepaths _) as [paths|e] eqn:Hpaths; [|done].
        destruct (write_from_generator adapter _ _ env) as [[[]|e] env1] eqn:Hw; [|done].
        destruct (for_each gens _ env1) as [[r e2] t2] eqn:Hrest.
        intros [= -> <- <-]. eapply prepares_write; [done..|]. by apply IH.
  - induction 1 as [env | g gs env env' tr Hex _ IH
                    | g gs env paths env1 env' tr Hex Hpaths Hw _ IH]; simpl.
    + done.
    + unfold bind. rewrite prepare_split_generator_spec, Hex, IH. done.
    + unfold bind. rewrite prepare_split_generator_spec, Hex, Hpaths, Hw, IH. done.
Qed.

(** Every generator accounts for one recorded call, in order. *)
Lemma prepares_accounts (gens : list SplitGenerator.t) (env env' : Env) (tr : list Event) :
  prepares adapter gens env env' tr -> Forall2 accounts_for gens tr.
Proof.
  induction 1; constructor; try done.
  - by left.
  - right. eauto.
Qed.

End split_generators.

(** ** The graph runner *)

Section graph_runner.
Context `{TensorFlow}.
Import TFGraphRunner.

(** Building a graph does not touch the cache. *)
Lemma _build_graph_run_keeps_cache (run_args : RunArgs) (self : t) (tf : TF) :
  (state_after (_build_graph_run run_args (self, tf))).1 = self.
Proof.
  unfold _build_graph_run, with_new_graph, state_after, bind, tf_call, ret. simpl.
  destruct (graph_enter tf) as [g tf1]. simpl.
  destruct (tf_placeholder _ _ tf1) as [[p|e] tf2]; simpl; [|done].
  destruct (fct_call _ p tf2) as [[o|e] tf3]; simpl; [|done].
  destruct (tf_Session tf3) as [[ss|e] tf4]; simpl; done.
Qed.

Lemma run_eager (f : Fct) (x : ndarray + PyValue) (self : t) (tf : TF) :
  executing_eagerly tf = true ->
  run f x (self, tf)
    = let '(r, tf') := eager_call f x tf in
      (match r with Ok value => numpy value | Raise e => Raise e end,
       (self, tf'), [EagerCall f x]).
Proof.
  intros Heager. unfold run. simpl. rewrite Heager.
  unfold bind, tf_call. simpl.
  destruct (eager_call f x tf) as [[value|e] tf']; simpl; done.
Qed.

(** A call in graph mode whose signature is in the cache. *)
Lemma run_cached (f : Fct) (x : ndarray + PyValue) (a : ndarray) (gr : GraphRun)
    (self : t) (tf : TF) :
  executing_eagerly tf = false ->
  as_ndarray x = Ok a ->
  _graph_run_cache self !! (id f, dtype a, shape a) = Some gr ->
  run f x (self, tf)
    = let '(r, tf') :=
        session_run (session gr) (output gr) (placeholder gr) a tf in
      (r, (self, tf'), [SessionRun gr a]).
Proof.
  intros Hgraph Ha Hhit. unfold run. cbn [fst snd]. rewrite Hgraph.
  unfold bind, get_cache, tf_call, ret, _build_signature. cbn [fst snd fct input].
  rewrite Ha. cbn [fst snd]. rewrite Hhit. cbn [fst snd].
  by destruct (session_run _ _ _ a tf) as [r tf'].
Qed.

(** A call in graph mode whose signature is new. *)
Lemma run_fresh (f : Fct) (x : ndarray + PyValue) (a : ndarray) (self : t) (tf : TF) :
  executing_eagerly tf = false ->
  as_ndarray x = Ok a ->
  _graph_run_cache self !! (id f, dtype a, shape a) = None ->
  run f x (self, tf)
    = match _build_graph_run {| fct := f; input := a |} (self, tf) with
      | (Ok gr, s1, built) =>
          let '(r, tf') :=
            session_run (session gr) (output gr) (placeholder gr) a s1.2 in
          (r,
           ({| _graph_run_cache :=
                 <[(id f, dtype a, shape a) := gr]> (_graph_run_cache self) |}, tf'),
           built ++ [SessionRun gr a])
      | (Raise e, s1, built) => (Raise e, (self, s1.2), built)
      end.
Proof.
  intros Hgraph Ha Hmiss. unfold run. cbn [fst snd]. rewrite Hgraph.
  pose proof (_build_graph_run_keeps_cache {| fct := f; input := a |} self tf) as Hkeep.
  unfold state_after in Hkeep.
  unfold bind, get_cache, set_cache, tf_call, ret, _build_signature.
  cbn [fst snd fct input]. rewrite Ha. cbn [fst snd]. rewrite Hmiss.
  destruct (_build_graph_run _ (self, tf)) as [[[gr|e] [self1 tf1]] built];
    cbn [fst snd] in *; subst self1; [|done].
  destruct (session_run _ _ _ a tf1) as [r tf']. cbn.
  by rewrite !app_nil_r.
Qed.

(** A call in graph mode whose input is no array. *)
Lemma run_conversion_fails (f : Fct) (x : ndarray + PyValue) (e : TFErr)
    (self : t) (tf : TF) :
  executing_eagerly tf = false ->
  as_ndarray x = Raise e ->
  run f x (self, tf) = (Raise e, (self, tf), []).
Proof.
  intros Hgraph Hx. unfold run. cbn [fst snd]. rewrite Hgraph.
  unfold bind. cbn [fst snd]. by rewrite Hx.
Qed.

End graph_runner.

(** * The claims *)

Section claims.
Import DatasetBuilder.

(** C1. [_get_data_dir] with a version returns the joined
    root/name/version path and consults nothing.  Without a version it
    returns null when the dataset's root does not exist or when no entry
    of its listing is free of the incomplete marker; otherwise it returns
    the path of an entry that is free of the marker and that is the last
    one, in the order of strings, among the entries free of it.  (The
    code lists the entries of the root; it does not ask whether an entry is
    a directory.) *)
Theorem get_data_dir_resolves_latest `{Platform} (self : t) (env : Env) :
  let root := Py.os_path_join (_data_dir_root self) (name self) in
  (forall v, _get_data_dir self (Some v) env = (Ok (Some (Py.os_path_join root v)), env, []))
  /\ (gfile_Exists (Some root) env = Ok false ->
      _get_data_dir self None env = (Ok None, env, []))
  /\ (forall entries,
        gfile_Exists (Some root) env = Ok true ->
        gfile_ListDirectory root env = Ok entries ->
        ((forall f, f ∈ entries -> Py.contains ".incomplete" f = true) ->
         _get_data_dir self None env = (Ok None, env, []))
        /\ ((exists f, f ∈ entries /\ Py.contains ".incomplete" f = false) ->
            exists latest,
              _get_data_dir self None env = (Ok (Some (Py.os_path_join root latest)), env, [])
              /\ latest ∈ entries
              /\ Py.contains ".incomplete" latest = false
              /\ forall f, f ∈ entries -> Py.contains ".incomplete" f = false ->
                           String.le f latest)).
Proof.
  intros root. split; [|split].
  - intros v. apply _get_data_dir_version.
  - apply _get_data_dir_absent.
  - intros entries Hex Hls.
    rewrite (_get_data_dir_listing self env entries Hex Hls). fold root.
    pose proof (latest_entry_spec entries) as Hlatest.
    unfold INCOMPLETE_MARKER in *.
    destruct (last _) as [latest|]; simpl; split.
    + intros Hall. destruct Hlatest as (Hin & Hfree & _).
      rewrite (Hall latest Hin) in Hfree. discriminate.
    + intros _. exists latest. by destruct Hlatest as (? & ? & ?).
    + done.
    + intros (f & Hf & Hfree). rewrite (Hlatest f Hf) in Hfree. discriminate.
Qed.

(** The specification's example: among [v_20180101_0000],
    [v_20180601_1200] and [v_20180601_1200.incomplete] the resolution
    returns [v_20180601_1200]. *)
Example get_data_dir_mnist :
  _get_data_dir (H := Sample.platform) Sample.mnist None Sample.world =
    (Ok (Some "/data/mnist/v_20180601_1200"), Sample.world, []).
Proof. vm_compute. reflexivity. Qed.

Lemma get_data_dir_resolves_latest_witness :
  exists latest,
    _get_data_dir (H := Sample.platform) Sample.mnist None Sample.world =
      (Ok (Some (Py.os_path_join "/data/mnist" latest)), Sample.world, [])
    /\ latest ∈ ["v_20180601_1200.incomplete"; "v_20180101_0000"; "v_20180601_1200"]
    /\ Py.contains ".incomplete" latest = false.
Proof.
  destruct (get_data_dir_resolves_latest (H := Sample.platform) Sample.mnist Sample.world)
    as (_ & _ & Hpresent).
  destruct (Hpresent
              ["v_20180601_1200.incomplete"; "v_20180101_0000"; "v_20180601_1200"]
              eq_refl eq_refl) as [_ Hsome].
  destruct Hsome as (latest & Heq & Hin & Hfree & _).
  - exists "v_20180101_0000". split; [|reflexivity].
    apply list_elem_of_In. simpl. tauto.
  - exists latest. split; [exact Heq|]. split; [exact Hin | exact Hfree].
Defined.

(** C10. The filter of [_get_data_dir] drops an entry as soon as
    [.incomplete] occurs anywhere in its name, not only at its end: the
    entry whose path is returned has no occurrence of it at any offset,
    and a root whose entries all hold it somewhere resolves to null even
    though the listing is not empty. *)
Theorem get_data_dir_marker_anywhere `{Platform} (self : t) (env : Env)
    (entries : list string) :
  let root := Py.os_path_join (_data_dir_root self) (name self) in
  gfile_Exists (Some root) env = Ok true ->
  gfile_ListDirectory root env = Ok entries ->
  (forall r, (_get_data_dir self None env).1.1 = Ok r ->
     match r with
     | Some path =>
         exists latest, path = Py.os_path_join root latest /\ latest ∈ entries /\
           forall before after, latest <> before +:+ ".incomplete" +:+ after
     | None =>
         forall f, f ∈ entries -> exists before after, f = before +:+ ".incomplete" +:+ after
     end)
  /\ ((forall f, f ∈ entries -> exists before after, f = before +:+ ".incomplete" +:+ after) ->
      _get_data_dir self None env = (Ok None, env, [])).
Proof.
  intros root Hex Hls.
  rewrite (_get_data_dir_listing self env entries Hex Hls). fold root.
  pose proof (latest_entry_spec entries) as Hlatest. unfold INCOMPLETE_MARKER in *.
  destruct (last _) as [latest|]; simpl; split.
  - intros r [= <-]. destruct Hlatest as (Hin & Hfree & _).
    exists latest. repeat split; [done|]. intros before after ->.
    assert (Py.contains ".incomplete" (before +:+ ".incomplete" +:+ after) = true) as Ht
      by (apply contains_spec; eauto).
    congruence.
  - intros Hall. destruct Hlatest as (Hin & Hfree & _).
    destruct (Hall latest Hin) as (before & after & ->).
    assert (Py.contains ".incomplete" (before +:+ ".incomplete" +:+ after) = true) as Ht
      by (apply contains_spec; eauto).
    congruence.
  - intros r [= <-] f Hf. apply contains_spec. by apply Hlatest.
  - done.
Qed.

(** A root whose two entries carry the marker, one of them in the middle
    of its name. *)
Lemma get_data_dir_marker_anywhere_witness :
  _get_data_dir (H := Sample.platform) Sample.broken None Sample.world =
    (Ok None, Sample.world, []).
Proof.
  apply (get_data_dir_marker_anywhere (H := Sample.platform) Sample.broken Sample.world
           ["v_1.incomplete"; "v_2.incomplete.old"] eq_refl eq_refl).
  intros f Hf. apply list_elem_of_In in Hf. simpl in Hf.
  destruct Hf as [<- | [<- | []]].
  - exists "v_1", "". reflexivity.
  - exists "v_2", ".old". reflexivity.
Defined.

(** C7, as amended.  [assert_shape_match] returns when the shapes have
    the same length and agree wherever the pattern holds a dimension.  When
    the lengths differ it raises a [ValueError] whose message gives the two
    lengths, and when the lengths agree but a dimension of the pattern
    differs it raises a [ValueError] whose message gives both shapes. *)
Theorem assert_shape_match_outcomes {E : Type}
    (shape1 : tf_utils.static_shape) (shape2 : tf_utils.dynamic_shape) :
  (length shape1 = length shape2 -> tf_utils.positions_agree shape1 shape2 ->
   tf_utils.assert_shape_match (E := E) shape1 shape2 = Ok tt)
  /\ (length shape1 <> length shape2 ->
      tf_utils.assert_shape_match (E := E) shape1 shape2 =
        Raise (ValueError ("Shapes should have same length: "
                             +:+ pretty (length shape1) +:+ " - "
                             +:+ pretty (length shape2))))
  /\ (length shape1 = length shape2 -> ~ tf_utils.positions_agree shape1 shape2 ->
      exists msg,
        tf_utils.assert_shape_match (E := E) shape1 shape2 = Raise (ValueError msg)
        /\ msg = "Shape " +:+ tf_utils.repr_static shape1 +:+ " do not match "
                   +:+ tf_utils.repr_dynamic shape2
        /\ Py.contains (tf_utils.repr_static shape1) msg = true
        /\ Py.contains (tf_utils.repr_dynamic shape2) msg = true).
Proof.
  unfold tf_utils.assert_shape_match. split; [|split].
  - intros Hlen Hagree. apply Nat.eqb_eq in Hlen as Hlenb. rewrite Hlenb. simpl.
    apply dims_check_spec in Hagree; [|done]. by rewrite Hagree.
  - intros Hlen. apply Nat.eqb_neq in Hlen. by rewrite Hlen.
  - intros Hlen Hdiff. apply Nat.eqb_eq in Hlen as Hlenb. rewrite Hlenb. simpl.
    destruct (forallb _ _) eqn:Hcheck.
    + apply dims_check_spec in Hcheck; [|done]. contradiction.
    + simpl. eexists. split; [reflexivity|]. split; [reflexivity|].
      apply mismatch_message_names_both.
Qed.

Lemma assert_shape_match_outcomes_witness :
  tf_utils.assert_shape_match (E := Empty_set) [64; 64; 3]%Z [None; None; Some 3%Z] = Ok tt
  /\ tf_utils.assert_shape_match (E := Empty_set) [64; 64]%Z [Some 64; Some 64; Some 3]%Z =
       Raise (ValueError "Shapes should have same length: 2 - 3")
  /\ exists msg,
       tf_utils.assert_shape_match (E := Empty_set) [64; 64; 3]%Z [Some 64; Some 64; Some 4]%Z =
         Raise (ValueError msg)
       /\ msg = "Shape (64, 64, 3) do not match (64, 64, 4)".
Proof.
  split; [|split].
  - apply (assert_shape_match_outcomes (E := Empty_set) [64; 64; 3]%Z [None; None; Some 3%Z]).
    + reflexivity.
    + apply dims_check_spec; reflexivity.
  - apply (assert_shape_match_outcomes (E := Empty_set) [64; 64]%Z
             [Some 64; Some 64; Some 3]%Z).
    simpl. lia.
  - destruct (assert_shape_match_outcomes (E := Empty_set) [64; 64; 3]%Z
                [Some 64; Some 64; Some 4]%Z) as (_ & _ & Hmis).
    destruct Hmis as (msg & Hraise & Hmsg & _).
    + reflexivity.
    + intros Hagree. apply dims_check_spec in Hagree; [|reflexivity].
      vm_compute in Hagree. discriminate.
    + exists msg. split; [exact Hraise|]. rewrite Hmsg. vm_compute. reflexivity.
Defined.

(** C7 as stated fails for shapes of different lengths: [(64, 64)]
    against [(64, 64, 3)] raises "Shapes should have same length: 2 - 3",
    a message that gives neither shape. *)
Lemma assert_shape_match_length_counterexample :
  ~ (forall (shape1 : tf_utils.static_shape) (shape2 : tf_utils.dynamic_shape),
       ~ (length shape1 = length shape2 /\ tf_utils.positions_agree shape1 shape2) ->
       exists msg,
         tf_utils.assert_shape_match (E := Empty_set) shape1 shape2 = Raise (ValueError msg)
         /\ Py.contains (tf_utils.repr_static shape1) msg = true
         /\ Py.contains (tf_utils.repr_dynamic shape2) msg = true).
Proof.
  intros Hclaim.
  destruct (Hclaim [64; 64]%Z [Some 64; Some 64; Some 3]%Z) as (msg & Hraise & Hfirst & _).
  - intros [Hlen _]. discriminate Hlen.
  - vm_compute in Hraise. injection Hraise as <-. vm_compute in Hfirst. discriminate.
Qed.

(** C8. On a platform whose [naming] module is the specified one, a
    split descriptor whose [num_shards] is null has no list of file paths:
    [filepaths] raises the InvalidState condition, and so does [exists],
    which asks for the paths first. *)
Theorem filepaths_requires_num_shards `{Platform}
    (inj : naming.NamingError -> Err) (self : SplitFiles.t) (env : Env) :
  naming_as_specified inj ->
  SplitFiles.num_shards self = None ->
  SplitFiles.filepaths self = Raise (inj naming.InvalidState)
  /\ SplitFiles.exists_ self env = (Raise (inj naming.InvalidState), env, []).
Proof.
  intros [Hpaths _] Hnone.
  assert (SplitFiles.filepaths self = Raise (inj naming.InvalidState)) as Hraise.
  { unfold SplitFiles.filepaths. rewrite Hpaths, Hnone. reflexivity. }
  split; [exact Hraise|].
  unfold SplitFiles.exists_, bind, of_result. by rewrite Hraise.
Qed.

Lemma filepaths_requires_num_shards_witness :
  let descriptor :=
    GeneratorBasedDatasetBuilder._split_files (H := Sample.platform) Sample.adapter
      Sample.mnist TRAIN None in
  SplitFiles.filepaths (H := Sample.platform) descriptor
    = Raise (Sample.Naming naming.InvalidState)
  /\ SplitFiles.exists_ (H := Sample.platform) descriptor Sample.world
    = (Raise (Sample.Naming naming.InvalidState), Sample.world, []).
Proof.
  intros descriptor.
  apply (filepaths_requires_num_shards (H := Sample.platform) Sample.Naming descriptor
           Sample.world).
  - split; intros; reflexivity.
  - reflexivity.
Defined.

(** With a shard count the same descriptor does have paths, one per
    shard. *)
Example filepaths_with_num_shards :
  SplitFiles.filepaths (H := Sample.platform)
    (GeneratorBasedDatasetBuilder._split_files (H := Sample.platform) Sample.adapter
       Sample.mnist TRAIN (Some 2%Z))
  = Ok ["/data/mnist/v_20180601_1200/mnist-train.tfrecord-00000-of-00002";
        "/data/mnist/v_20180601_1200/mnist-train.tfrecord-00001-of-00002"].
Proof. vm_compute. reflexivity. Qed.

(** C6. When [shuffle_files] is omitted, [_as_dataset] of a
    generator-based builder, and [as_dataset] which delegates to it, hand
    [build_dataset] the flag true exactly when the split is TRAIN; a
    boolean that is passed is handed on as it is.  If the file pattern
    cannot be computed, [build_dataset] is not called at all.  [as_dataset]
    is called by keyword: it then does what [_as_dataset] does and passes on
    what that raises; called with an argument by position it raises a
    [ValueError] and [_as_dataset] does not run. *)
Theorem as_dataset_shuffle_files_default `{Platform}
    (adapter : GeneratorBasedDatasetBuilder.FileFormatAdapter)
    (self : t) (split : Split) (shuffle_files : option bool) (env : Env) :
  exists flag : bool,
    (shuffle_files = None -> (flag = true <-> split = TRAIN))
    /\ (forall b, shuffle_files = Some b -> flag = b)
    /\ GeneratorBasedDatasetBuilder.as_dataset adapter self [] split shuffle_files env
       = foreign (GeneratorBasedDatasetBuilder._as_dataset adapter self split shuffle_files)
           env
    /\ (forall o args,
          GeneratorBasedDatasetBuilder.as_dataset adapter self (o :: args) split
            shuffle_files env
          = (Raise (ValueError (positional_args_message "as_dataset" (o :: args))),
             env, []))
    /\ GeneratorBasedDatasetBuilder._as_dataset adapter self split shuffle_files env
       = match SplitFiles.filepattern
                 (GeneratorBasedDatasetBuilder._split_files adapter self split None) with
         | Ok pattern =>
             let '(r, env') :=
               build_dataset pattern
                 (GeneratorBasedDatasetBuilder.dataset_from_filename adapter)
                 GeneratorBasedDatasetBuilder._preprocess flag env in
             (r, env', [BuildDataset pattern flag])
         | Raise e => (Raise e, env, [])
         end.
Proof.
  exists (GeneratorBasedDatasetBuilder.shuffle_files_arg split shuffle_files).
  split; [|split; [|split; [|split]]].
  - intros ->. simpl. by rewrite bool_decide_eq_true.
  - by intros b ->.
  - reflexivity.
  - reflexivity.
  - unfold GeneratorBasedDatasetBuilder._as_dataset, bind, of_result, call.
    destruct (SplitFiles.filepattern _); [|done].
    destruct (build_dataset _ _ _ _ _). by rewrite app_nil_l.
Qed.

Example as_dataset_train_shuffles :
  (GeneratorBasedDatasetBuilder.as_dataset (H := Sample.platform) Sample.adapter
     Sample.mnist [] TRAIN None Sample.world).2
  = [BuildDataset "/data/mnist/v_20180601_1200/mnist-train.tfrecord*" true].
Proof. vm_compute. reflexivity. Qed.

Example as_dataset_test_does_not_shuffle :
  (GeneratorBasedDatasetBuilder.as_dataset (H := Sample.platform) Sample.adapter
     Sample.mnist [] TEST None Sample.world).2
  = [BuildDataset "/data/mnist/v_20180601_1200/mnist-test.tfrecord*" false].
Proof. vm_compute. reflexivity. Qed.

Example as_dataset_explicit_flag_wins :
  (GeneratorBasedDatasetBuilder.as_dataset (H := Sample.platform) Sample.adapter
     Sample.mnist [] TRAIN (Some false) Sample.world).2
  = [BuildDataset "/data/mnist/v_20180601_1200/mnist-train.tfrecord*" false].
Proof. vm_compute. reflexivity. Qed.

(** C4, as amended.  [download_and_prepare] raises a [ValueError] of
    its own in two cases and in no other: when it is called with an
    argument by position, which its decorator refuses whatever is supplied,
    and when, called by keyword, both a cache directory and a download
    manager are supplied, where an empty string, like [None], is no cache
    directory (the test is [if cache_dir]).  In both cases it raises before
    anything else happens.  Whatever else a call raises is what a
    collaborator raised, passed on as it is: the construction of the
    download manager, the entry of the staging directory, the hook, or the
    exit of the staging directory.  When neither is supplied, a download
    manager is built from [os.path.join(root, "tmp")] and the call goes on
    with that manager; for a root that is not empty and does not end with a
    separator that directory is [<root>/tmp]. *)
Theorem download_and_prepare_argument_check `{Platform}
    (hook : t -> DownloadManager -> W unit)
    (args : list PyObject)
    (cache_dir : option string) (dl_manager : option DownloadManager)
    (self : t) (env : Env) :
  let run := download_and_prepare hook args cache_dir dl_manager (self, env) in
  ((exists msg, outcome run = Raise (ValueError msg))
   <-> args <> [] \/ (Py.truthy cache_dir = true /\ dl_manager <> None))
  /\ (args = [] -> Py.truthy cache_dir = true -> dl_manager <> None ->
      run = (Raise (ValueError "Only one of dl_manager and cache_dir can be defined."),
             (self, env), []))
  /\ (args = [] -> Py.truthy cache_dir = false -> dl_manager = None ->
      run = match DownloadManager_init (Py.os_path_join (_data_dir_root self) "tmp") env with
            | (Ok dm, env1) =>
                let '(r, s', tr) := prepare_with_manager hook (Some dm) (self, env1) in
                (r, s', NewDownloadManager (Py.os_path_join (_data_dir_root self) "tmp") :: tr)
            | (Raise e, env1) =>
                (Raise (Foreign e), (self, env1),
                 [NewDownloadManager (Py.os_path_join (_data_dir_root self) "tmp")])
            end)
  /\ (Py.truthy_str (_data_dir_root self) = true ->
      Py.endswith_sep (_data_dir_root self) = false ->
      Py.os_path_join (_data_dir_root self) "tmp" = _data_dir_root self +:+ "/tmp")
  /\ (args <> [] ->
      run = (Raise (ValueError (positional_args_message "download_and_prepare" args)),
             (self, env), []))
  /\ (forall x, outcome run = Raise x ->
      (exists msg, x = ValueError msg)
      \/ exists e,
           x = Foreign e
           /\ ((exists dir env1,
                  dl_manager = None /\ DownloadManager_init dir env = (Raise e, env1))
               \/ exists dm env0 built,
                    selects self env cache_dir dl_manager dm env0 built
                    /\ generation_raised hook self dm env0 e)).
Proof.
  intros run. unfold run. clear run.
  assert (Hroot : Py.truthy_str (_data_dir_root self) = true ->
            Py.endswith_sep (_data_dir_root self) = false ->
            Py.os_path_join (_data_dir_root self) "tmp" = _data_dir_root self +:+ "/tmp").
  { intros Hr Hsep. by apply os_path_join_relative. }
  destruct args as [|o args].
  - assert (Hboth : Py.truthy cache_dir = true -> dl_manager <> None ->
              download_and_prepare hook [] cache_dir dl_manager (self, env)
                = (Raise (ValueError ONLY_ONE_MESSAGE), (self, env), [])).
    { intros Hc Hd. destruct dl_manager as [dl|]; [|done].
      by apply download_and_prepare_both. }
    assert (Hraises : forall x,
              outcome (download_and_prepare hook [] cache_dir dl_manager (self, env))
                = Raise x ->
              (Py.truthy cache_dir = true /\ dl_manager <> None
               /\ x = ValueError ONLY_ONE_MESSAGE)
              \/ exists e,
                   x = Foreign e
                   /\ ((exists dir env1,
                          dl_manager = None
                          /\ DownloadManager_init dir env = (Raise e, env1))
                       \/ exists dm env0 built,
                            selects self env cache_dir dl_manager dm env0 built
                            /\ generation_raised hook self dm env0 e)).
    { intros x Hx. destruct dl_manager as [dl|].
      - destruct (Py.truthy cache_dir) eqn:Hc.
        + left. rewrite download_and_prepare_both in Hx by done.
          injection Hx as <-. done.
        + right. rewrite download_and_prepare_supplied in Hx by done.
          destruct (prepare_with_manager_raises hook dl self env x Hx) as (e & -> & He).
          exists e. split; [done|]. right. exists dl, env, [].
          split; [by constructor | done].
      - right.
        assert (exists dir,
                  (cache_dir = Some dir /\ Py.truthy_str dir = true) \/
                  (Py.truthy cache_dir = false /\
                   dir = Py.os_path_join (_data_dir_root self) "tmp")) as [dir Hdir].
        { destruct cache_dir as [dir|]; simpl.
          - destruct (Py.truthy_str dir) eqn:Hd; eauto.
          - eauto. }
        rewrite (download_and_prepare_builds hook cache_dir dir self env Hdir) in Hx.
        destruct (DownloadManager_init dir env) as [[dm|e] env1] eqn:Hinit.
        + assert (outcome (prepare_with_manager hook (Some dm) (self, env1)) = Raise x)
            as Hx'.
          { destruct (prepare_with_manager hook (Some dm) (self, env1)) as [[r s'] tr].
            exact Hx. }
          destruct (prepare_with_manager_raises hook dm self env1 x Hx') as (e & -> & He).
          exists e. split; [done|]. right. exists dm, env1, [NewDownloadManager dir].
          split; [|done]. destruct Hdir as [[-> Hd] | [Hc ->]]; by constructor.
        + injection Hx as <-. exists e. split; [done|]. left. by exists dir, env1. }
    split; [|split; [|split; [|split; [|split]]]].
    + split.
      * intros [msg Hmsg]. right.
        destruct (Hraises _ Hmsg) as [(Hc & Hd & _) | (e & He & _)]; [done | discriminate].
      * intros [Hargs | [Hc Hd]]; [done|]. rewrite Hboth by done. by eexists.
    + intros _. exact Hboth.
    + intros _ Hc ->. by apply download_and_prepare_builds; right.
    + exact Hroot.
    + done.
    + intros x Hx. destruct (Hraises x Hx) as [(_ & _ & ->) | Hforeign];
        [left; by eexists | by right].
  - rewrite download_and_prepare_positional. unfold outcome. cbn [fst].
    split; [|split; [|split; [|split; [|split]]]].
    + split; [intros _; by left | intros _; by eexists].
    + done.
    + done.
    + exact Hroot.
    + done.
    + intros x [= <-]. left. by eexists.
Qed.

Lemma download_and_prepare_argument_check_witness :
  download_and_prepare (H := Sample.platform) (Sample.prepare_hook 1 2) []
    (Some "/cache") (Some Sample.manager) (Sample.mnist, Sample.world)
  = (Raise (ValueError "Only one of dl_manager and cache_dir can be defined."),
     (Sample.mnist, Sample.world), [])
  /\ calls (download_and_prepare (H := Sample.platform) (Sample.prepare_hook 1 2) []
              None None (Sample.mnist, Sample.world))
     = [NewDownloadManager "/data/tmp";
        LogInfo "Reusing dataset %s (%s)"
          [ArgStr (Some "mnist"); ArgStr (Some "/data/mnist/v_20180601_1200")]]
  /\ download_and_prepare (H := Sample.platform) (Sample.prepare_hook 1 2)
       [Sample.a_string "/cache"] None None (Sample.mnist, Sample.world)
     = (Raise (ValueError "Positional arguments passed to download_and_prepare: 1"),
        (Sample.mnist, Sample.world), []).
Proof.
  destruct (download_and_prepare_argument_check (H := Sample.platform)
              (Sample.prepare_hook 1 2) [] (Some "/cache") (Some Sample.manager)
              Sample.mnist Sample.world) as (_ & Hboth & _).
  destruct (download_and_prepare_argument_check (H := Sample.platform)
              (Sample.prepare_hook 1 2) [] None None
              Sample.mnist Sample.world) as (_ & _ & Hneither & _).
  destruct (download_and_prepare_argument_check (H := Sample.platform)
              (Sample.prepare_hook 1 2) [Sample.a_string "/cache"] None None
              Sample.mnist Sample.world) as (_ & _ & _ & _ & Hposition & _).
  split; [|split].
  - apply Hboth; [reflexivity | reflexivity | discriminate].
  - refine (eq_trans (f_equal calls (Hneither eq_refl eq_refl eq_refl)) _).
    vm_compute. reflexivity.
  - apply Hposition. discriminate.
Defined.

(** C4 as stated fails for a call by position: [download_and_prepare]
    called with the one argument ["/cache"] raises a [ValueError], and that
    call supplies no download manager. *)
Lemma download_and_prepare_position_counterexample :
  ~ (forall (args : list Sample.object) (cache_dir : option string)
            (dl_manager : option (GenerateMode * string)),
       (exists msg,
          outcome (download_and_prepare (H := Sample.platform) (Sample.prepare_hook 1 2)
                     args cache_dir dl_manager (Sample.mnist, Sample.world))
            = Raise (ValueError msg))
       <-> supplies_cache_dir (H := Sample.platform) args cache_dir
           /\ supplies_dl_manager (H := Sample.platform) args dl_manager).
Proof.
  intros Hclaim.
  destruct (Hclaim [Sample.a_string "/cache"] None None) as [Honly _].
  destruct Honly as [_ [Hlen | Hdl]].
  - by eexists.
  - simpl in Hlen. lia.
  - done.
Qed.

(** C2. On a builder whose data directory is resolved, a call whose
    download manager has the mode REUSE_DATASET_IF_EXISTS returns at once:
    the builder is unchanged, the world is the one in which the manager
    was chosen, and after the choice of the manager the only call recorded
    is the log line; no staging directory is entered and the hook is not
    called, whatever the hook is.  The code tests [self._data_dir] for
    truth, and for the builder that [__init__] returns a data directory
    that is not null is true.  A second call with the same manager after a
    call that returned is such a call again, provided the exit of the
    staging directory lets the exception of a failed hook go on. *)
Theorem download_and_prepare_reuse_is_noop `{Platform}
    (hook : t -> DownloadManager -> W unit) :
  (forall cache_dir dl_manager self env dm env0 built,
     selects self env cache_dir dl_manager dm env0 built ->
     mode dm = REUSE_DATASET_IF_EXISTS ->
     Py.truthy (_data_dir self) = true ->
     download_and_prepare hook [] cache_dir dl_manager (self, env)
       = (Ok tt, (self, env0),
          built ++ [LogInfo "Reusing dataset %s (%s)"
                      [ArgStr (Some (name self)); ArgStr (_data_dir self)]]))
  /\ (forall cls_name args data_dir env self,
        Py.truthy_str cls_name = true ->
        outcome (__init__ cls_name args data_dir env) = Ok self ->
        _data_dir self <> None ->
        Py.truthy (_data_dir self) = true)
  /\ (forall cache_dir dm self env self1 env1 tr1,
        Py.truthy cache_dir = false ->
        mode dm = REUSE_DATASET_IF_EXISTS ->
        (forall final tmp x e, (incomplete_dir_exit final tmp (Some x) e).1 <> Ok true) ->
        download_and_prepare hook [] cache_dir (Some dm) (self, env)
          = (Ok tt, (self1, env1), tr1) ->
        download_and_prepare hook [] cache_dir (Some dm) (self1, env1)
          = (Ok tt, (self1, env1),
             [LogInfo "Reusing dataset %s (%s)"
                [ArgStr (Some (name self1)); ArgStr (_data_dir self1)]])).
Proof.
  assert (Hnoop : forall dm b e,
            mode dm = REUSE_DATASET_IF_EXISTS -> Py.truthy (_data_dir b) = true ->
            prepare_with_manager hook (Some dm) (b, e)
              = (Ok tt, (b, e),
                 [LogInfo "Reusing dataset %s (%s)"
                    [ArgStr (Some (name b)); ArgStr (_data_dir b)]])).
  { intros dm b e Hm Hb. by apply prepare_with_manager_reuse. }
  split; [|split].
  - intros cache_dir dl_manager self env dm env0 built Hsel Hmode Hd.
    rewrite (download_and_prepare_selects hook _ _ _ _ _ _ _ Hsel).
    by rewrite Hnoop.
  - intros cls_name args data_dir env self Hname Hinit Hsome.
    by destruct (__init___data_dir cls_name args data_dir env self Hname Hinit)
      as [_ [?|?]].
  - intros cache_dir dm self env self1 env1 tr1 Hc Hmode Hexit.
    rewrite !download_and_prepare_supplied by done.
    destruct (Py.truthy (_data_dir self)) eqn:Hd.
    + rewrite Hnoop by done. intros [= <- <- <-]. by apply Hnoop.
    + rewrite prepare_with_manager_generate by (by rewrite Hd). cbv zeta.
      destruct (incomplete_dir_enter _ env) as [[tmp|e] env2]; [|done].
      destruct (hook (set_data_dir (Some tmp) self) dm env2) as [[[[]|e] env3] th].
      * destruct (incomplete_dir_exit _ tmp None env3) as [[b|e] env4]; [|done].
        intros [= <- <- <-]. apply Hnoop; [done|]. simpl.
        apply os_path_join_truthy, strftime_version_truthy.
      * pose proof (Hexit
          (Some (Py.os_path_join (Py.os_path_join (_data_dir_root self) (name self))
                   (strftime_version (datetime_now env))))
          tmp (Foreign e) env3) as Hgo.
        destruct (incomplete_dir_exit _ tmp (Some (Foreign e)) env3) as [[[]|e'] env4];
          done.
Qed.

(** A builder that has a version reuses it; a builder that has none
    generates one, and then reuses it. *)
Lemma download_and_prepare_reuse_is_noop_witness :
  download_and_prepare (H := Sample.platform) (Sample.prepare_hook 1 2) []
    None (Some Sample.manager) (Sample.mnist, Sample.world)
  = (Ok tt, (Sample.mnist, Sample.world),
     [LogInfo "Reusing dataset %s (%s)"
        [ArgStr (Some "mnist"); ArgStr (Some "/data/mnist/v_20180601_1200")]])
  /\ Py.truthy
       (_data_dir (Sample.constructed
                     (outcome (__init__ (H := Sample.platform) "mnist" [] (Some "/data")
                                 Sample.world)))) = true
  /\ let generated :=
       state_after (download_and_prepare (H := Sample.platform) (Sample.prepare_hook 1 2) []
                      None (Some Sample.manager) (Sample.broken, Sample.world)) in
     download_and_prepare (H := Sample.platform) (Sample.prepare_hook 1 2) []
       None (Some Sample.manager) generated
     = (Ok tt, generated,
        [LogInfo "Reusing dataset %s (%s)"
           [ArgStr (Some "broken"); ArgStr (Some "/data/broken/v_20180704_0930")]]).
Proof.
  destruct (download_and_prepare_reuse_is_noop (H := Sample.platform)
              (Sample.prepare_hook 1 2)) as (Hnoop & Hinit & Htwice).
  split; [|split].
  - apply (Hnoop None (Some Sample.manager) Sample.mnist Sample.world Sample.manager
             Sample.world []).
    + constructor. reflexivity.
    + reflexivity.
    + reflexivity.
  - apply (Hinit "mnist" [] (Some "/data") Sample.world); [reflexivity | reflexivity |].
    discriminate.
  - intros generated.
    refine (Htwice None Sample.manager Sample.broken Sample.world
              generated.1 generated.2
              (calls (download_and_prepare (H := Sample.platform) (Sample.prepare_hook 1 2) []
                        None (Some Sample.manager) (Sample.broken, Sample.world)))
              eq_refl eq_refl _ _).
    + intros final tmp x e. simpl. destruct final; discriminate.
    + vm_compute. reflexivity.
Defined.

(** C9. When a call of [download_and_prepare] generates a new version,
    the hook runs on the builder whose [_data_dir] is the staging path
    that entering the incomplete directory returned.  If the hook raises,
    the builder keeps that staging path, whatever the exit of the staging
    directory does: the field is not put back and is not the final version
    path.  If the hook returns, the field is the final version path.  So,
    the two paths being different, the field holds the final version path
    exactly when the hook has completed. *)
Theorem download_and_prepare_hook_failure_keeps_staging `{Platform}
    (hook : t -> DownloadManager -> W unit)
    (cache_dir : option string) (dl_manager : option DownloadManager)
    (self : t) (env : Env) (dm : DownloadManager) (env0 : Env) (built : list Event)
    (tmp : string) (env1 : Env) :
  selects self env cache_dir dl_manager dm env0 built ->
  Py.truthy (_data_dir self) && bool_decide (mode dm = REUSE_DATASET_IF_EXISTS) = false ->
  let final :=
    Some (Py.os_path_join (Py.os_path_join (_data_dir_root self) (name self))
            (strftime_version (datetime_now env0))) in
  incomplete_dir_enter final env0 = (Ok tmp, env1) ->
  let staged := set_data_dir (Some tmp) self in
  let after :=
    (state_after (download_and_prepare hook [] cache_dir dl_manager (self, env))).1 in
  (forall e, outcome (hook staged dm env1) = Raise e -> after = staged)
  /\ (outcome (hook staged dm env1) = Ok tt -> after = set_data_dir final self)
  /\ (Some tmp <> final ->
      (_data_dir after = final <-> outcome (hook staged dm env1) = Ok tt)).
Proof.
  intros Hsel Hgen final Henter staged after.
  assert (Hafter : after =
            match outcome (hook staged dm env1) with
            | Ok _ => set_data_dir final self
            | Raise _ => staged
            end).
  { unfold after.
    rewrite (download_and_prepare_selects hook _ _ _ _ _ _ _ Hsel).
    rewrite prepare_with_manager_generate by done. cbv zeta. fold final.
    rewrite Henter. fold staged. unfold outcome, state_after.
    destruct (hook staged dm env1) as [[[[]|e] env2] th]; simpl.
    - by destruct (incomplete_dir_exit final tmp None env2) as [[b|e] env3].
    - by destruct (incomplete_dir_exit final tmp (Some (Foreign e)) env2)
        as [[[]|e'] env3]. }
  split; [|split].
  - intros e He. by rewrite Hafter, He.
  - intros Hok. by rewrite Hafter, Hok.
  - intros Hne. rewrite Hafter.
    destruct (outcome (hook staged dm env1)) as [[]|e]; simpl; split; done.
Qed.

(** A hook whose second generator fails, next to one that completes. *)
Lemma download_and_prepare_hook_failure_keeps_staging_witness :
  (state_after (download_and_prepare (H := Sample.platform) (Sample.prepare_hook 1 0) []
                  None (Some Sample.manager) (Sample.broken, Sample.world))).1
  = set_data_dir (Some "/data/broken/v_20180704_0930.incomplete") Sample.broken
  /\ (state_after (download_and_prepare (H := Sample.platform) (Sample.prepare_hook 1 2) []
                     None (Some Sample.manager) (Sample.broken, Sample.world))).1
     = set_data_dir (Some "/data/broken/v_20180704_0930") Sample.broken.
Proof.
  split.
  - refine (proj1 (download_and_prepare_hook_failure_keeps_staging (H := Sample.platform)
              (Sample.prepare_hook 1 0) None (Some Sample.manager)
              Sample.broken Sample.world Sample.manager Sample.world []
              "/data/broken/v_20180704_0930.incomplete"
              (Sample.mkdir "/data/broken/v_20180704_0930.incomplete" Sample.world)
              _ eq_refl eq_refl) Sample.GeneratorFailed _).
    + constructor. reflexivity.
    + vm_compute. reflexivity.
  - refine (proj1 (proj2 (download_and_prepare_hook_failure_keeps_staging
              (H := Sample.platform)
              (Sample.prepare_hook 1 2) None (Some Sample.manager)
              Sample.broken Sample.world Sample.manager Sample.world []
              "/data/broken/v_20180704_0930.incomplete"
              (Sample.mkdir "/data/broken/v_20180704_0930.incomplete" Sample.world)
              _ eq_refl eq_refl)) _).
    + constructor. reflexivity.
    + vm_compute. reflexivity.
Defined.

(** C3. [_download_and_prepare] of a generator-based builder makes the
    data directory if it is missing, asks the hook for the split
    generators and then takes them in their order: a generator whose
    output files all exist is passed over (its generator function reaches
    no call, nothing is written), and for any other generator
    [write_from_generator] is called once with its generator function and
    its output files, which are the file paths of its descriptors, one
    descriptor after the other.  The method returns exactly when each of
    these steps can be taken, and every generator accounts for one
    recorded call. *)
Theorem generator_based_prepare_in_order `{Platform}
    (_dataset_split_generators : t -> DownloadManager -> W (list SplitGenerator.t))
    (adapter : GeneratorBasedDatasetBuilder.FileFormatAdapter)
    (self : t) (dl : DownloadManager) (env env1 env2 : Env)
    (made asked : list Event) (generators : list SplitGenerator.t) :
  (gfile_Exists (_data_dir self) env = Ok true /\ env1 = env /\ made = []
   \/ gfile_Exists (_data_dir self) env = Ok false
      /\ gfile_MakeDirs (_data_dir self) env = (Ok tt, env1)
      /\ made = [MakeDirs (_data_dir self)]) ->
  _dataset_split_generators self dl env1 = (Ok generators, env2, asked) ->
  (forall env' tr,
     GeneratorBasedDatasetBuilder._download_and_prepare _dataset_split_generators adapter
       self dl env = (Ok tt, env', made ++ asked ++ tr)
     <-> GeneratorBasedDatasetBuilder.prepares adapter generators env2 env' tr)
  /\ (forall env' tr,
        GeneratorBasedDatasetBuilder.prepares adapter generators env2 env' tr ->
        Forall2 GeneratorBasedDatasetBuilder.accounts_for generators tr)
  /\ (forall g paths,
        map_result SplitFiles.filepaths (SplitGenerator.split_files g) = Ok paths ->
        SplitGenerator.output_files g = Ok (concat paths)).
Proof.
  intros Hdir Hgens. split; [|split].
  - intros env' tr. rewrite <- for_each_prepares.
    assert (GeneratorBasedDatasetBuilder._download_and_prepare _dataset_split_generators
              adapter self dl env
            = let '(r, e, t) :=
                for_each generators
                  (GeneratorBasedDatasetBuilder.prepare_split_generator adapter) env2 in
              (r, e, made ++ asked ++ t)) as ->.
    { unfold GeneratorBasedDatasetBuilder._download_and_prepare, bind, query, call, ret.
      destruct Hdir as [(-> & -> & ->) | (-> & Hmk & ->)]; simpl.
      - rewrite Hgens. by destruct (for_each _ _ env2) as [[r e] t].
      - rewrite Hmk, Hgens. by destruct (for_each _ _ env2) as [[r e] t]. }
    destruct (for_each _ _ env2) as [[r e] t]. split.
    + intros [= -> -> Htr]. by apply app_inv_head, app_inv_head in Htr as ->.
    + by intros [= -> -> ->].
  - intros env' tr. apply prepares_accounts.
  - intros g paths Hpaths. by rewrite output_files_concat, Hpaths.
Qed.

(** The train shards exist and the test shard does not: the train
    generator is passed over and the test generator is written. *)
Lemma generator_based_prepare_in_order_witness :
  GeneratorBasedDatasetBuilder._download_and_prepare (H := Sample.platform)
    (Sample.split_generators 1 2) Sample.adapter Sample.mnist Sample.manager
    Sample.half_done
  = (Ok tt,
     Sample.add_files ["/data/mnist/v_20180601_1200/mnist-test.tfrecord-00000-of-00001"]
       (Sample.mkdir "/data/mnist/v_20180601_1200" Sample.half_done),
     [MakeDirs (H := Sample.platform) (Some "/data/mnist/v_20180601_1200");
      LogInfo (H := Sample.platform)
        "Skipping download_and_prepare for splits %s as all files exist."
        [ArgSplits [TRAIN]];
      WriteFromGenerator (H := Sample.platform) 2
        ["/data/mnist/v_20180601_1200/mnist-test.tfrecord-00000-of-00001"]]).
Proof.
  pose (made := Sample.mkdir "/data/mnist/v_20180601_1200" Sample.half_done).
  pose (train := {| SplitGenerator.generator_fn := 1%nat : @Generator Sample.platform;
                    SplitGenerator.split_files :=
                      [GeneratorBasedDatasetBuilder._split_files Sample.adapter
                         Sample.mnist TRAIN (Some 2%Z)] |}).
  pose (test := {| SplitGenerator.generator_fn := 2%nat : @Generator Sample.platform;
                   SplitGenerator.split_files :=
                     [GeneratorBasedDatasetBuilder._split_files Sample.adapter
                        Sample.mnist TEST (Some 1%Z)] |}).
  destruct (generator_based_prepare_in_order (H := Sample.platform)
              (Sample.split_generators 1 2) Sample.adapter Sample.mnist Sample.manager
              Sample.half_done made made
              [MakeDirs (H := Sample.platform) (Some "/data/mnist/v_20180601_1200")] []
              [train; test])
    as [Hrun _].
  - right. repeat split; reflexivity.
  - reflexivity.
  - apply Hrun.
    apply GeneratorBasedDatasetBuilder.prepares_skip; [reflexivity|].
    refine (GeneratorBasedDatasetBuilder.prepares_write (H := Sample.platform)
              Sample.adapter test [] made
              [["/data/mnist/v_20180601_1200/mnist-test.tfrecord-00000-of-00001"]]
              (Sample.add_files
                 ["/data/mnist/v_20180601_1200/mnist-test.tfrecord-00000-of-00001"] made)
              _ [] eq_refl eq_refl eq_refl _).
    apply GeneratorBasedDatasetBuilder.prepares_nil.
Defined.

(** C5. In graph mode [run] looks its cache up under the triple
    ([id] of the function, dtype of the input, shape of the input).  A call
    whose triple is in the cache leaves the runner as it is and runs the
    stored session on the stored output and placeholder, fed with the
    input, building nothing: what the call returns or raises, and the
    runtime it leaves, are those of that run.  A call whose triple is new,
    once its graph is built, stores that graph under the triple: the cache
    has exactly one entry more, and the call is the run of the new session.
    So a second call with the same function and an input of the same dtype
    and shape, after a first call that returned, leaves the cache as it is
    and is the run, on the second input, of the very session, output and
    placeholder that gave the first call its result.  A call whose input
    is no array, or whose graph cannot be built, raises that, runs no
    session and stores nothing.  In eager mode [run] applies the function
    to the input, turns the result into an array and leaves the runner as
    it is. *)
Theorem run_caches_by_signature `{TensorFlow}
    (self : TFGraphRunner.t) (tf : TF) (f : Fct) (x : ndarray + PyValue) :
  let first := TFGraphRunner.run f x (self, tf) in
  (executing_eagerly tf = true ->
   first = let '(r, tf') := eager_call f x tf in
           (match r with Ok value => numpy value | Raise e => Raise e end,
            (self, tf'), [TFGraphRunner.EagerCall f x]))
  /\ (executing_eagerly tf = false ->
      forall a, TFGraphRunner.as_ndarray x = Ok a ->
      let signature := (id f, dtype a, shape a) in
      TFGraphRunner._build_signature {| TFGraphRunner.fct := f; TFGraphRunner.input := a |}
        = signature
      /\ (forall gr,
            TFGraphRunner._graph_run_cache self !! signature = Some gr ->
            (state_after first).1 = self
            /\ calls first = [TFGraphRunner.SessionRun gr a]
            /\ first
               = let '(r, tf') :=
                   session_run (TFGraphRunner.session gr) (TFGraphRunner.output gr)
                     (TFGraphRunner.placeholder gr) a tf in
                 (r, (self, tf'), [TFGraphRunner.SessionRun gr a]))
      /\ (TFGraphRunner._graph_run_cache self !! signature = None ->
          forall gr s1 built,
            TFGraphRunner._build_graph_run
              {| TFGraphRunner.fct := f; TFGraphRunner.input := a |} (self, tf)
              = (Ok gr, s1, built) ->
            TFGraphRunner._graph_run_cache (state_after first).1
              = <[signature := gr]> (TFGraphRunner._graph_run_cache self)
            /\ size (TFGraphRunner._graph_run_cache (state_after first).1)
               = S (size (TFGraphRunner._graph_run_cache self))
            /\ calls first = built ++ [TFGraphRunner.SessionRun gr a]
            /\ first
               = let '(r, tf') :=
                   session_run (TFGraphRunner.session gr) (TFGraphRunner.output gr)
                     (TFGraphRunner.placeholder gr) a s1.2 in
                 (r,
                  ({| TFGraphRunner._graph_run_cache :=
                        <[signature := gr]> (TFGraphRunner._graph_run_cache self) |}, tf'),
                  built ++ [TFGraphRunner.SessionRun gr a]))
      /\ (forall value x2 a2,
            outcome first = Ok value ->
            executing_eagerly (state_after first).2 = false ->
            TFGraphRunner.as_ndarray x2 = Ok a2 ->
            dtype a2 = dtype a -> shape a2 = shape a ->
            let second := TFGraphRunner.run f x2 (state_after first) in
            exists gr built,
              calls first = built ++ [TFGraphRunner.SessionRun gr a]
              /\ calls second = [TFGraphRunner.SessionRun gr a2]
              /\ (state_after second).1 = (state_after first).1
              /\ size (TFGraphRunner._graph_run_cache (state_after second).1)
                 = size (TFGraphRunner._graph_run_cache (state_after first).1)
              /\ TFGraphRunner._graph_run_cache (state_after first).1 !! signature
                 = Some gr
              /\ (exists tf0,
                    session_run (TFGraphRunner.session gr) (TFGraphRunner.output gr)
                      (TFGraphRunner.placeholder gr) a tf0
                    = (Ok value, (state_after first).2))
              /\ second
                 = let '(r, tf') :=
                     session_run (TFGraphRunner.session gr) (TFGraphRunner.output gr)
                       (TFGraphRunner.placeholder gr) a2 (state_after first).2 in
                   (r, ((state_after first).1, tf'),
                    [TFGraphRunner.SessionRun gr a2])))
  /\ (executing_eagerly tf = false ->
      forall e, TFGraphRunner.as_ndarray x = Raise e -> first = (Raise e, (self, tf), []))
  /\ (executing_eagerly tf = false ->
      forall a, TFGraphRunner.as_ndarray x = Ok a ->
      TFGraphRunner._graph_run_cache self !! (id f, dtype a, shape a) = None ->
      forall e s1 built,
        TFGraphRunner._build_graph_run
          {| TFGraphRunner.fct := f; TFGraphRunner.input := a |} (self, tf)
          = (Raise e, s1, built) ->
        first = (Raise e, (self, s1.2), built)).
Proof.
  intros first.
  split; [apply run_eager|]. split; [|split].
  2: { intros Hgraph e He. by apply run_conversion_fails. }
  2: { intros Hgraph a Ha Hnone e s1 built Hbuild. unfold first.
       by rewrite (run_fresh f x a self tf Hgraph Ha Hnone), Hbuild. }
  intros Hgraph a Ha signature.
  assert (Hhit : forall gr,
            TFGraphRunner._graph_run_cache self !! signature = Some gr ->
            first = let '(r, tf') :=
                      session_run (TFGraphRunner.session gr) (TFGraphRunner.output gr)
                        (TFGraphRunner.placeholder gr) a tf in
                    (r, (self, tf'), [TFGraphRunner.SessionRun gr a])).
  { intros gr Hgr. by apply run_cached. }
  assert (Hmiss : TFGraphRunner._graph_run_cache self !! signature = None ->
            forall gr s1 built,
              TFGraphRunner._build_graph_run
                {| TFGraphRunner.fct := f; TFGraphRunner.input := a |} (self, tf)
                = (Ok gr, s1, built) ->
              first = let '(r, tf') :=
                        session_run (TFGraphRunner.session gr) (TFGraphRunner.output gr)
                          (TFGraphRunner.placeholder gr) a s1.2 in
                      (r, ({| TFGraphRunner._graph_run_cache :=
                                <[signature := gr]> (TFGraphRunner._graph_run_cache self) |},
                           tf'),
                       built ++ [TFGraphRunner.SessionRun gr a])).
  { intros Hnone gr s1 built Hbuild. unfold first.
    rewrite (run_fresh f x a self tf Hgraph Ha Hnone), Hbuild. done. }
  split; [reflexivity|]. split; [|split].
  - intros gr Hgr. split; [|split; [|by apply Hhit]].
    + rewrite (Hhit gr Hgr). by destruct (session_run _ _ _ a tf) as [r tf'].
    + rewrite (Hhit gr Hgr). by destruct (session_run _ _ _ a tf) as [r tf'].
  - intros Hnone gr s1 built Hbuild.
    split; [|split; [|split; [|by apply Hmiss]]];
      rewrite (Hmiss Hnone gr s1 built Hbuild);
      destruct (session_run _ _ _ a s1.2) as [r tf']; unfold state_after, calls; simpl;
      [done | by apply map_size_insert_None | done].
  - intros value x2 a2 Hok Hgraph2 Ha2 Hdt Hsh second.
    assert (exists gr built tf0,
              calls first = built ++ [TFGraphRunner.SessionRun gr a]
              /\ TFGraphRunner._graph_run_cache (state_after first).1 !! signature
                 = Some gr
              /\ session_run (TFGraphRunner.session gr) (TFGraphRunner.output gr)
                   (TFGraphRunner.placeholder gr) a tf0
                 = (Ok value, (state_after first).2))
      as (gr & built & tf0 & Hcalls & Hstored & Hran).
    { destruct (TFGraphRunner._graph_run_cache self !! signature) as [gr|] eqn:Hlook.
      - exists gr, [], tf. revert Hok. rewrite (Hhit gr eq_refl).
        destruct (session_run _ _ _ a tf) as [r tf']. unfold outcome, state_after, calls.
        simpl. by intros ->.
      - destruct (TFGraphRunner._build_graph_run
                    {| TFGraphRunner.fct := f; TFGraphRunner.input := a |} (self, tf))
          as [[[gr|e] s1] built] eqn:Hbuild.
        + exists gr, built, s1.2. revert Hok. rewrite (Hmiss eq_refl gr s1 built eq_refl).
          destruct (session_run _ _ _ a s1.2) as [r tf'].
          unfold outcome, state_after, calls. simpl. intros ->.
          split; [done|]. split; [|done]. by rewrite lookup_insert_eq.
        + exfalso. unfold first in Hok.
          rewrite (run_fresh f x a self tf Hgraph Ha Hlook), Hbuild in Hok. done. }
    exists gr, built. split; [done|].
    assert (second = let '(r, tf') :=
                       session_run (TFGraphRunner.session gr) (TFGraphRunner.output gr)
                         (TFGraphRunner.placeholder gr) a2 (state_after first).2 in
                     (r, ((state_after first).1, tf'),
                      [TFGraphRunner.SessionRun gr a2])) as Hsecond.
    { unfold second. destruct (state_after first) as [self1 tf1] eqn:Hst.
      apply run_cached; [done..|]. rewrite Hdt, Hsh. done. }
    split; [|split; [|split; [|split; [done|split; [by exists tf0|exact Hsecond]]]]];
      rewrite Hsecond; by destruct (session_run _ _ _ a2 _) as [r tf'].
Qed.

(** An empty runner in graph mode, called twice with the function [3]
    on two lists of two integers. *)
Lemma run_caches_by_signature_witness :
  let first :=
    TFGraphRunner.run (H := Sample.tensorflow) 3%positive (inr [1; 2]%Z)
      (TFGraphRunner.__init__, (false, 0%nat)) in
  let second :=
    TFGraphRunner.run (H := Sample.tensorflow) 3%positive (inr [5; 6]%Z)
      (state_after first) in
  size (TFGraphRunner._graph_run_cache (state_after first).1) = 1%nat
  /\ size (TFGraphRunner._graph_run_cache (state_after second).1) = 1%nat
  /\ (exists gr built,
        calls first
          = built ++ [TFGraphRunner.SessionRun (H := Sample.tensorflow) gr
                        ("int64", [1; 2]%Z)]
        /\ calls second
           = [TFGraphRunner.SessionRun (H := Sample.tensorflow) gr ("int64", [5; 6]%Z)])
  /\ outcome second = Ok ("int64", [8; 9]%Z).
Proof.
  intros first second.
  destruct (run_caches_by_signature (H := Sample.tensorflow) TFGraphRunner.__init__
              (false, 0%nat) 3%positive (inr [1; 2]%Z)) as (_ & Hgraph & _).
  destruct (Hgraph eq_refl ("int64", [1; 2]%Z) eq_refl) as (_ & _ & Hmiss & Htwice).
  edestruct (Hmiss eq_refl) as (_ & Hsize & _); [reflexivity|].
  destruct (Htwice ("int64", [4; 5]%Z) (inr [5; 6]%Z) ("int64", [5; 6]%Z)
              eq_refl eq_refl eq_refl eq_refl eq_refl)
    as (gr & built & Hfirst & Hsecond & _ & Hsame & Hstored & _ & Hrun).
  split; [exact Hsize|]. split; [|split].
  - exact (eq_trans Hsame Hsize).
  - exists gr, built. split; [exact Hfirst | exact Hsecond].
  - refine (eq_trans (f_equal outcome Hrun) _).
    vm_compute in Hstored. injection Hstored as <-. reflexivity.
Defined.

End claims.

(** * Further properties *)

(** ** Version names and the order of time *)

Section version_names.

Lemma string_compare_refl (s : string) : String.compare s s = Eq.
Proof.
  induction s as [|c s IH]; simpl; [done|].
  unfold Ascii.compare. by rewrite N.compare_refl.
Qed.

Lemma string_compare_lt_trans (a b c : string) :
  String.compare a b = Lt -> String.compare b c = Lt -> String.compare a c = Lt.
Proof.
  revert b c. induction a as [|x a IH]; intros [|y b] [|z c]; simpl; try done.
  unfold Ascii.compare.
  destruct (N.compare_spec (N_of_ascii x) (N_of_ascii y)) as [Hxy|Hxy|Hxy];
    destruct (N.compare_spec (N_of_ascii y) (N_of_ascii z)) as [Hyz|Hyz|Hyz];
    try done; intros H1 H2.
  - rewrite Hxy, Hyz, N.compare_refl. eauto.
  - rewrite Hxy. by apply N.compare_lt_iff in Hyz as ->.
  - rewrite <- Hyz. by apply N.compare_lt_iff in Hxy as ->.
  - assert (N_of_ascii x < N_of_ascii z)%N as Hlt by lia.
    by apply N.compare_lt_iff in Hlt as ->.
Qed.

(** Two strings that start with pieces of one length compare as the
    pieces do, and as the rests do when the pieces are equal. *)
Lemma string_compare_app (a a' b b' : string) :
  String.length a = String.length a' ->
  String.compare (a +:+ b) (a' +:+ b')
    = then_compare (String.compare a a') (String.compare b b').
Proof.
  revert a'. induction a as [|x a IH]; intros [|x' a'] Hlen; simplify_eq/=; [done|].
  destruct (Ascii.compare x x'); simpl; auto.
Qed.

(** The four digits of a year and the two digits of the other fields
    grow with the number; both facts are checked number by number. *)
Lemma year_digits_step :
  forallb (fun y => String.ltb (zfill 4 y) (zfill 4 (S y))
                    && Nat.eqb (String.length (zfill 4 (S y))) 4)
    (seq 999 (9 * 1000)) = true.
Proof. vm_compute. reflexivity. Qed.

Lemma field_digits_compare :
  forallb (fun m =>
             Nat.eqb (String.length (zfill 2 m)) 2
             && forallb (fun m' =>
                  bool_decide (String.compare (zfill 2 m) (zfill 2 m') = Nat.compare m m'))
                  (seq 0 60))
    (seq 0 60) = true.
Proof. vm_compute. reflexivity. Qed.

Lemma year_digits_length (y : nat) :
  1000 <= y < 10 * 1000 -> String.length (zfill 4 y) = 4.
Proof.
  intros Hy. pose proof year_digits_step as Hall.
  rewrite forallb_forall in Hall.
  destruct y as [|y]; [lia|].
  specialize (Hall y). rewrite andb_true_iff, Nat.eqb_eq in Hall.
  apply Hall, in_seq. lia.
Qed.

Lemma year_digits_lt (y y' : nat) :
  1000 <= y -> y < y' -> y' < 10 * 1000 ->
  String.compare (zfill 4 y) (zfill 4 y') = Lt.
Proof.
  intros Hlo Hlt Hhi.
  assert (Hstep : forall z, 1000 <= z -> S z < 10 * 1000 ->
            String.compare (zfill 4 z) (zfill 4 (S z)) = Lt).
  { intros z Hz Hz'. pose proof year_digits_step as Hall.
    rewrite forallb_forall in Hall. specialize (Hall z).
    rewrite andb_true_iff in Hall. destruct Hall as [Hall _]; [apply in_seq; lia|].
    unfold String.ltb in Hall. by destruct (String.compare _ _). }
  induction Hlt as [|y' Hle IH].
  - apply Hstep; lia.
  - eapply string_compare_lt_trans; [apply IH; lia | apply Hstep; lia].
Qed.

Lemma year_digits_compare (y y' : nat) :
  1000 <= y < 10 * 1000 -> 1000 <= y' < 10 * 1000 ->
  String.compare (zfill 4 y) (zfill 4 y') = Nat.compare y y'.
Proof.
  intros Hy Hy'. destruct (Nat.compare_spec y y') as [->|Hlt|Hgt].
  - apply string_compare_refl.
  - apply year_digits_lt; lia.
  - rewrite String.compare_antisym, year_digits_lt by lia. done.
Qed.

Lemma field_digits (m m' : nat) :
  m <= 59 -> m' <= 59 ->
  String.length (zfill 2 m) = 2
  /\ String.compare (zfill 2 m) (zfill 2 m') = Nat.compare m m'.
Proof.
  intros Hm Hm'. pose proof field_digits_compare as Hall.
  rewrite forallb_forall in Hall. specialize (Hall m).
  rewrite andb_true_iff, Nat.eqb_eq, forallb_forall in Hall.
  destruct Hall as [Hlen Hcmp]; [apply in_seq; lia|]. split; [done|].
  specialize (Hcmp m'). rewrite bool_decide_eq_true in Hcmp.
  apply Hcmp, in_seq. lia.
Qed.

Lemma strftime_version_compare (d1 d2 : datetime) :
  datetime_valid d1 -> datetime_valid d2 ->
  String.compare (strftime_version d1) (strftime_version d2) = datetime_compare d1 d2.
Proof.
  intros (Hy1 & Hm1 & Hd1 & Hh1 & Hi1) (Hy2 & Hm2 & Hd2 & Hh2 & Hi2).
  unfold strftime_version, datetime_compare.
  rewrite (string_compare_app "v_" "v_") by done.
  rewrite (string_compare_app (zfill 4 (year d1)) (zfill 4 (year d2)))
    by by rewrite !year_digits_length.
  rewrite year_digits_compare by done.
  destruct (field_digits (month d1) (month d2)) as [Hl1 Hc1]; [lia..|].
  destruct (field_digits (month d2) (month d1)) as [Hl2 _]; [lia..|].
  rewrite (string_compare_app (zfill 2 (month d1)) (zfill 2 (month d2))) by congruence.
  destruct (field_digits (day d1) (day d2)) as [Hl3 Hc3]; [lia..|].
  destruct (field_digits (day d2) (day d1)) as [Hl4 _]; [lia..|].
  rewrite (string_compare_app (zfill 2 (day d1)) (zfill 2 (day d2))) by congruence.
  rewrite (string_compare_app "_" "_") by done.
  destruct (field_digits (hour d1) (hour d2)) as [Hl5 Hc5]; [lia..|].
  destruct (field_digits (hour d2) (hour d1)) as [Hl6 _]; [lia..|].
  rewrite (string_compare_app (zfill 2 (hour d1)) (zfill 2 (hour d2))) by congruence.
  destruct (field_digits (minute d1) (minute d2)) as [_ Hc7]; [lia..|].
  rewrite Hc1, Hc3, Hc5, Hc7. reflexivity.
Qed.

(** A version name holds no [.incomplete]: it has no dot at all. *)
Lemma has_dot_app (a b : string) : has_dot (a +:+ b) = has_dot a || has_dot b.
Proof.
  induction a as [|c a IH]; [done|]. rewrite append_cons. simpl.
  by rewrite IH, orb_assoc.
Qed.

Lemma contains_marker_has_dot (s : string) :
  Py.contains INCOMPLETE_MARKER s = true -> has_dot s = true.
Proof.
  intros (before & after & ->)%contains_spec.
  rewrite !has_dot_app. simpl. by rewrite orb_true_r.
Qed.

Lemma digits_have_no_dot :
  forallb (fun y => negb (has_dot (zfill 4 y))) (seq 1000 (9 * 1000)) = true
  /\ forallb (fun m => negb (has_dot (zfill 2 m))) (seq 0 60) = true.
Proof. split; vm_compute; reflexivity. Qed.

Lemma strftime_version_marker_free (d : datetime) :
  datetime_valid d -> Py.contains INCOMPLETE_MARKER (strftime_version d) = false.
Proof.
  intros (Hy & Hm & Hd & Hh & Hi).
  destruct (Py.contains _ _) eqn:Hc; [|done].
  apply contains_marker_has_dot in Hc.
  destruct digits_have_no_dot as [Hyear Hfield].
  rewrite forallb_forall in Hyear, Hfield.
  assert (forall m, m <= 59 -> has_dot (zfill 2 m) = false) as Hf.
  { intros m Hm'. apply negb_true_iff, Hfield, in_seq. lia. }
  assert (has_dot (zfill 4 (year d)) = false) as Hyr.
  { apply negb_true_iff, Hyear, in_seq. lia. }
  unfold strftime_version in Hc. rewrite !has_dot_app in Hc.
  rewrite Hyr, !Hf in Hc by lia. done.
Qed.

End version_names.

(** ** Version resolution, further *)

Section resolution_facts.
Context `{Platform}.
Import DatasetBuilder.

Lemma filter_Permutation_bool {A} (f : A -> bool) (l l' : list A) :
  l ≡ₚ l' -> List.filter f l ≡ₚ List.filter f l'.
Proof.
  induction 1 as [|x l l' _ IH|x y l|l1 l2 l3 _ IH1 _ IH2]; simpl.
  - done.
  - destruct (f x); by rewrite IH.
  - destruct (f x), (f y); try done. apply perm_swap.
  - by etrans.
Qed.

(** The entries that are kept, in order, are a function of the kept
    entries as a collection. *)
Lemma kept_sorted_unique (f : string -> bool) (l l' : list string) :
  List.filter f l ≡ₚ List.filter f l' ->
  List.filter f (Py.sorted l) = List.filter f (Py.sorted l').
Proof.
  intros Hperm.
  destruct (sorted_spec l) as [Hs Hp], (sorted_spec l') as [Hs' Hp'].
  apply (StronglySorted_unique String.le).
  - by apply StronglySorted_filter.
  - by apply StronglySorted_filter.
  - rewrite (filter_Permutation_bool f _ _ Hp), (filter_Permutation_bool f _ _ Hp').
    done.
Qed.

Lemma elem_of_filter_bool {A} (f : A -> bool) (l : list A) (x : A) :
  x ∈ List.filter f l <-> x ∈ l /\ f x = true.
Proof. rewrite !list_elem_of_In. apply filter_In. Qed.

Lemma le_compare (a b : string) : String.le a b <-> String.compare a b <> Gt.
Proof.
  unfold String.le, String.leb. destruct (String.compare a b); simpl; split; done.
Qed.

End resolution_facts.

(** ** Split generators, further *)

Section split_generator_facts.
Context `{Platform}.
Import GeneratorBasedDatasetBuilder.

Lemma map_result_Ok {X A B} (f : A -> Result X B) (l : list A) (ys : list B) :
  map_result f l = Ok ys <-> Forall2 (fun x y => f x = Ok y) l ys.
Proof.
  revert ys. induction l as [|x l IH]; intros ys; simpl.
  - split; [intros [= <-]; constructor | by inversion 1].
  - destruct (f x) as [y|e] eqn:Hx.
    + destruct (map_result f l) as [ys'|e] eqn:Hl.
      * split.
        -- intros [= <-]. constructor; [done|]. by apply IH.
        -- inversion 1 as [|? y' ? ys'' Hy Hrest]; subst.
           apply IH in Hrest. congruence.
      * split; [done|]. inversion 1 as [|? y' ? ys'' Hy Hrest]; subst.
        apply IH in Hrest. done.
    + split; [done|]. inversion 1; congruence.
Qed.

Lemma map_result_Raise {X A B} (f : A -> Result X B) (l : list A) (e : X) :
  map_result f l = Raise e
  <-> exists before x after,
        l = before ++ x :: after
        /\ Forall (fun x' => exists y, f x' = Ok y) before
        /\ f x = Raise e.
Proof.
  induction l as [|x l IH]; simpl.
  - split; [done|]. intros (before & x & after & Hl & _). by destruct before.
  - destruct (f x) as [y|e'] eqn:Hx.
    + transitivity (map_result f l = Raise e).
      { destruct (map_result f l); split; congruence. }
      rewrite IH. split.
      * intros (before & x' & after & -> & Hall & Hr).
        exists (x :: before), x', after. split; [done|]. split; [|done].
        constructor; eauto.
      * intros (before & x' & after & Heq & Hall & Hr).
        destruct before as [|b before]; simpl in Heq; injection Heq as <- ->.
        -- congruence.
        -- apply Forall_cons in Hall as [_ Hall]. by exists before, x', after.
    + split.
      * intros [= ->]. exists [], x, l. by repeat split.
      * intros (before & x' & after & Heq & Hall & Hr).
        destruct before as [|b before]; simpl in Heq; injection Heq as <- ->.
        -- congruence.
        -- apply Forall_cons in Hall as [[y Hy] _]. congruence.
Qed.

Lemma map_result_all_true {X A} (f : A -> Result X bool) (l : list A) (bs : list bool) :
  map_result f l = Ok bs ->
  forallb Datatypes.id bs = true <-> forall x, x ∈ l -> f x = Ok true.
Proof.
  intros Hmap%map_result_Ok.
  induction Hmap as [|x b l bs Hx _ IH]; simpl.
  - split; [|done]. intros _ x Hx. by apply elem_of_nil in Hx.
  - rewrite andb_true_iff, IH. split.
    + intros [Hb Hrest] x' [->|Hx']%elem_of_cons; [|by apply Hrest].
      unfold Datatypes.id in Hb. congruence.
    + intros Hall. split.
      * specialize (Hall x (list_elem_of_here _ _)). unfold Datatypes.id. congruence.
      * intros x' Hx'. apply Hall. by right.
Qed.

(** All descriptors are asked, in order. *)
Lemma exists_all_outcome (l : list SplitFiles.t) (env : Env) :
  SplitGenerator.exists_all l env
    = (map_result (fun sf => outcome (SplitFiles.exists_ sf env)) l, env, []).
Proof.
  induction l as [|sf l IH]; simpl; [done|].
  unfold bind. destruct (exists_pure sf env) as [r Hr]. rewrite Hr.
  unfold outcome at 1. simpl. destruct r as [b|e]; [|done].
  rewrite IH. by destruct (map_result _ l).
Qed.

Lemma for_each_app {Ev S X A} (l1 l2 : list A) (body : A -> ST Ev S X unit) (s : S) :
  for_each (l1 ++ l2) body s
    = match for_each l1 body s with
      | (Ok _, s1, t1) => let '(r, s2, t2) := for_each l2 body s1 in (r, s2, t1 ++ t2)
      | (Raise e, s1, t1) => (Raise e, s1, t1)
      end.
Proof.
  revert s. induction l1 as [|x l1 IH]; intros s; simpl.
  - by destruct (for_each l2 body s) as [[r s2] t2].
  - unfold bind. destruct (body x s) as [[[[]|e] s1] t1]; [|done].
    rewrite IH. destruct (for_each l1 body s1) as [[[[]|e] s2] t2]; [|done].
    destruct (for_each l2 body s2) as [[r s3] t3]. by rewrite app_assoc.
Qed.

(** [_download_and_prepare] once the directory is there and the hook
    has returned the generators: the loop. *)
Lemma _download_and_prepare_loop
    (_dataset_split_generators : DatasetBuilder.t -> DownloadManager -> W (list SplitGenerator.t))
    (adapter : FileFormatAdapter) (self : DatasetBuilder.t) (dl : DownloadManager)
    (env env1 env2 : Env) (made asked : list Event) (generators : list SplitGenerator.t) :
  (gfile_Exists (DatasetBuilder._data_dir self) env = Ok true /\ env1 = env /\ made = []
   \/ gfile_Exists (DatasetBuilder._data_dir self) env = Ok false
      /\ gfile_MakeDirs (DatasetBuilder._data_dir self) env = (Ok tt, env1)
      /\ made = [MakeDirs (DatasetBuilder._data_dir self)]) ->
  _dataset_split_generators self dl env1 = (Ok generators, env2, asked) ->
  _download_and_prepare _dataset_split_generators adapter self dl env
    = let '(r, e, t) := for_each generators (prepare_split_generator adapter) env2 in
      (r, e, made ++ asked ++ t).
Proof.
  intros Hdir Hgens.
  unfold _download_and_prepare, bind, query, call, ret.
  destruct Hdir as [(-> & -> & ->) | (-> & Hmk & ->)]; simpl.
  - rewrite Hgens. by destruct (for_each _ _ env2) as [[r e] t].
  - rewrite Hmk, Hgens. by destruct (for_each _ _ env2) as [[r e] t].
Qed.

End split_generator_facts.

(** ** The graph runner and the shape check, further *)

Section graph_runner_facts.
Context `{TensorFlow}.
Import TFGraphRunner.

(** [_build_graph_run], step by step. *)
Lemma _build_graph_run_spec (run_args : RunArgs) (self : t) (tf : TF)
    (g : Graph) (tf1 : TF) :
  graph_enter tf = (g, tf1) ->
  _build_graph_run run_args (self, tf)
    = match tf_placeholder (dtype (input run_args)) (shape (input run_args)) tf1 with
      | (Raise e, tf2) =>
          (Raise e, (self, graph_exit g tf2),
           [NewGraph g; NewPlaceholder (dtype (input run_args)) (shape (input run_args))])
      | (Ok p, tf2) =>
          match fct_call (fct run_args) p tf2 with
          | (Raise e, tf3) =>
              (Raise e, (self, graph_exit g tf3),
               [NewGraph g;
                NewPlaceholder (dtype (input run_args)) (shape (input run_args));
                TraceFct (fct run_args) p])
          | (Ok o, tf3) =>
              match tf_Session tf3 with
              | (Raise e, tf4) =>
                  (Raise e, (self, graph_exit g tf4),
                   [NewGraph g;
                    NewPlaceholder (dtype (input run_args)) (shape (input run_args));
                    TraceFct (fct run_args) p; NewSession])
              | (Ok ss, tf4) =>
                  (Ok {| graph := g; session := ss; placeholder := p; output := o |},
                   (self, graph_exit g tf4),
                   [NewGraph g;
                    NewPlaceholder (dtype (input run_args)) (shape (input run_args));
                    TraceFct (fct run_args) p; NewSession])
              end
          end
      end.
Proof.
  intros Hg.
  unfold _build_graph_run, with_new_graph, bind, tf_call, ret. cbn [fst snd].
  rewrite Hg.
  destruct (tf_placeholder _ _ tf1) as [[p|e] tf2]; cbn [fst snd]; [|done].
  destruct (fct_call _ p tf2) as [[o|e] tf3]; cbn [fst snd]; [|done].
  destruct (tf_Session tf3) as [[ss|e] tf4]; cbn [fst snd]; done.
Qed.

End graph_runner_facts.

Section shape_facts.
Import tf_utils.

Lemma assert_shape_match_Ok {E} (shape1 : static_shape) (shape2 : dynamic_shape) :
  assert_shape_match (E := E) shape1 shape2 = Ok tt
  <-> length shape1 = length shape2 /\ positions_agree shape1 shape2.
Proof.
  unfold assert_shape_match.
  destruct (Nat.eqb_spec (length shape1) (length shape2)) as [Hlen|Hlen]; simpl.
  - rewrite <- (dims_check_spec shape1 shape2 Hlen).
    destruct (forallb _ _); simpl; split; try done; by intros [_ ?].
  - split; [done | by intros [? _]].
Qed.

End shape_facts.

(** ** A generation that succeeds *)

Section generation_facts.
Context `{Platform}.
Import DatasetBuilder.
Variable hook : t -> DownloadManager -> W unit.

(** A new version directory is a path that Python takes for true. *)
Lemma version_dir_truthy (self : t) (d : datetime) :
  Py.truthy
    (Some (Py.os_path_join (Py.os_path_join (_data_dir_root self) (name self))
             (strftime_version d))) = true.
Proof. apply os_path_join_truthy, strftime_version_truthy. Qed.

(** The hook has returned and the staging directory is left without an
    exception: the call returns and the builder points to the new
    version. *)
Lemma download_and_prepare_generated
    (cache_dir : option string) (dl_manager : option DownloadManager)
    (self : t) (env : Env) (dm : DownloadManager) (env0 : Env) (built : list Event)
    (tmp : string) (env1 env2 env3 : Env) (hooked : list Event) (b : bool) :
  selects self env cache_dir dl_manager dm env0 built ->
  Py.truthy (_data_dir self) && bool_decide (mode dm = REUSE_DATASET_IF_EXISTS) = false ->
  let final :=
    Some (Py.os_path_join (Py.os_path_join (_data_dir_root self) (name self))
            (strftime_version (datetime_now env0))) in
  incomplete_dir_enter final env0 = (Ok tmp, env1) ->
  hook (set_data_dir (Some tmp) self) dm env1 = (Ok tt, env2, hooked) ->
  incomplete_dir_exit final tmp None env2 = (Ok b, env3) ->
  outcome (download_and_prepare hook [] cache_dir dl_manager (self, env)) = Ok tt
  /\ state_after (download_and_prepare hook [] cache_dir dl_manager (self, env))
     = (set_data_dir final self, env3).
Proof.
  intros Hsel Hgen final Henter Hhook Hexit.
  rewrite (download_and_prepare_selects hook _ _ _ _ _ _ _ Hsel).
  rewrite prepare_with_manager_generate by done. cbv zeta. fold final.
  by rewrite Henter, Hhook, Hexit.
Qed.

End generation_facts.

(** ** Properties beyond the claims *)

Section further.
Import DatasetBuilder.

(** X1. What [_get_data_dir] resolves depends only on the entries of the
    listing that are free of the incomplete marker, taken as a collection:
    neither the order in which the file system lists them nor the staging
    directories that are there changes it. *)
Theorem get_data_dir_depends_on_kept_entries `{Platform}
    (self : t) (env env' : Env) (entries entries' : list string) :
  let root := Py.os_path_join (_data_dir_root self) (name self) in
  gfile_Exists (Some root) env = Ok true ->
  gfile_ListDirectory root env = Ok entries ->
  gfile_Exists (Some root) env' = Ok true ->
  gfile_ListDirectory root env' = Ok entries' ->
  List.filter (fun f => negb (Py.contains ".incomplete" f)) entries
    ≡ₚ List.filter (fun f => negb (Py.contains ".incomplete" f)) entries' ->
  outcome (_get_data_dir self None env) = outcome (_get_data_dir self None env').
Proof.
  intros root Hex Hls Hex' Hls' Hperm.
  rewrite (_get_data_dir_listing self env entries Hex Hls).
  rewrite (_get_data_dir_listing self env' entries' Hex' Hls').
  unfold outcome, INCOMPLETE_MARKER. simpl.
  by rewrite (kept_sorted_unique _ entries entries' Hperm).
Qed.

Lemma get_data_dir_depends_on_kept_entries_witness :
  outcome (_get_data_dir (H := Sample.platform) Sample.mnist None Sample.world)
  = outcome (_get_data_dir (H := Sample.platform) Sample.mnist None Faulty.relisted).
Proof.
  apply (get_data_dir_depends_on_kept_entries (H := Sample.platform) Sample.mnist
           Sample.world Faulty.relisted
           ["v_20180601_1200.incomplete"; "v_20180101_0000"; "v_20180601_1200"]
           ["v_20180601_1200"; "v_20190101_0000.incomplete"; "v_20180101_0000"]);
    [reflexivity..|].
  vm_compute. apply perm_swap.
Defined.

(** X2. Once the listing holds one more entry that is free of the marker
    and not below any entry that is free of it, that entry is the one
    resolved. *)
Theorem get_data_dir_new_greatest_entry `{Platform}
    (self : t) (env : Env) (entries listing : list string) (v : string) :
  let root := Py.os_path_join (_data_dir_root self) (name self) in
  gfile_Exists (Some root) env = Ok true ->
  gfile_ListDirectory root env = Ok listing ->
  listing ≡ₚ v :: entries ->
  Py.contains ".incomplete" v = false ->
  (forall f, f ∈ entries -> Py.contains ".incomplete" f = false -> String.le f v) ->
  _get_data_dir self None env = (Ok (Some (Py.os_path_join root v)), env, []).
Proof.
  intros root Hex Hls Hperm Hfree Hmax.
  rewrite (_get_data_dir_listing self env listing Hex Hls). fold root.
  pose proof (latest_entry_spec listing) as Hlatest. unfold INCOMPLETE_MARKER in *.
  assert (v ∈ listing) as Hv by (rewrite Hperm; by left).
  destruct (last _) as [latest|]; simpl.
  - destruct Hlatest as (Hin & Hlfree & Hupper).
    assert (latest = v) as ->; [|done].
    apply (anti_symm String.le); [|by apply Hupper].
    rewrite Hperm in Hin. apply elem_of_cons in Hin as [->|Hin]; [done|].
    by apply Hmax.
  - rewrite (Hlatest v Hv) in Hfree. discriminate.
Qed.

Lemma get_data_dir_new_greatest_entry_witness :
  _get_data_dir (H := Sample.platform) Sample.mnist None Sample.world
  = (Ok (Some (Py.os_path_join "/data/mnist" "v_20180601_1200")), Sample.world, []).
Proof.
  apply (get_data_dir_new_greatest_entry (H := Sample.platform) Sample.mnist Sample.world
           ["v_20180601_1200.incomplete"; "v_20180101_0000"]
           ["v_20180601_1200.incomplete"; "v_20180101_0000"; "v_20180601_1200"]
           "v_20180601_1200"); [reflexivity | reflexivity | | reflexivity |].
  - symmetry.
    apply (Permutation_cons_append ["v_20180601_1200.incomplete"; "v_20180101_0000"]
             "v_20180601_1200").
  - intros f Hf Hfree. apply list_elem_of_In in Hf. simpl in Hf.
    destruct Hf as [<- | [<- | []]]; [discriminate Hfree | vm_compute; exact I].
Defined.

(** X3. For the dates of the clock, the version names that
    [download_and_prepare] formats compare as strings exactly as their
    dates compare in time, and no version name holds the incomplete
    marker. *)
Theorem version_names_follow_time (d1 d2 : datetime) :
  datetime_valid d1 -> datetime_valid d2 ->
  String.compare (strftime_version d1) (strftime_version d2) = datetime_compare d1 d2
  /\ Py.contains ".incomplete" (strftime_version d1) = false.
Proof.
  intros H1 H2. split; [by apply strftime_version_compare|].
  by apply strftime_version_marker_free.
Qed.

Lemma version_names_follow_time_witness :
  String.compare
    (strftime_version {| year := 2018; month := 12; day := 31; hour := 23; minute := 59 |})
    (strftime_version {| year := 2019; month := 1; day := 1; hour := 0; minute := 0 |})
  = Lt.
Proof.
  refine (eq_trans (proj1 (version_names_follow_time
            {| year := 2018; month := 12; day := 31; hour := 23; minute := 59 |}
            {| year := 2019; month := 1; day := 1; hour := 0; minute := 0 |} _ _)) _).
  - unfold datetime_valid. simpl. lia.
  - unfold datetime_valid. simpl. lia.
  - reflexivity.
Defined.

(** X4. When the entries of the root that are free of the marker are
    the version names of a collection of dates, [_get_data_dir] resolves
    the version of the latest date. *)
Theorem get_data_dir_newest_version `{Platform}
    (self : t) (env : Env) (entries : list string) (dates : list datetime)
    (newest : datetime) :
  let root := Py.os_path_join (_data_dir_root self) (name self) in
  gfile_Exists (Some root) env = Ok true ->
  gfile_ListDirectory root env = Ok entries ->
  List.filter (fun f => negb (Py.contains ".incomplete" f)) entries
    ≡ₚ map strftime_version dates ->
  Forall datetime_valid dates ->
  newest ∈ dates ->
  (forall d, d ∈ dates -> datetime_compare d newest <> Gt) ->
  _get_data_dir self None env
    = (Ok (Some (Py.os_path_join root (strftime_version newest))), env, []).
Proof.
  intros root Hex Hls Hperm Hvalid Hin Hmax.
  rewrite (_get_data_dir_listing self env entries Hex Hls). fold root.
  pose proof (latest_entry_spec entries) as Hlatest. unfold INCOMPLETE_MARKER in *.
  rewrite Forall_forall in Hvalid.
  assert (Hkept : forall f,
            f ∈ entries /\ Py.contains ".incomplete" f = false
            <-> exists d, d ∈ dates /\ f = strftime_version d).
  { intros f.
    transitivity (f ∈ List.filter (fun f => negb (Py.contains ".incomplete" f)) entries).
    - rewrite elem_of_filter_bool. by rewrite negb_true_iff.
    - rewrite Hperm, list_elem_of_fmap. split.
      + intros (d & -> & Hd). eauto.
      + intros (d & Hd & ->). eauto. }
  assert (strftime_version newest ∈ entries
          /\ Py.contains ".incomplete" (strftime_version newest) = false) as [Hn Hnfree].
  { apply Hkept. eauto. }
  destruct (last _) as [latest|]; simpl.
  - destruct Hlatest as (Hl & Hlfree & Hupper).
    assert (latest = strftime_version newest) as ->; [|done].
    apply (anti_symm String.le); [|by apply Hupper].
    destruct (proj1 (Hkept latest) (conj Hl Hlfree)) as (d & Hd & ->).
    apply le_compare. rewrite strftime_version_compare by auto. by apply Hmax.
  - rewrite (Hlatest _ Hn) in Hnfree. discriminate.
Qed.

Lemma get_data_dir_newest_version_witness :
  _get_data_dir (H := Sample.platform) Sample.mnist None Sample.world
  = (Ok (Some (Py.os_path_join "/data/mnist"
                 (strftime_version
                    {| year := 2018; month := 6; day := 1; hour := 12; minute := 0 |}))),
     Sample.world, []).
Proof.
  pose (january := {| year := 2018; month := 1; day := 1; hour := 0; minute := 0 |}).
  pose (june := {| year := 2018; month := 6; day := 1; hour := 12; minute := 0 |}).
  apply (get_data_dir_newest_version (H := Sample.platform) Sample.mnist Sample.world
           ["v_20180601_1200.incomplete"; "v_20180101_0000"; "v_20180601_1200"]
           [january; june] june); [reflexivity | reflexivity | | | |].
  - vm_compute. reflexivity.
  - constructor; [unfold datetime_valid; simpl; lia|].
    constructor; [unfold datetime_valid; simpl; lia|]. constructor.
  - apply list_elem_of_In. simpl. tauto.
  - intros d Hd. apply list_elem_of_In in Hd. simpl in Hd.
    destruct Hd as [<- | [<- | []]]; discriminate.
Defined.

(** X5. [__init__] changes nothing in the world and records no call.
    Called with an argument by position it raises the [ValueError] of its
    decorator and reads nothing.  Called by keyword it returns a builder
    that has the given name, whose root is the expansion of the given
    directory, or of [~/tensorflow_datasets] when the directory is null or
    empty, and whose data directory is what [_get_data_dir] resolves for
    that builder; it then raises exactly when that resolution raises, and
    passes on what the resolution raised. *)
Theorem init_builder `{Platform}
    (cls_name : string) (args : list PyObject) (data_dir : option string) (env : Env) :
  let made := __init__ cls_name args data_dir env in
  state_after made = env
  /\ calls made = []
  /\ (args <> [] ->
      outcome made = Raise (ValueError (positional_args_message "__init__" args)))
  /\ (Py.truthy data_dir = false ->
      forall self, outcome made = Ok self ->
                   _data_dir_root self = expanduser "~/tensorflow_datasets")
  /\ (forall dir, data_dir = Some dir -> Py.truthy_str dir = true ->
      forall self, outcome made = Ok self -> _data_dir_root self = expanduser dir)
  /\ (forall self, outcome made = Ok self ->
      args = []
      /\ name self = cls_name
      /\ outcome (_get_data_dir self None env) = Ok (_data_dir self))
  /\ (forall x, outcome made = Raise x ->
      args <> [] /\ x = ValueError (positional_args_message "__init__" args)
      \/ args = []
         /\ exists e, x = Foreign e
            /\ forall self, name self = cls_name ->
                 _data_dir_root self = expanduser (Py.or_else data_dir DEFAULT_DATA_DIR) ->
                 outcome (_get_data_dir self None env) = Raise e).
Proof.
  intros made. unfold made. destruct args as [|o args].
  - unfold __init__, disallow_positional_args, foreign, bind, ret.
    set (fresh := {| name := cls_name; _data_dir_root := _; _data_dir := None |}).
    destruct (_get_data_dir_pure fresh None env) as [r Hpure]. rewrite Hpure.
    assert (Hsame : forall self, name self = cls_name ->
              _data_dir_root self = expanduser (Py.or_else data_dir DEFAULT_DATA_DIR) ->
              outcome (_get_data_dir self None env) = r).
    { intros self Hn Hr. change r with (outcome (r, env, @nil Event)). rewrite <- Hpure.
      unfold _get_data_dir. by rewrite Hn, Hr. }
    destruct r as [d|e]; unfold outcome, state_after, calls in *; simpl;
      (split; [done|split; [done|split; [done|split; [|split; [|split]]]]]); try done.
    + intros Hfalse self [= <-]. simpl.
      destruct data_dir as [dir|]; simpl in *; [by rewrite Hfalse|done].
    + intros dir -> Hdir self [= <-]. simpl. by rewrite Hdir.
    + intros self [= <-]. split; [done|]. split; [done|]. by apply Hsame.
    + intros x [= <-]. right. split; [done|]. exists e. split; [done|].
      intros self Hn Hr. by apply Hsame.
  - unfold __init__, disallow_positional_args, raise, outcome, state_after, calls. simpl.
    split; [done|]. split; [done|]. split; [done|].
    split; [done|]. split; [done|]. split; [done|].
    intros x [= <-]. by left.
Qed.

Lemma init_builder_witness :
  outcome (__init__ (H := Sample.platform) "mnist" [] (Some "") Sample.world)
  = Ok {| name := "mnist"; _data_dir_root := "/home/user/tensorflow_datasets";
          _data_dir := None |}
  /\ _data_dir_root (Sample.constructed
                       (outcome (__init__ (H := Sample.platform) "mnist" [] (Some "/data")
                                   Sample.world))) = "/data"
  /\ outcome (__init__ (H := Sample.platform) "mnist" [Sample.a_string "/data"] None
                Sample.world)
     = Raise (ValueError "Positional arguments passed to __init__: 1").
Proof.
  destruct (init_builder (H := Sample.platform) "mnist" [] (Some "") Sample.world)
    as (_ & _ & _ & Hdefault & _).
  destruct (init_builder (H := Sample.platform) "mnist" [] (Some "/data") Sample.world)
    as (_ & _ & _ & _ & Hgiven & _).
  destruct (init_builder (H := Sample.platform) "mnist" [Sample.a_string "/data"] None
              Sample.world) as (_ & _ & Hposition & _).
  split; [|split].
  - pose proof (Hdefault eq_refl _ eq_refl) as Hroot. vm_compute. reflexivity.
  - apply (Hgiven "/data" eq_refl eq_refl). reflexivity.
  - apply Hposition. discriminate.
Defined.

(** X7. Unless the builder has a data directory and the manager's mode
    is REUSE_DATASET_IF_EXISTS, a call generates: after the choice of the
    manager it logs the new directory and enters its staging directory.
    The new directory is [<root>/<name>/<version>] for the version that the
    clock gives at that moment, so a manager in another mode makes a new
    version even when one is resolved. *)
Theorem download_and_prepare_generates `{Platform}
    (hook : t -> DownloadManager -> W unit)
    (cache_dir : option string) (dl_manager : option DownloadManager)
    (self : t) (env : Env) (dm : DownloadManager) (env0 : Env) (built : list Event) :
  selects self env cache_dir dl_manager dm env0 built ->
  Py.truthy (_data_dir self) && bool_decide (mode dm = REUSE_DATASET_IF_EXISTS) = false ->
  let final :=
    Some (Py.os_path_join (Py.os_path_join (_data_dir_root self) (name self))
            (strftime_version (datetime_now env0))) in
  exists rest,
    calls (download_and_prepare hook [] cache_dir dl_manager (self, env))
      = built ++ LogInfo "Generating dataset %s (%s)"
                   [ArgStr (Some (name self)); ArgStr final]
              :: EnterIncompleteDir final :: rest.
Proof.
  intros Hsel Hgen final.
  rewrite (download_and_prepare_selects hook _ _ _ _ _ _ _ Hsel).
  rewrite prepare_with_manager_generate by done. cbv zeta. fold final.
  destruct (incomplete_dir_enter final env0) as [[tmp|e] env1].
  - destruct (hook (set_data_dir (Some tmp) self) dm env1) as [[[[]|e] env2] th].
    + destruct (incomplete_dir_exit final tmp None env2) as [r env3]. by eexists.
    + destruct (incomplete_dir_exit final tmp (Some (Foreign e)) env2) as [r env3].
      by eexists.
  - by exists [].
Qed.

(** A builder with a resolved version and a manager in another mode. *)
Lemma download_and_prepare_generates_witness :
  exists rest,
    calls (download_and_prepare (H := Faulty.platform)
             Faulty.idle_hook []
             None (Some (OTHER_MODE 0, "/cache")) (Sample.mnist, Sample.world))
    = [] ++ LogInfo (H := Faulty.platform) "Generating dataset %s (%s)"
              [ArgStr (Some "mnist"); ArgStr (Some "/data/mnist/v_20180704_0930")]
         :: EnterIncompleteDir (Some "/data/mnist/v_20180704_0930") :: rest.
Proof.
  apply (download_and_prepare_generates (H := Faulty.platform) _ None
           (Some (OTHER_MODE 0, "/cache")) Sample.mnist Sample.world
           (OTHER_MODE 0, "/cache") Sample.world []).
  - constructor. reflexivity.
  - reflexivity.
Defined.

(** X8. If the staging directory cannot be entered, the call raises
    what entering raised; the builder is what it was and the hook is never
    called. *)
Theorem download_and_prepare_staging_failure `{Platform}
    (hook : t -> DownloadManager -> W unit)
    (cache_dir : option string) (dl_manager : option DownloadManager)
    (self : t) (env : Env) (dm : DownloadManager) (env0 : Env) (built : list Event)
    (e : Err) (env1 : Env) :
  selects self env cache_dir dl_manager dm env0 built ->
  Py.truthy (_data_dir self) && bool_decide (mode dm = REUSE_DATASET_IF_EXISTS) = false ->
  let final :=
    Some (Py.os_path_join (Py.os_path_join (_data_dir_root self) (name self))
            (strftime_version (datetime_now env0))) in
  incomplete_dir_enter final env0 = (Raise e, env1) ->
  download_and_prepare hook [] cache_dir dl_manager (self, env)
    = (Raise (Foreign e), (self, env1),
       built ++ [LogInfo "Generating dataset %s (%s)"
                   [ArgStr (Some (name self)); ArgStr final];
                 EnterIncompleteDir final]).
Proof.
  intros Hsel Hgen final Henter.
  rewrite (download_and_prepare_selects hook _ _ _ _ _ _ _ Hsel).
  rewrite prepare_with_manager_generate by done. cbv zeta. fold final.
  by rewrite Henter.
Qed.

Lemma download_and_prepare_staging_failure_witness :
  download_and_prepare (H := Faulty.platform)
    Faulty.idle_hook []
    None (Some (OTHER_MODE 0, "/cache")) (Faulty.locked, Sample.world)
  = (Raise (Foreign (Sample.NotFound "/readonly/mnist/v_20180704_0930")),
     (Faulty.locked, Sample.world),
     [] ++ [LogInfo (H := Faulty.platform) "Generating dataset %s (%s)"
              [ArgStr (Some "mnist"); ArgStr (Some "/readonly/mnist/v_20180704_0930")];
            EnterIncompleteDir (Some "/readonly/mnist/v_20180704_0930")]).
Proof.
  apply (download_and_prepare_staging_failure (H := Faulty.platform) _ None
           (Some (OTHER_MODE 0, "/cache")) Faulty.locked Sample.world
           (OTHER_MODE 0, "/cache") Sample.world []
           (Sample.NotFound "/readonly/mnist/v_20180704_0930") Sample.world).
  - constructor. reflexivity.
  - reflexivity.
  - reflexivity.
Defined.

(** X9. A call by keyword without a manager first builds one, from the
    cache directory when one is given and from [os.path.join(root, "tmp")]
    otherwise.  If that fails, the call raises what the construction raised
    and nothing else has happened: the builder is what it was, nothing is
    logged and the hook is not called.  A call with an argument by position
    builds no manager: it raises the [ValueError] of the decorator and
    nothing else has happened. *)
Theorem download_and_prepare_builds_manager `{Platform}
    (hook : t -> DownloadManager -> W unit)
    (cache_dir : option string) (self : t) (env : Env) :
  let dir :=
    match cache_dir with
    | Some given =>
        if Py.truthy_str given then given
        else Py.os_path_join (_data_dir_root self) "tmp"
    | None => Py.os_path_join (_data_dir_root self) "tmp"
    end in
  (exists rest,
     calls (download_and_prepare hook [] cache_dir None (self, env))
       = NewDownloadManager dir :: rest)
  /\ (forall e env1,
        DownloadManager_init dir env = (Raise e, env1) ->
        download_and_prepare hook [] cache_dir None (self, env)
          = (Raise (Foreign e), (self, env1), [NewDownloadManager dir]))
  /\ (forall o args dl_manager,
        download_and_prepare hook (o :: args) cache_dir dl_manager (self, env)
          = (Raise (ValueError
                      (positional_args_message "download_and_prepare" (o :: args))),
             (self, env), [])).
Proof.
  intros dir.
  assert ((cache_dir = Some dir /\ Py.truthy_str dir = true) \/
          (Py.truthy cache_dir = false /\
           dir = Py.os_path_join (_data_dir_root self) "tmp")) as Hdir.
  { unfold dir. destruct cache_dir as [given|]; simpl; [|by right].
    destruct (Py.truthy_str given) eqn:Hg; [by left | by right]. }
  rewrite (download_and_prepare_builds hook cache_dir dir self env Hdir).
  split; [|split].
  - destruct (DownloadManager_init dir env) as [[dm|e] env1]; [|by eexists].
    destruct (prepare_with_manager hook (Some dm) (self, env1)) as [[r s'] tr].
    by eexists.
  - by intros e env1 ->.
  - by intros o args dl_manager.
Qed.

Lemma download_and_prepare_builds_manager_witness :
  download_and_prepare (H := Faulty.platform)
    Faulty.idle_hook []
    (Some "/readonly/cache") None (Sample.broken, Sample.world)
  = (Raise (Foreign (Sample.NotFound "/readonly/cache")), (Sample.broken, Sample.world),
     [NewDownloadManager (H := Faulty.platform) "/readonly/cache"]).
Proof.
  apply (download_and_prepare_builds_manager (H := Faulty.platform) _
           (Some "/readonly/cache") Sample.broken Sample.world).
  reflexivity.
Defined.

(** X10. Once the staging directory is entered, the hook is called once
    and the staging directory is left once, after the hook and whether or
    not the hook raised; leaving is told which of the two happened, starts
    from the world the hook left, and has the last word on the outcome: a
    hook that returned gives a call that returns unless leaving raises, a
    hook that raised gives a call that raises the same unless leaving
    swallows it or raises. *)
Theorem download_and_prepare_always_leaves_staging `{Platform}
    (hook : t -> DownloadManager -> W unit)
    (cache_dir : option string) (dl_manager : option DownloadManager)
    (self : t) (env : Env) (dm : DownloadManager) (env0 : Env) (built : list Event)
    (tmp : string) (env1 env2 : Env) (r : Result Err unit) (hooked : list Event) :
  selects self env cache_dir dl_manager dm env0 built ->
  Py.truthy (_data_dir self) && bool_decide (mode dm = REUSE_DATASET_IF_EXISTS) = false ->
  let final :=
    Some (Py.os_path_join (Py.os_path_join (_data_dir_root self) (name self))
            (strftime_version (datetime_now env0))) in
  incomplete_dir_enter final env0 = (Ok tmp, env1) ->
  hook (set_data_dir (Some tmp) self) dm env1 = (r, env2, hooked) ->
  let raised := match r with Ok _ => None | Raise e => Some (Foreign e) end in
  let run := download_and_prepare hook [] cache_dir dl_manager (self, env) in
  calls run
    = built ++ [LogInfo "Generating dataset %s (%s)"
                  [ArgStr (Some (name self)); ArgStr final];
                EnterIncompleteDir final; CallDownloadAndPrepare dm]
        ++ hooked ++ [ExitIncompleteDir final tmp (bool_decide (raised <> None))]
  /\ (state_after run).2 = (incomplete_dir_exit final tmp raised env2).2
  /\ outcome run
     = match (incomplete_dir_exit final tmp raised env2).1, r with
       | Raise e', _ => Raise (Foreign e')
       | Ok _, Ok _ => Ok tt
       | Ok true, Raise _ => Ok tt
       | Ok false, Raise e => Raise (Foreign e)
       end.
Proof.
  intros Hsel Hgen final Henter Hhook raised run. unfold run.
  rewrite (download_and_prepare_selects hook _ _ _ _ _ _ _ Hsel).
  rewrite prepare_with_manager_generate by done. cbv zeta. fold final.
  rewrite Henter, Hhook. unfold raised, outcome, state_after, calls.
  destruct r as [[]|e].
  - by destruct (incomplete_dir_exit final tmp None env2) as [[[]|e'] env3].
  - by destruct (incomplete_dir_exit final tmp (Some (Foreign e)) env2)
      as [[[]|e'] env3].
Qed.

(** A hook whose second generator fails: the staging directory is left
    all the same, and the failure goes on. *)
Lemma download_and_prepare_always_leaves_staging_witness :
  let run :=
    download_and_prepare (H := Sample.platform) (Sample.prepare_hook 1 0) []
      None (Some Sample.manager) (Sample.broken, Sample.world) in
  last (calls run)
  = Some (ExitIncompleteDir (H := Sample.platform) (Some "/data/broken/v_20180704_0930")
            "/data/broken/v_20180704_0930.incomplete" true)
  /\ outcome run = Raise (Foreign Sample.GeneratorFailed).
Proof.
  intros run.
  edestruct (download_and_prepare_always_leaves_staging (H := Sample.platform)
               (Sample.prepare_hook 1 0) None (Some Sample.manager)
               Sample.broken Sample.world Sample.manager Sample.world []
               "/data/broken/v_20180704_0930.incomplete")
    as (Hcalls & _ & Hout);
    [constructor; reflexivity | reflexivity | reflexivity | reflexivity |].
  split.
  - refine (eq_trans (f_equal last Hcalls) _). reflexivity.
  - refine (eq_trans Hout _). reflexivity.
Defined.

(** X11. [output_files_exist] changes nothing and records nothing.  It
    is true exactly when every descriptor of the generator exists, so it
    is true of a generator without descriptors.  Every descriptor is asked,
    also after one has answered no: if asking one raises, and those before
    it have answered, [output_files_exist] raises that. *)
Theorem output_files_exist_asks_all `{Platform} (g : SplitGenerator.t) (env : Env) :
  SplitGenerator.output_files_exist g env
    = (outcome (SplitGenerator.output_files_exist g env), env, [])
  /\ (SplitGenerator.split_files g = [] ->
      outcome (SplitGenerator.output_files_exist g env) = Ok true)
  /\ (outcome (SplitGenerator.output_files_exist g env) = Ok true
      <-> forall sf, sf ∈ SplitGenerator.split_files g ->
                     outcome (SplitFiles.exists_ sf env) = Ok true)
  /\ (forall e,
        outcome (SplitGenerator.output_files_exist g env) = Raise e
        <-> exists before sf after,
              SplitGenerator.split_files g = before ++ sf :: after
              /\ Forall (fun sf' => exists b, outcome (SplitFiles.exists_ sf' env) = Ok b)
                   before
              /\ outcome (SplitFiles.exists_ sf env) = Raise e).
Proof.
  split; [apply output_files_exist_pure|].
  assert (Hout : outcome (SplitGenerator.output_files_exist g env)
                 = match map_result (fun sf => outcome (SplitFiles.exists_ sf env))
                           (SplitGenerator.split_files g) with
                   | Ok bs => Ok (forallb Datatypes.id bs)
                   | Raise e => Raise e
                   end).
  { unfold SplitGenerator.output_files_exist, bind, outcome.
    rewrite exists_all_outcome. simpl. by destruct (map_result _ _). }
  rewrite Hout. split; [|split].
  - by intros ->.
  - destruct (map_result _ _) as [bs|e] eqn:Hmap.
    + rewrite <- (map_result_all_true _ _ _ Hmap). split; congruence.
    + split; [done|]. intros Hall.
      apply map_result_Raise in Hmap as (before & sf & after & Heq & _ & Hraise).
      rewrite Hall in Hraise; [done|]. rewrite Heq. apply elem_of_app. right. by left.
  - intros e. rewrite <- map_result_Raise.
    destruct (map_result _ _) as [bs|e'] eqn:Hmap; split; congruence.
Qed.

(** The train split of [mnist] once its two shards are written. *)
Lemma output_files_exist_asks_all_witness :
  outcome
    (SplitGenerator.output_files_exist (H := Sample.platform)
       (@SplitGenerator.Build_t Sample.platform 1%nat
          [GeneratorBasedDatasetBuilder._split_files Sample.adapter Sample.mnist TRAIN
             (Some 2%Z)])
       Sample.half_done)
  = Ok true.
Proof.
  apply (output_files_exist_asks_all (H := Sample.platform)).
  intros sf Hin. apply list_elem_of_singleton in Hin. subst sf. reflexivity.
Defined.

(** X12. A second run over a directory that is there, for generators
    whose output files all exist, writes nothing: no directory is made,
    [write_from_generator] is never called, the world is the one the hook
    left, and each generator leaves one log line. *)
Theorem generator_based_rerun_writes_nothing `{Platform}
    (_dataset_split_generators : t -> DownloadManager -> W (list SplitGenerator.t))
    (adapter : GeneratorBasedDatasetBuilder.FileFormatAdapter)
    (self : t) (dl : DownloadManager) (env env2 : Env)
    (asked : list Event) (generators : list SplitGenerator.t) :
  gfile_Exists (_data_dir self) env = Ok true ->
  _dataset_split_generators self dl env = (Ok generators, env2, asked) ->
  (forall g, g ∈ generators ->
             outcome (SplitGenerator.output_files_exist g env2) = Ok true) ->
  GeneratorBasedDatasetBuilder._download_and_prepare _dataset_split_generators adapter
    self dl env
  = (Ok tt, env2,
     asked ++ map (fun g =>
                     LogInfo "Skipping download_and_prepare for splits %s as all files exist."
                       [ArgSplits (SplitGenerator.splits g)]) generators).
Proof.
  intros Hdir Hgens Hall.
  rewrite (_download_and_prepare_loop _ adapter self dl env env env2 [] asked generators);
    [|by left|done].
  assert (for_each generators (GeneratorBasedDatasetBuilder.prepare_split_generator adapter)
            env2
          = (Ok tt, env2,
             map (fun g =>
                    LogInfo "Skipping download_and_prepare for splits %s as all files exist."
                      [ArgSplits (SplitGenerator.splits g)]) generators)) as ->; [|done].
  clear Hgens. induction generators as [|g gens IH]; simpl; [done|].
  unfold bind. rewrite prepare_split_generator_spec, Hall by by left.
  rewrite IH; [done|]. intros g' Hg'. apply Hall. by right.
Qed.

(** The train shards are there: with the train generator alone, a run
    writes nothing. *)
Lemma generator_based_rerun_writes_nothing_witness :
  GeneratorBasedDatasetBuilder._download_and_prepare (H := Sample.platform)
    (fun self dl =>
       ret [ {| SplitGenerator.generator_fn := 1%nat : @Generator Sample.platform;
                SplitGenerator.split_files :=
                  [GeneratorBasedDatasetBuilder._split_files Sample.adapter self TRAIN
                     (Some 2%Z)] |} ])
    Sample.adapter Sample.mnist Sample.manager
    (Sample.mkdir "/data/mnist/v_20180601_1200" Sample.half_done)
  = (Ok tt, Sample.mkdir "/data/mnist/v_20180601_1200" Sample.half_done,
     [] ++ [LogInfo (H := Sample.platform)
              "Skipping download_and_prepare for splits %s as all files exist."
              [ArgSplits [TRAIN]]]).
Proof.
  apply (generator_based_rerun_writes_nothing (H := Sample.platform) _ Sample.adapter
           Sample.mnist Sample.manager
           (Sample.mkdir "/data/mnist/v_20180601_1200" Sample.half_done)
           (Sample.mkdir "/data/mnist/v_20180601_1200" Sample.half_done) []
           [ {| SplitGenerator.generator_fn := 1%nat : @Generator Sample.platform;
                SplitGenerator.split_files :=
                  [GeneratorBasedDatasetBuilder._split_files Sample.adapter Sample.mnist
                     TRAIN (Some 2%Z)] |} ]).
  - reflexivity.
  - reflexivity.
  - intros g Hg. apply list_elem_of_singleton in Hg as ->. reflexivity.
Defined.

(** X13. The loop stops at the first generator that cannot be written:
    when the generators before it have been taken and its write raises,
    [_download_and_prepare] raises that, and the generators after it are
    neither asked nor written. *)
Theorem generator_based_stops_at_first_failure `{Platform}
    (_dataset_split_generators : t -> DownloadManager -> W (list SplitGenerator.t))
    (adapter : GeneratorBasedDatasetBuilder.FileFormatAdapter)
    (self : t) (dl : DownloadManager) (env env1 env2 env3 env4 : Env)
    (made asked taken : list Event)
    (before after : list SplitGenerator.t) (g : SplitGenerator.t)
    (paths : list (list string)) (e : Err) :
  (gfile_Exists (_data_dir self) env = Ok true /\ env1 = env /\ made = []
   \/ gfile_Exists (_data_dir self) env = Ok false
      /\ gfile_MakeDirs (_data_dir self) env = (Ok tt, env1)
      /\ made = [MakeDirs (_data_dir self)]) ->
  _dataset_split_generators self dl env1 = (Ok (before ++ g :: after), env2, asked) ->
  GeneratorBasedDatasetBuilder.prepares adapter before env2 env3 taken ->
  outcome (SplitGenerator.output_files_exist g env3) = Ok false ->
  map_result SplitFiles.filepaths (SplitGenerator.split_files g) = Ok paths ->
  GeneratorBasedDatasetBuilder.write_from_generator adapter
    (SplitGenerator.generator_fn g) (concat paths) env3 = (Raise e, env4) ->
  GeneratorBasedDatasetBuilder._download_and_prepare _dataset_split_generators adapter
    self dl env
  = (Raise e, env4,
     made ++ asked ++ taken
       ++ [WriteFromGenerator (SplitGenerator.generator_fn g) (concat paths)]).
Proof.
  intros Hdir Hgens Hbefore Hex Hpaths Hwrite.
  rewrite (_download_and_prepare_loop _ adapter self dl env env1 env2 made asked
             (before ++ g :: after) Hdir Hgens).
  rewrite for_each_app. apply for_each_prepares in Hbefore. rewrite Hbefore.
  simpl. unfold bind. rewrite prepare_split_generator_spec, Hex, Hpaths, Hwrite.
  done.
Qed.

(** The first generator is written, the second fails, a third one is
    never reached. *)
Lemma generator_based_stops_at_first_failure_witness :
  let third :=
    {| SplitGenerator.generator_fn := 3%nat : @Generator Sample.platform;
       SplitGenerator.split_files := [] |} in
  calls (GeneratorBasedDatasetBuilder._download_and_prepare (H := Sample.platform)
           (fun self dl env =>
              let '(r, env', tr) := Sample.split_generators 1 0 self dl env in
              (match r with Ok l => Ok (l ++ [third]) | Raise x => Raise x end, env', tr))
           Sample.adapter Sample.mnist Sample.manager Sample.world)
  = [MakeDirs (H := Sample.platform) (Some "/data/mnist/v_20180601_1200");
     WriteFromGenerator (H := Sample.platform) 1
       ["/data/mnist/v_20180601_1200/mnist-train.tfrecord-00000-of-00002";
        "/data/mnist/v_20180601_1200/mnist-train.tfrecord-00001-of-00002"];
     WriteFromGenerator (H := Sample.platform) 0
       ["/data/mnist/v_20180601_1200/mnist-test.tfrecord-00000-of-00001"]].
Proof.
  intros third.
  pose (made := Sample.mkdir "/data/mnist/v_20180601_1200" Sample.world).
  pose (train := {| SplitGenerator.generator_fn := 1%nat : @Generator Sample.platform;
                    SplitGenerator.split_files :=
                      [GeneratorBasedDatasetBuilder._split_files Sample.adapter
                         Sample.mnist TRAIN (Some 2%Z)] |}).
  pose (test := {| SplitGenerator.generator_fn := 0%nat : @Generator Sample.platform;
                   SplitGenerator.split_files :=
                     [GeneratorBasedDatasetBuilder._split_files Sample.adapter
                        Sample.mnist TEST (Some 1%Z)] |}).
  pose (trainfiles :=
          ["/data/mnist/v_20180601_1200/mnist-train.tfrecord-00000-of-00002";
           "/data/mnist/v_20180601_1200/mnist-train.tfrecord-00001-of-00002"]).
  refine (eq_trans (f_equal calls
            (generator_based_stops_at_first_failure (H := Sample.platform) _ Sample.adapter
               Sample.mnist Sample.manager Sample.world made made
               (Sample.add_files trainfiles made) (Sample.add_files trainfiles made)
               [MakeDirs (H := Sample.platform) (Some "/data/mnist/v_20180601_1200")] []
               [WriteFromGenerator (H := Sample.platform) 1 trainfiles]
               [train] [third] test
               [["/data/mnist/v_20180601_1200/mnist-test.tfrecord-00000-of-00001"]]
               Sample.GeneratorFailed _ eq_refl _ eq_refl eq_refl eq_refl)) _).
  - right. repeat split; reflexivity.
  - refine (GeneratorBasedDatasetBuilder.prepares_write (H := Sample.platform)
              Sample.adapter train [] made [trainfiles]
              (Sample.add_files trainfiles made) _ [] eq_refl eq_refl eq_refl _).
    apply GeneratorBasedDatasetBuilder.prepares_nil.
  - reflexivity.
Defined.

(** X14. Before the loop: if the directory cannot be looked up or made,
    [_download_and_prepare] raises that and the hook for the generators is
    not called; if the hook raises, that is raised and nothing is
    written. *)
Theorem generator_based_fails_before_loop `{Platform}
    (_dataset_split_generators : t -> DownloadManager -> W (list SplitGenerator.t))
    (adapter : GeneratorBasedDatasetBuilder.FileFormatAdapter)
    (self : t) (dl : DownloadManager) (env : Env) (e : Err) :
  let run :=
    GeneratorBasedDatasetBuilder._download_and_prepare _dataset_split_generators adapter
      self dl env in
  (gfile_Exists (_data_dir self) env = Raise e -> run = (Raise e, env, []))
  /\ (forall env1,
        gfile_Exists (_data_dir self) env = Ok false ->
        gfile_MakeDirs (_data_dir self) env = (Raise e, env1) ->
        run = (Raise e, env1, [MakeDirs (_data_dir self)]))
  /\ (forall env1 env2 made asked,
        (gfile_Exists (_data_dir self) env = Ok true /\ env1 = env /\ made = []
         \/ gfile_Exists (_data_dir self) env = Ok false
            /\ gfile_MakeDirs (_data_dir self) env = (Ok tt, env1)
            /\ made = [MakeDirs (_data_dir self)]) ->
        _dataset_split_generators self dl env1 = (Raise e, env2, asked) ->
        run = (Raise e, env2, made ++ asked)).
Proof.
  intros run. unfold run, GeneratorBasedDatasetBuilder._download_and_prepare,
    bind, query, call, ret.
  split; [|split].
  - by intros ->.
  - intros env1 -> Hmk. simpl. by rewrite Hmk.
  - intros env1 env2 made asked [(-> & -> & ->) | (-> & Hmk & ->)] Hgens; simpl.
    + by rewrite Hgens.
    + by rewrite Hmk, Hgens.
Qed.

Lemma generator_based_fails_before_loop_witness :
  GeneratorBasedDatasetBuilder._download_and_prepare (H := Faulty.platform)
    (Faulty.split_generators 1 2) Faulty.adapter
    (set_data_dir (Some "/readonly/mnist/v_1") Faulty.locked) (OTHER_MODE 0, "/cache")
    Sample.world
  = (Raise (Sample.NotFound "/readonly/mnist/v_1"), Sample.world,
     [MakeDirs (H := Faulty.platform) (Some "/readonly/mnist/v_1")])
  /\ GeneratorBasedDatasetBuilder._download_and_prepare (H := Faulty.platform)
       Faulty.no_generators Faulty.adapter Sample.mnist (OTHER_MODE 0, "/cache")
       Sample.world
     = (Raise Sample.GeneratorFailed,
        Sample.mkdir "/data/mnist/v_20180601_1200" Sample.world,
        [MakeDirs (H := Faulty.platform) (Some "/data/mnist/v_20180601_1200")] ++ []).
Proof.
  destruct (generator_based_fails_before_loop (H := Faulty.platform)
              (Faulty.split_generators 1 2) Faulty.adapter
              (set_data_dir (Some "/readonly/mnist/v_1") Faulty.locked)
              (OTHER_MODE 0, "/cache") Sample.world
              (Sample.NotFound "/readonly/mnist/v_1")) as (_ & Hmake & _).
  destruct (generator_based_fails_before_loop (H := Faulty.platform)
              Faulty.no_generators Faulty.adapter Sample.mnist
              (OTHER_MODE 0, "/cache") Sample.world Sample.GeneratorFailed)
    as (_ & _ & Hhook).
  split.
  - apply Hmake; reflexivity.
  - apply (Hhook (Sample.mkdir "/data/mnist/v_20180601_1200" Sample.world)).
    + right. repeat split; reflexivity.
    + reflexivity.
Defined.

(** X15. [run] never removes or replaces an entry of the cache, in
    either mode and whatever the outcome: what was stored under a signature
    before a call is stored under it after the call, and a call adds at
    most one entry. *)
Theorem run_cache_only_grows `{TensorFlow}
    (self : TFGraphRunner.t) (tf : TF) (f : Fct) (x : ndarray + PyValue) :
  let after := (state_after (TFGraphRunner.run f x (self, tf))).1 in
  (forall signature gr,
     TFGraphRunner._graph_run_cache self !! signature = Some gr ->
     TFGraphRunner._graph_run_cache after !! signature = Some gr)
  /\ size (TFGraphRunner._graph_run_cache self)
     <= size (TFGraphRunner._graph_run_cache after)
     <= S (size (TFGraphRunner._graph_run_cache self)).
Proof.
  intros after.
  assert (after = self
          \/ exists signature gr,
               TFGraphRunner._graph_run_cache self !! signature = None
               /\ TFGraphRunner._graph_run_cache after
                  = <[signature := gr]> (TFGraphRunner._graph_run_cache self))
    as [-> | (signature & gr & Hnone & ->)].
  { unfold after. destruct (executing_eagerly tf) eqn:Hmode.
    - left. rewrite run_eager by done.
      by destruct (eager_call f x tf) as [[v|e] tf'].
    - destruct (TFGraphRunner.as_ndarray x) as [a|e] eqn:Hx.
      + destruct (TFGraphRunner._graph_run_cache self !! (id f, dtype a, shape a))
          as [gr|] eqn:Hlook.
        * left. rewrite (run_cached f x a gr) by done.
          by destruct (session_run _ _ _ a tf) as [r tf'].
        * rewrite (run_fresh f x a) by done.
          destruct (TFGraphRunner._build_graph_run _ (self, tf))
            as [[[gr|e] s1] built]; [|by left].
          right. exists (id f, dtype a, shape a), gr.
          by destruct (session_run _ _ _ a s1.2) as [r tf'].
      + left. by rewrite (run_conversion_fails f x e). }
  - split; [done|lia].
  - split.
    + intros sig gr' Hsig. rewrite lookup_insert_ne; [done|]. congruence.
    + rewrite map_size_insert_None by done. lia.
Qed.

(** The graph of one function stays where it is when another function
    is run. *)
Lemma run_cache_only_grows_witness :
  let first :=
    state_after (TFGraphRunner.run (H := Sample.tensorflow) 2%positive (inr [1; 2]%Z)
                   (TFGraphRunner.__init__, (false, 0%nat))) in
  let second :=
    state_after (TFGraphRunner.run (H := Sample.tensorflow) 3%positive (inr [1; 2]%Z)
                   first) in
  TFGraphRunner._graph_run_cache second.1 !! (2%positive, "int64", [2%Z])
  = Some (@TFGraphRunner.Build_GraphRun Sample.tensorflow 0%nat 0%nat
            ("int64", [2%Z]) 2%positive).
Proof.
  intros first second.
  apply (run_cache_only_grows (H := Sample.tensorflow) first.1 first.2 3%positive
           (inr [1; 2]%Z)).
  vm_compute. reflexivity.
Defined.

(** X16. In graph mode a call that fails before its session runs
    leaves the runner as it was: when the input cannot be turned into an
    array nothing is called at all, and when the graph of a new signature
    cannot be built nothing is stored and no session is run. *)
Theorem run_failure_stores_nothing `{TensorFlow}
    (self : TFGraphRunner.t) (tf : TF) (f : Fct) (x : ndarray + PyValue) (e : TFErr) :
  executing_eagerly tf = false ->
  (TFGraphRunner.as_ndarray x = Raise e ->
   TFGraphRunner.run f x (self, tf) = (Raise e, (self, tf), []))
  /\ (forall a,
        TFGraphRunner.as_ndarray x = Ok a ->
        TFGraphRunner._graph_run_cache self !! (id f, dtype a, shape a) = None ->
        outcome (TFGraphRunner._build_graph_run
                   {| TFGraphRunner.fct := f; TFGraphRunner.input := a |} (self, tf))
          = Raise e ->
        outcome (TFGraphRunner.run f x (self, tf)) = Raise e
        /\ (state_after (TFGraphRunner.run f x (self, tf))).1 = self
        /\ forall gr a', TFGraphRunner.SessionRun gr a'
                           ∉ calls (TFGraphRunner.run f x (self, tf))).
Proof.
  intros Hmode. split; [by apply run_conversion_fails|].
  intros a Hx Hnone Hbuild. rewrite (run_fresh f x a) by done.
  destruct (graph_enter tf) as [g tf1] eqn:Hg.
  rewrite (_build_graph_run_spec _ self tf g tf1 Hg) in *.
  unfold outcome, state_after, calls in *. cbn [fst snd TFGraphRunner.fct TFGraphRunner.input] in *.
  assert (Hnot : forall (l : list TFGraphRunner.TFEvent),
            Forall (fun ev => forall gr a', ev <> TFGraphRunner.SessionRun gr a') l ->
            forall gr a', TFGraphRunner.SessionRun gr a' ∉ l).
  { intros l Hall gr a' Hin. rewrite Forall_forall in Hall. by apply (Hall _ Hin gr a'). }
  destruct (tf_placeholder _ _ tf1) as [[p|e1] tf2]; cbn [fst snd] in *.
  - destruct (fct_call f p tf2) as [[o|e2] tf3]; cbn [fst snd] in *.
    + destruct (tf_Session tf3) as [[ss|e3] tf4]; cbn [fst snd] in *; [done|].
      injection Hbuild as ->. split; [done|]. split; [done|].
      apply Hnot. by repeat constructor.
    + injection Hbuild as ->. split; [done|]. split; [done|].
      apply Hnot. by repeat constructor.
  - injection Hbuild as ->. split; [done|]. split; [done|].
    apply Hnot. by repeat constructor.
Qed.

Lemma run_failure_stores_nothing_witness :
  TFGraphRunner.run (H := Faulty.tensorflow) 3%positive (inr []) 
    (TFGraphRunner.__init__, (false, 0%nat))
  = (Raise tt, (TFGraphRunner.__init__, (false, 0%nat)), [])
  /\ (state_after (TFGraphRunner.run (H := Faulty.tensorflow) 1%positive (inr [1; 2]%Z)
                     (TFGraphRunner.__init__, (false, 0%nat)))).1
     = TFGraphRunner.__init__.
Proof.
  destruct (run_failure_stores_nothing (H := Faulty.tensorflow) TFGraphRunner.__init__
              (false, 0%nat) 3%positive (inr []) tt eq_refl) as [Hconv _].
  destruct (run_failure_stores_nothing (H := Faulty.tensorflow) TFGraphRunner.__init__
              (false, 0%nat) 1%positive (inr [1; 2]%Z) tt eq_refl) as [_ Hbuild].
  split.
  - apply Hconv. reflexivity.
  - apply (Hbuild ("int64", [1; 2]%Z)); reflexivity.
Defined.

(** X17. [_build_graph_run] enters a new graph first and leaves it on
    every path, also when it raises; it does not touch the cache.  It asks
    for a placeholder of the dtype and the shape of the input, traces the
    function on it, and opens a session only after the function has been
    traced: when the placeholder or the trace fails, no session is
    opened.  What it returns holds that graph, that placeholder, the traced
    output and the session. *)
Theorem build_graph_run_steps `{TensorFlow}
    (run_args : TFGraphRunner.RunArgs) (self : TFGraphRunner.t) (tf : TF) :
  let built := TFGraphRunner._build_graph_run run_args (self, tf) in
  let g := (graph_enter tf).1 in
  let dt := dtype (TFGraphRunner.input run_args) in
  let sh := shape (TFGraphRunner.input run_args) in
  (state_after built).1 = self
  /\ (exists tf', (state_after built).2 = graph_exit g tf')
  /\ (exists rest,
        calls built = TFGraphRunner.NewGraph g :: TFGraphRunner.NewPlaceholder dt sh :: rest)
  /\ (TFGraphRunner.NewSession ∈ calls built ->
      exists p tf2 o tf3,
        tf_placeholder dt sh (graph_enter tf).2 = (Ok p, tf2)
        /\ fct_call (TFGraphRunner.fct run_args) p tf2 = (Ok o, tf3))
  /\ (forall gr,
        outcome built = Ok gr ->
        exists tf2 tf3 tf4,
          TFGraphRunner.graph gr = g
          /\ tf_placeholder dt sh (graph_enter tf).2 = (Ok (TFGraphRunner.placeholder gr), tf2)
          /\ fct_call (TFGraphRunner.fct run_args) (TFGraphRunner.placeholder gr) tf2
             = (Ok (TFGraphRunner.output gr), tf3)
          /\ tf_Session tf3 = (Ok (TFGraphRunner.session gr), tf4)).
Proof.
  intros built g dt sh. unfold built, g, dt, sh.
  destruct (graph_enter tf) as [g0 tf1] eqn:Hg.
  rewrite (_build_graph_run_spec run_args self tf g0 tf1 Hg).
  unfold outcome, state_after, calls. cbn [fst snd].
  assert (Hno : forall (l : list TFGraphRunner.TFEvent),
            TFGraphRunner.NewSession ∈ l ->
            Forall (fun ev => ev <> TFGraphRunner.NewSession) l -> False).
  { intros l Hin Hall. rewrite Forall_forall in Hall. by apply (Hall _ Hin). }
  destruct (tf_placeholder _ _ tf1) as [[p|e1] tf2] eqn:Hp; cbn [fst snd].
  - destruct (fct_call _ p tf2) as [[o|e2] tf3] eqn:Ho; cbn [fst snd].
    + destruct (tf_Session tf3) as [[ss|e3] tf4] eqn:Hs; cbn [fst snd].
      * split; [done|]. split; [by eexists|]. split; [by eexists|]. split.
        -- intros _. by exists p, tf2, o, tf3.
        -- intros gr [= <-]. by exists tf2, tf3, tf4.
      * split; [done|]. split; [by eexists|]. split; [by eexists|]. split.
        -- intros _. by exists p, tf2, o, tf3.
        -- done.
    + split; [done|]. split; [by eexists|]. split; [by eexists|]. split.
      * intros Hin. exfalso. apply (Hno _ Hin). by repeat constructor.
      * done.
  - split; [done|]. split; [by eexists|]. split; [by eexists|]. split.
    + intros Hin. exfalso. apply (Hno _ Hin). by repeat constructor.
    + done.
Qed.

(** The graph of the function [3] for two numbers. *)
Lemma build_graph_run_steps_witness :
  let built :=
    TFGraphRunner._build_graph_run (H := Sample.tensorflow)
      (@TFGraphRunner.Build_RunArgs Sample.tensorflow 3%positive ("int64", [1; 2]%Z))
      (TFGraphRunner.__init__, (false, 0%nat)) in
  (state_after built).1 = TFGraphRunner.__init__
  /\ exists rest,
       calls built
       = TFGraphRunner.NewGraph (H := Sample.tensorflow) 0%nat
           :: TFGraphRunner.NewPlaceholder (H := Sample.tensorflow) "int64" [2%Z] :: rest.
Proof.
  intros built.
  destruct (build_graph_run_steps (H := Sample.tensorflow)
              (@TFGraphRunner.Build_RunArgs Sample.tensorflow 3%positive
                 ("int64", [1; 2]%Z))
              TFGraphRunner.__init__ (false, 0%nat)) as (Hself & _ & Hcalls & _).
  split; [exact Hself | exact Hcalls].
Defined.

(** X18. The shape check accepts every shape against itself and
    against the pattern of as many [None]; a pattern that accepts a shape
    still accepts it after some of its dimensions are replaced by [None];
    and the empty shape is accepted by the empty pattern only. *)
Theorem assert_shape_match_patterns {E : Type} (shape : tf_utils.static_shape) :
  tf_utils.assert_shape_match (E := E) shape (map Some shape) = Ok tt
  /\ tf_utils.assert_shape_match (E := E) shape (replicate (length shape) None) = Ok tt
  /\ (forall pattern relaxed,
        tf_utils.assert_shape_match (E := E) shape pattern = Ok tt ->
        Forall2 (fun d d' => d' = None \/ d' = d) pattern relaxed ->
        tf_utils.assert_shape_match (E := E) shape relaxed = Ok tt)
  /\ (forall pattern,
        tf_utils.assert_shape_match (E := E) [] pattern = Ok tt <-> pattern = []).
Proof.
  assert (Hrelax : forall pattern relaxed,
            tf_utils.assert_shape_match (E := E) shape pattern = Ok tt ->
            Forall2 (fun d d' => d' = None \/ d' = d) pattern relaxed ->
            tf_utils.assert_shape_match (E := E) shape relaxed = Ok tt).
  { intros pattern relaxed [Hlen Hagree]%assert_shape_match_Ok Hrel.
    apply assert_shape_match_Ok. split.
    - rewrite Hlen. by eapply Forall2_length.
    - intros i d Hi.
      destruct (Forall2_lookup_r _ _ _ _ _ Hrel Hi) as (d0 & Hd0 & [?| <-]); [done|].
      by apply Hagree. }
  assert (Hself : tf_utils.assert_shape_match (E := E) shape (map Some shape) = Ok tt).
  { apply assert_shape_match_Ok. split; [by rewrite length_map|].
    clear Hrelax. unfold tf_utils.positions_agree.
    induction shape as [|n shape' IH]; intros [|i] d Hi;
      try done; [by injection Hi as -> | by apply (IH i d)]. }
  split; [done|]. split; [|split; [done|]].
  - apply (Hrelax (map Some shape)); [done|].
    apply Forall2_same_length_lookup_2.
    + by rewrite length_map, length_replicate.
    + intros i d d' _ Hd'. apply lookup_replicate in Hd' as [-> _]. by left.
  - intros pattern. rewrite assert_shape_match_Ok. split.
    + intros [Hlen _]. by destruct pattern.
    + intros ->. split; [done|]. intros i d Hi. by destruct i.
Qed.

Lemma assert_shape_match_patterns_witness :
  tf_utils.assert_shape_match (E := Empty_set) [64; 64; 3]%Z [Some 64; None; None]%Z
  = Ok tt.
Proof.
  destruct (assert_shape_match_patterns (E := Empty_set) [64; 64; 3]%Z)
    as (Hself & _ & Hrelax & _).
  apply (Hrelax (map Some [64; 64; 3]%Z)); [exact Hself|].
  simpl. repeat (constructor; [first [by left | by right]|]). constructor.
Defined.

(** X19. A generation that succeeds makes the next call a reuse.  When
    the hook has returned and the staging directory is left without an
    exception, the call returns and the builder points to the new version
    directory [<root>/<name>/<version>]; a following call with a manager in
    mode REUSE_DATASET_IF_EXISTS then logs that it reuses that directory and
    does nothing else: the builder and the world stay as the first call
    left them and the hook is not called again. *)
Theorem download_and_prepare_then_reuse `{Platform}
    (hook : t -> DownloadManager -> W unit)
    (cache_dir : option string) (dl_manager : option DownloadManager)
    (self : t) (env : Env) (dm : DownloadManager) (env0 : Env) (built : list Event)
    (tmp : string) (env1 env2 env3 : Env) (hooked : list Event) (b : bool)
    (again : DownloadManager) :
  selects self env cache_dir dl_manager dm env0 built ->
  Py.truthy (_data_dir self) && bool_decide (mode dm = REUSE_DATASET_IF_EXISTS) = false ->
  let final :=
    Some (Py.os_path_join (Py.os_path_join (_data_dir_root self) (name self))
            (strftime_version (datetime_now env0))) in
  incomplete_dir_enter final env0 = (Ok tmp, env1) ->
  hook (set_data_dir (Some tmp) self) dm env1 = (Ok tt, env2, hooked) ->
  incomplete_dir_exit final tmp None env2 = (Ok b, env3) ->
  mode again = REUSE_DATASET_IF_EXISTS ->
  let once := download_and_prepare hook [] cache_dir dl_manager (self, env) in
  outcome once = Ok tt
  /\ _data_dir (state_after once).1 = final
  /\ download_and_prepare hook [] None (Some again) (state_after once)
     = (Ok tt, state_after once,
        [LogInfo "Reusing dataset %s (%s)" [ArgStr (Some (name self)); ArgStr final]]).
Proof.
  intros Hsel Hgen final Henter Hhook Hexit Hmode once.
  destruct (download_and_prepare_generated hook cache_dir dl_manager self env dm env0
              built tmp env1 env2 env3 hooked b Hsel Hgen Henter Hhook Hexit)
    as [Hout Hstate].
  unfold once. rewrite Hstate. split; [done|]. split; [done|].
  rewrite download_and_prepare_supplied by done.
  rewrite prepare_with_manager_reuse; [done | apply version_dir_truthy | done].
Qed.

(** The dataset without a version is generated, then asked for again. *)
Lemma download_and_prepare_then_reuse_witness :
  let once :=
    download_and_prepare (H := Sample.platform) (Sample.prepare_hook 1 2) []
      None (Some Sample.manager) (Sample.broken, Sample.world) in
  outcome once = Ok tt
  /\ _data_dir (state_after once).1 = Some "/data/broken/v_20180704_0930"
  /\ calls (download_and_prepare (H := Sample.platform) (Sample.prepare_hook 1 2) []
              None (Some Sample.manager) (state_after once))
     = [LogInfo (H := Sample.platform) "Reusing dataset %s (%s)"
          [ArgStr (Some "broken"); ArgStr (Some "/data/broken/v_20180704_0930")]].
Proof.
  intros once.
  pose (staging := "/data/broken/v_20180704_0930.incomplete").
  pose (env1 := Sample.mkdir staging Sample.world).
  pose (hooked := Sample.prepare_hook 1 2 (set_data_dir (Some staging) Sample.broken)
                    Sample.manager env1).
  pose (env3 := Sample.promote staging "/data/broken/v_20180704_0930" hooked.1.2).
  destruct (download_and_prepare_then_reuse (H := Sample.platform)
              (Sample.prepare_hook 1 2) None (Some Sample.manager)
              Sample.broken Sample.world Sample.manager Sample.world []
              staging env1 hooked.1.2 env3 hooked.2 false Sample.manager)
    as (Hout & Hdir & Hagain);
    [constructor; reflexivity | reflexivity | reflexivity | reflexivity | reflexivity
    | reflexivity |].
  split; [exact Hout|]. split; [exact Hdir|].
  exact (f_equal calls Hagain).
Defined.

(** X20. What a generator-based builder has generated is what it then
    reads.  After a generation that succeeds, [as_dataset] asks for the file
    pattern of the builder's name and of the split in the new version
    directory, not in its staging directory, with the suffix of the file
    format; if there is no such pattern it raises and builds nothing,
    otherwise it builds one dataset from that pattern. *)
Theorem generator_based_reads_what_it_generated `{Platform}
    (_dataset_split_generators : t -> DownloadManager -> W (list SplitGenerator.t))
    (adapter : GeneratorBasedDatasetBuilder.FileFormatAdapter)
    (cache_dir : option string) (dl_manager : option DownloadManager)
    (self : t) (env : Env) (dm : DownloadManager) (env0 : Env) (built : list Event)
    (tmp : string) (env1 env2 env3 : Env) (hooked : list Event) (b : bool)
    (split : Split) (shuffle_files : option bool) :
  selects self env cache_dir dl_manager dm env0 built ->
  Py.truthy (_data_dir self) && bool_decide (mode dm = REUSE_DATASET_IF_EXISTS) = false ->
  let final :=
    Some (Py.os_path_join (Py.os_path_join (_data_dir_root self) (name self))
            (strftime_version (datetime_now env0))) in
  incomplete_dir_enter final env0 = (Ok tmp, env1) ->
  GeneratorBasedDatasetBuilder._download_and_prepare _dataset_split_generators adapter
    (set_data_dir (Some tmp) self) dm env1 = (Ok tt, env2, hooked) ->
  incomplete_dir_exit final tmp None env2 = (Ok b, env3) ->
  let once :=
    GeneratorBasedDatasetBuilder.download_and_prepare _dataset_split_generators adapter
      [] cache_dir dl_manager (self, env) in
  GeneratorBasedDatasetBuilder.as_dataset adapter (state_after once).1 [] split
    shuffle_files (state_after once).2
  = match filepattern_for_dataset_split (name self) split final
            (GeneratorBasedDatasetBuilder.filetype_suffix adapter) with
    | Ok pattern =>
        let shuffle := GeneratorBasedDatasetBuilder.shuffle_files_arg split shuffle_files in
        let '(r, env') :=
          build_dataset pattern
            (GeneratorBasedDatasetBuilder.dataset_from_filename adapter)
            GeneratorBasedDatasetBuilder._preprocess shuffle env3 in
        (match r with Ok dataset => Ok dataset | Raise e => Raise (Foreign e) end,
         env', [BuildDataset pattern shuffle])
    | Raise e => (Raise (Foreign e), env3, [])
    end.
Proof.
  intros Hsel Hgen final Henter Hhook Hexit once.
  destruct (download_and_prepare_generated _ cache_dir dl_manager self env dm env0
              built tmp env1 env2 env3 hooked b Hsel Hgen Henter Hhook Hexit)
    as [_ Hstate].
  unfold once, GeneratorBasedDatasetBuilder.download_and_prepare. rewrite Hstate.
  unfold GeneratorBasedDatasetBuilder.as_dataset, as_dataset, disallow_positional_args,
    foreign, GeneratorBasedDatasetBuilder._as_dataset, SplitFiles.filepattern,
    GeneratorBasedDatasetBuilder._split_files, bind, of_result, call.
  cbn [fst snd SplitFiles.dataset_name SplitFiles.split SplitFiles.data_dir
       SplitFiles.filetype_suffix name _data_dir set_data_dir].
  destruct (filepattern_for_dataset_split _ _ _ _) as [pattern|e]; [|done].
  by destruct (build_dataset _ _ _ _ env3) as [[d|e] env4].
Qed.

(** The train split of the dataset that has just been generated. *)
Lemma generator_based_reads_what_it_generated_witness :
  let once :=
    GeneratorBasedDatasetBuilder.download_and_prepare (H := Sample.platform)
      (Sample.split_generators 1 2) Sample.adapter
      [] None (Some Sample.manager) (Sample.broken, Sample.world) in
  outcome (GeneratorBasedDatasetBuilder.as_dataset (H := Sample.platform) Sample.adapter
             (state_after once).1 [] TRAIN None (state_after once).2)
  = Ok ("/data/broken/v_20180704_0930/broken-train.tfrecord*", true).
Proof.
  intros once.
  pose (staging := "/data/broken/v_20180704_0930.incomplete").
  pose (env1 := Sample.mkdir staging Sample.world).
  pose (hooked := Sample.prepare_hook 1 2 (set_data_dir (Some staging) Sample.broken)
                    Sample.manager env1).
  pose (env3 := Sample.promote staging "/data/broken/v_20180704_0930" hooked.1.2).
  refine (eq_trans (f_equal outcome
    (generator_based_reads_what_it_generated (H := Sample.platform)
       (Sample.split_generators 1 2) Sample.adapter None (Some Sample.manager)
       Sample.broken Sample.world Sample.manager Sample.world []
       staging env1 hooked.1.2 env3 hooked.2 false TRAIN None
       _ _ _ _ _)) _);
    [constructor; reflexivity | reflexivity | reflexivity | reflexivity | reflexivity
    | reflexivity].
Defined.

(** X21. [output_files] gives the paths of the generator's descriptors
    in the order of the descriptors, each descriptor's paths together and in
    their own order; it raises when the paths of a descriptor cannot be had,
    and then what the first such descriptor raised. *)
Theorem output_files_in_order `{Platform} (g : SplitGenerator.t) :
  (forall paths,
     Forall2 (fun sf ps => SplitFiles.filepaths sf = Ok ps)
       (SplitGenerator.split_files g) paths ->
     SplitGenerator.output_files g = Ok (concat paths))
  /\ (forall before sf after e,
        SplitGenerator.split_files g = before ++ sf :: after ->
        Forall (fun sf' => exists ps, SplitFiles.filepaths sf' = Ok ps) before ->
        SplitFiles.filepaths sf = Raise e ->
        SplitGenerator.output_files g = Raise e)
  /\ (forall files,
        SplitGenerator.output_files g = Ok files ->
        exists paths,
          Forall2 (fun sf ps => SplitFiles.filepaths sf = Ok ps)
            (SplitGenerator.split_files g) paths
          /\ files = concat paths).
Proof.
  rewrite output_files_concat. split; [|split].
  - intros paths Hall. apply map_result_Ok in Hall. by rewrite Hall.
  - intros before sf after e Hl Hbefore Hsf.
    assert (map_result SplitFiles.filepaths (SplitGenerator.split_files g) = Raise e)
      as ->; [|done].
    apply map_result_Raise. by exists before, sf, after.
  - intros files Hfiles.
    destruct (map_result SplitFiles.filepaths (SplitGenerator.split_files g))
      as [paths|e] eqn:Hmap; [|done].
    exists paths. split; [by apply map_result_Ok | congruence].
Qed.

(** A generator across the train and the test split. *)
Lemma output_files_in_order_witness :
  SplitGenerator.output_files (H := Sample.platform)
    (@SplitGenerator.Build_t Sample.platform 1%nat
       [GeneratorBasedDatasetBuilder._split_files Sample.adapter Sample.mnist TRAIN
          (Some 2%Z);
        GeneratorBasedDatasetBuilder._split_files Sample.adapter Sample.mnist TEST
          (Some 1%Z)])
  = Ok (concat
          [["/data/mnist/v_20180601_1200/mnist-train.tfrecord-00000-of-00002";
            "/data/mnist/v_20180601_1200/mnist-train.tfrecord-00001-of-00002"];
           ["/data/mnist/v_20180601_1200/mnist-test.tfrecord-00000-of-00001"]]).
Proof.
  apply (output_files_in_order (H := Sample.platform)).
  repeat (constructor; [reflexivity|]). constructor.
Defined.

End further.
